(** * PodcastHub: the page handlers of the podcast application, embedded.

    The application is a set of React pages that talk to a managed
    backend (tables, object storage, session).  Each handler of the
    TypeScript sources is embedded as a computation in a small monad [M]
    that threads the page's React state and the [World]: the backend, the
    browser and a chronological [trace] of what the handler did (requests
    sent, state setters called, navigation, dialogs, error logs).

    What the environment decides is an input of the run, held in the
    [World]: the outcome of every awaited backend call ([network]), the
    answer to [window.confirm] ([dialog]), the event a transient audio
    element fires ([media]) and the value of [Math.random] ([random36]).

    Informational [console.log] calls and the JSX markup are left out; every
    other statement of the embedded handlers is kept, in source order. *)

From Stdlib Require Import ZArith NArith QArith Qround String Ascii List Bool Lia.
From stdpp Require Import base option list gmap strings pretty sorting.

Local Open Scope string_scope.
Local Open Scope list_scope.

(* ===================================================================== *)
(** ** JavaScript values the handlers compute with *)
(* ===================================================================== *)

Module JS.

(** A JavaScript number as far as the handlers use one: a finite double
    is a rational, and the two non-finite values an audio element can
    report are kept apart. *)
Inductive number : Type :=
| Finite (q : Q)
| PlusInfinity
| NaN.

(** [Math.round]: the nearest integer, ties towards plus infinity. *)
Definition Math_round (x : number) : number :=
  match x with
  | Finite q => Finite (inject_Z (Qfloor (q + (1 # 2))))
  | PlusInfinity => PlusInfinity
  | NaN => NaN
  end.

(** [s.split(sep)] for a one-character separator: never empty. *)
Fixpoint split_from (sep : ascii) (cur s : string) : list string :=
  match s with
  | EmptyString => [cur]
  | String c rest =>
      if Ascii.eqb c sep
      then cur :: split_from sep "" rest
      else split_from sep (cur +:+ String c "") rest
  end.

Definition split (sep : ascii) (s : string) : list string :=
  split_from sep "" s.

(** [arr.pop()] read as a value: the last element. *)
Definition pop (l : list string) : string := List.last l "".

(** [s.startsWith(p)] *)
Definition startsWith (s p : string) : bool := String.prefix p s.

(** [s] between double quotes, for messages that quote a name *)
Definition quoted (s : string) : string :=
  String "034"%char s +:+ String "034"%char EmptyString.

(** [msg || fallback] on strings: the empty string is falsy. *)
Definition or_else (msg fallback : string) : string :=
  if String.eqb msg "" then fallback else msg.

(** The characters [encodeURI] leaves as they are: letters, digits and
    [; , / ? : @ & = + $ - _ . ! ~ * ' ( ) #]. *)
Definition uri_kept (c : ascii) : bool :=
  let n := nat_of_ascii c in
  (48 <=? n)%nat && (n <=? 57)%nat || (65 <=? n)%nat && (n <=? 90)%nat
  || (97 <=? n)%nat && (n <=? 122)%nat
  || existsb (Ascii.eqb c) (list_ascii_of_string ";,/?:@&=+$-_.!~*'()#").

Definition hex_digit (n : nat) : ascii :=
  ascii_of_nat (if (n <? 10)%nat then (48 + n)%nat else (55 + n)%nat).

(** [encodeURI(s)].  A string is the sequence of its UTF-8 bytes, which
    stands for a well-formed JavaScript string (on those [encodeURI] does
    not throw): every byte that is not kept becomes [%XX], in upper-case
    hexadecimal. *)
Fixpoint encodeURI (s : string) : string :=
  match s with
  | EmptyString => EmptyString
  | String c rest =>
      if uri_kept c then String c (encodeURI rest)
      else
        let n := nat_of_ascii c in
        String "%"%char
               (String (hex_digit (n / 16)%nat)
                       (String (hex_digit (n mod 16)%nat) (encodeURI rest)))
  end.

End JS.

(* ===================================================================== *)
(** ** Rows: [src/types] and the SQL schema *)
(* ===================================================================== *)

Module User.
Record t : Type := { id : string; email : string }.
End User.

Module Podcast.
Record t : Type := {
  id : string;
  title : string;
  description : string;
  cover_image_url : option string;
  author_id : string;
  created_at : Z;
  updated_at : Z
}.
End Podcast.

Module Episode.
Record t : Type := {
  id : string;
  podcast_id : string;
  title : string;
  description : string;
  audio_url : string;
  duration : Z;
  published_at : string;
  created_at : Z
}.
End Episode.

(** A row of [subscriptions] or [favorites]: the pair (user, target) is the
    key of the table ([UNIQUE(user_id, ..)]), this is the rest of the row. *)
Module JoinRow.
Record t : Type := { id : string; created_at : Z }.
End JoinRow.

(** A row of the favorites page: the join row with its embedded episode
    and the episode's embedded podcast. *)
Module Favorite.
Record t : Type := {
  id : string;
  user_id : string;
  episode_id : string;
  created_at : Z;
  episode : option (Episode.t * option Podcast.t)
}.
End Favorite.

Module File.
Record t : Type := { name : string; type : string; size : N }.
End File.

(** The object literal passed to [from('podcasts').insert]. *)
Module NewPodcast.
Record t : Type := {
  title : string;
  description : string;
  cover_image_url : option string;
  author_id : string
}.
End NewPodcast.

(** The object literal passed to [from('episodes').insert]. *)
Module NewEpisode.
Record t : Type := {
  podcast_id : string;
  title : string;
  description : string;
  audio_url : string;
  duration : JS.number;
  published_at : string
}.
End NewEpisode.

(** An error object: what a backend call reports in its [error] field and
    what a [throw] carries. *)
Module Err.
Record t : Type := { code : string; message : string }.
Definition Error (msg : string) : t := {| code := ""; message := msg |}.
End Err.

(* ===================================================================== *)
(** ** The backend: tables, row-level policies, storage *)
(* ===================================================================== *)

(** The tables and policies follow the SQL migration of the repository.
    Profiles are not modelled: the signed-in user is taken to have one.
    The storage service is not part of the repository, whose storage
    migration only creates 'podcast-covers' with an INSERT policy for
    signed-in users and a SELECT policy for everyone.  The storage below is
    what the service does with a request it lets through; a request it
    turns down, by policy or otherwise, is a [Refused] outcome of the
    call. *)
Module Backend.

Record DB : Type := {
  podcasts : gmap string Podcast.t;
  episodes : gmap string Episode.t;
  (** key: (user_id, podcast_id) *)
  subscriptions : gmap (string * string) JoinRow.t;
  (** key: (user_id, episode_id) *)
  favorites : gmap (string * string) JoinRow.t
}.

Record Storage : Type := {
  (** bucket name, and whether it is public *)
  buckets : gmap string bool;
  (** key: (bucket, path) *)
  objects : gmap (string * string) File.t
}.

Record t : Type := { db : DB; storage : Storage }.

Inductive Request : Type :=
(** from('podcasts').select('*').eq('id', id).single() *)
| select_podcast (id : string)
(** from('podcasts').select('*').eq('author_id', uid).order('created_at', desc) *)
| select_podcasts_of (author_id : string)
(** from('favorites').select(..episode..podcast..).eq('user_id', uid).order(..) *)
| select_favorites_of (user_id : string)
| insert_favorite (episode_id user_id : string)
| delete_favorite (episode_id user_id : string)
| insert_subscription (podcast_id user_id : string)
| delete_subscription (podcast_id user_id : string)
| delete_podcast (id : string)
| delete_episode (id : string)
(** from('podcasts').insert(row).select().single() *)
| insert_podcast (row : NewPodcast.t)
(** from('episodes').insert(row).select().single() *)
| insert_episode (row : NewEpisode.t)
| listBuckets
| createBucket (name : string) (public : bool)
| upload (bucket path : string) (file : File.t) (upsert : bool).

Inductive Data : Type :=
| null
| podcast_row (p : Podcast.t)
| podcast_rows (l : list Podcast.t)
| episode_row (e : Episode.t)
| favorite_rows (l : list Favorite.t)
| bucket_names (l : list string)
| stored_path (path : string).

Record Response : Type := { data : Data; error : option Err.t }.

Definition ok (d : Data) : Response := {| data := d; error := None |}.

Definition failed (code msg : string) : Response :=
  {| data := null; error := Some {| Err.code := code; Err.message := msg |} |}.

(** ORDER BY key DESC *)
Fixpoint insert_desc {A : Type} (key : A -> Z) (x : A) (l : list A) : list A :=
  match l with
  | [] => [x]
  | y :: l' =>
      if (key y <? key x)%Z then x :: l else y :: insert_desc key x l'
  end.

Definition order_desc {A : Type} (key : A -> Z) (l : list A) : list A :=
  foldr (insert_desc key) [] l.

(** [auth.uid() IN (SELECT author_id FROM podcasts WHERE id = podcast_id)] *)
Definition authors (uid : option string) (d : DB) (podcast_id : string) : bool :=
  match podcasts d !! podcast_id with
  | Some p => bool_decide (uid = Some (Podcast.author_id p))
  | None => false
  end.

(** DELETE of one podcast row with its [ON DELETE CASCADE] dependants. *)
Definition drop_podcast (pid : string) (d : DB) : DB :=
  {| podcasts := delete pid (podcasts d);
     episodes := filter (λ kv, Episode.podcast_id kv.2 ≠ pid) (episodes d);
     subscriptions := filter (λ kv, kv.1.2 ≠ pid) (subscriptions d);
     favorites :=
       filter (λ kv, Episode.podcast_id <$> episodes d !! kv.1.2 ≠ Some pid)
              (favorites d) |}.

Definition drop_episode (eid : string) (d : DB) : DB :=
  {| podcasts := podcasts d;
     episodes := delete eid (episodes d);
     subscriptions := subscriptions d;
     favorites := filter (λ kv, kv.1.2 ≠ eid) (favorites d) |}.

Definition with_favorites (f : gmap (string * string) JoinRow.t) (d : DB) : DB :=
  {| podcasts := podcasts d; episodes := episodes d;
     subscriptions := subscriptions d; favorites := f |}.

Definition with_subscriptions (s : gmap (string * string) JoinRow.t) (d : DB) : DB :=
  {| podcasts := podcasts d; episodes := episodes d;
     subscriptions := s; favorites := favorites d |}.

Definition with_podcasts (p : gmap string Podcast.t) (d : DB) : DB :=
  {| podcasts := p; episodes := episodes d;
     subscriptions := subscriptions d; favorites := favorites d |}.

Definition with_episodes (e : gmap string Episode.t) (d : DB) : DB :=
  {| podcasts := podcasts d; episodes := e;
     subscriptions := subscriptions d; favorites := favorites d |}.

Definition favorites_page (uid : option string) (user_id : string) (d : DB)
  : list Favorite.t :=
  if bool_decide (uid = Some user_id) then
    order_desc Favorite.created_at
      ((λ kv : string * string * JoinRow.t,
          {| Favorite.id := JoinRow.id kv.2;
             Favorite.user_id := kv.1.1;
             Favorite.episode_id := kv.1.2;
             Favorite.created_at := JoinRow.created_at kv.2;
             Favorite.episode :=
               (λ e, (e, podcasts d !! Episode.podcast_id e))
                 <$> episodes d !! kv.1.2 |})
         <$> filter (λ kv : string * string * JoinRow.t, kv.1.1 = user_id)
                    (map_to_list (favorites d)))
  else [].

(** An INTEGER column takes a JSON number without fraction from -2^31 to
    2^31 - 1. *)
Definition to_integer (x : JS.number) : option Z :=
  match x with
  | JS.Finite q =>
      if Qeq_bool (inject_Z (Qfloor q)) q
         && (-2147483648 <=? Qfloor q)%Z && (Qfloor q <=? 2147483647)%Z
      then Some (Qfloor q)
      else None
  | _ => None
  end.

(** Why the store does not take a [duration].  NaN and Infinity are
    serialised as JSON null, which NOT NULL rejects (23502); a whole number
    out of range is 22003 (the text shows the value as JSON has it, the
    plain digits below 10^21); a fraction, which [Math.round] never yields,
    is 22P02. *)
Definition integer_fault (x : JS.number) : Err.t :=
  match x with
  | JS.Finite q =>
      if Qeq_bool (inject_Z (Qfloor q)) q
      then {| Err.code := "22003";
              Err.message := "value " +:+ JS.quoted (pretty (Qfloor q))
                             +:+ " is out of range for type integer" |}
      else {| Err.code := "22P02";
              Err.message := "invalid input syntax for type integer" |}
  | _ =>
      {| Err.code := "23502";
         Err.message := "null value in column " +:+ JS.quoted "duration"
                        +:+ " of relation " +:+ JS.quoted "episodes"
                        +:+ " violates not-null constraint" |}
  end.

(** One request served: [uid] is [auth.uid()], [uuid] and [now] are what
    [gen_random_uuid()] and [now()] yield for this statement. *)
Definition serve_db (uid : option string) (uuid : string) (now : Z)
           (r : Request) (d : DB) : Response * DB :=
  match r with
  | select_podcast id =>
      match podcasts d !! id with
      | Some p => (ok (podcast_row p), d)
      | None => (failed "PGRST116" "JSON object requested, multiple (or no) rows returned", d)
      end
  | select_podcasts_of author =>
      (ok (podcast_rows
             (order_desc Podcast.created_at
                (filter (λ p, Podcast.author_id p = author)
                        ((map_to_list (podcasts d)).*2)))), d)
  | select_favorites_of user_id =>
      (ok (favorite_rows (favorites_page uid user_id d)), d)
  | insert_favorite episode_id user_id =>
      if negb (bool_decide (uid = Some user_id)) then
        (failed "42501" "new row violates row-level security policy", d)
      else if negb (bool_decide (is_Some (episodes d !! episode_id))) then
        (failed "23503" "insert or update violates foreign key constraint", d)
      else if bool_decide (is_Some (favorites d !! (user_id, episode_id))) then
        (failed "23505" "duplicate key value violates unique constraint", d)
      else
        (ok null,
         with_favorites
           (<[(user_id, episode_id) := {| JoinRow.id := uuid; JoinRow.created_at := now |}]>
              (favorites d)) d)
  | delete_favorite episode_id user_id =>
      if bool_decide (uid = Some user_id)
      then (ok null, with_favorites (delete (user_id, episode_id) (favorites d)) d)
      else (ok null, d)
  | insert_subscription podcast_id user_id =>
      if negb (bool_decide (uid = Some user_id)) then
        (failed "42501" "new row violates row-level security policy", d)
      else if negb (bool_decide (is_Some (podcasts d !! podcast_id))) then
        (failed "23503" "insert or update violates foreign key constraint", d)
      else if bool_decide (is_Some (subscriptions d !! (user_id, podcast_id))) then
        (failed "23505" "duplicate key value violates unique constraint", d)
      else
        (ok null,
         with_subscriptions
           (<[(user_id, podcast_id) := {| JoinRow.id := uuid; JoinRow.created_at := now |}]>
              (subscriptions d)) d)
  | delete_subscription podcast_id user_id =>
      if bool_decide (uid = Some user_id)
      then (ok null, with_subscriptions (delete (user_id, podcast_id) (subscriptions d)) d)
      else (ok null, d)
  | delete_podcast id =>
      if authors uid d id then (ok null, drop_podcast id d) else (ok null, d)
  | delete_episode id =>
      match episodes d !! id with
      | Some e =>
          if authors uid d (Episode.podcast_id e)
          then (ok null, drop_episode id d)
          else (ok null, d)
      | None => (ok null, d)
      end
  | insert_podcast row =>
      if negb (bool_decide (uid = Some (NewPodcast.author_id row))) then
        (failed "42501" "new row violates row-level security policy", d)
      else if bool_decide (is_Some (podcasts d !! uuid)) then
        (failed "23505" "duplicate key value violates unique constraint", d)
      else
        let p := {| Podcast.id := uuid;
                    Podcast.title := NewPodcast.title row;
                    Podcast.description := NewPodcast.description row;
                    Podcast.cover_image_url := NewPodcast.cover_image_url row;
                    Podcast.author_id := NewPodcast.author_id row;
                    Podcast.created_at := now;
                    Podcast.updated_at := now |} in
        (ok (podcast_row p), with_podcasts (<[uuid := p]> (podcasts d)) d)
  | insert_episode row =>
      if negb (authors uid d (NewEpisode.podcast_id row)) then
        (failed "42501" "new row violates row-level security policy", d)
      else if bool_decide (is_Some (episodes d !! uuid)) then
        (failed "23505" "duplicate key value violates unique constraint", d)
      else
        match to_integer (NewEpisode.duration row) with
        | None =>
            ({| data := null; error := Some (integer_fault (NewEpisode.duration row)) |}, d)
        | Some secs =>
            let e := {| Episode.id := uuid;
                        Episode.podcast_id := NewEpisode.podcast_id row;
                        Episode.title := NewEpisode.title row;
                        Episode.description := NewEpisode.description row;
                        Episode.audio_url := NewEpisode.audio_url row;
                        Episode.duration := secs;
                        Episode.published_at := NewEpisode.published_at row;
                        Episode.created_at := now |} in
            (ok (episode_row e), with_episodes (<[uuid := e]> (episodes d)) d)
        end
  | _ => (failed "" "not a table request", d)
  end.

Definition serve_storage (r : Request) (s : Storage) : Response * Storage :=
  match r with
  | listBuckets => (ok (bucket_names (elements (dom (buckets s)))), s)
  | createBucket name public =>
      if bool_decide (is_Some (buckets s !! name))
      then (failed "409" "The resource already exists", s)
      else (ok null, {| buckets := <[name := public]> (buckets s); objects := objects s |})
  | upload bucket path file upsert =>
      if negb (bool_decide (is_Some (buckets s !! bucket))) then
        (failed "404" "Bucket not found", s)
      else if bool_decide (is_Some (objects s !! (bucket, path))) && negb upsert then
        (failed "409" "The resource already exists", s)
      else
        (ok (stored_path path),
         {| buckets := buckets s; objects := <[(bucket, path) := file]> (objects s) |})
  | _ => (failed "" "not a storage request", s)
  end.

Definition is_storage (r : Request) : bool :=
  match r with
  | listBuckets | createBucket _ _ | upload _ _ _ _ => true
  | _ => false
  end.

Definition serve (uid : option string) (uuid : string) (now : Z)
           (r : Request) (b : t) : Response * t :=
  if is_storage r then
    let '(resp, s) := serve_storage r (storage b) in
    (resp, {| db := db b; storage := s |})
  else
    let '(resp, d) := serve_db uid uuid now r (db b) in
    (resp, {| db := d; storage := storage b |}).

End Backend.

(* ===================================================================== *)
(** ** The world a handler runs in, and the handler monad *)
(* ===================================================================== *)

(** How an awaited backend call ends: the server runs the statement
    ([Served], with the values of [gen_random_uuid()] and [now()]), and may
    still answer with a constraint or policy error; the call resolves to
    [{ data: null, error }] without reaching the tables ([Refused]), the
    way every handler that destructures [{ data, error }] and tests [error]
    expects a failure to arrive; or the awaited promise rejects ([Thrown]),
    which is what the [catch] blocks are written for. *)
Inductive Outcome : Type :=
| Served (uuid : string) (now : Z)
| Refused (msg : string)
| Thrown (msg : string).

(** What a transient [<audio>] element does once its [src] is set. *)
Inductive MediaEvent : Type :=
| loadedmetadata (duration : JS.number)
| media_error
| no_event.

Inductive Event : Type :=
| call (r : Backend.Request)
| set_state (setter : string)
| navigate (to : string)
| confirm (msg : string)
| alert (msg : string)
| console_error (msg : string).

Record World : Type := {
  (** useAuth(); the same user is the [auth.uid()] of the requests *)
  user : option User.t;
  loading : bool;
  backend : Backend.t;
  (** outcomes of the backend calls to come, in order *)
  network : list Outcome;
  (** the visitor's answer to window.confirm *)
  dialog : bool;
  media : MediaEvent;
  (** Math.random().toString(36).substring(2, 15) *)
  random36 : string;
  supabaseUrl : string;
  trace : list Event
}.

Definition log (e : Event) (w : World) : World :=
  {| user := user w; loading := loading w; backend := backend w;
     network := network w; dialog := dialog w; media := media w;
     random36 := random36 w; supabaseUrl := supabaseUrl w;
     trace := trace w ++ [e] |}.

Definition respond (b : Backend.t) (w : World) : World :=
  {| user := user w; loading := loading w; backend := b;
     network := tail (network w); dialog := dialog w; media := media w;
     random36 := random36 w; supabaseUrl := supabaseUrl w;
     trace := trace w |}.

Inductive Result (A : Type) : Type :=
| Returned (a : A)
| Threw (e : Err.t)
| Suspended.
Arguments Returned {A} a.
Arguments Threw {A} e.
Arguments Suspended {A}.

(** A handler over React state [S]. *)
Definition M (S A : Type) : Type := S -> World -> Result A * S * World.

Global Instance M_ret (S : Type) : MRet (M S) :=
  λ A a s w, (Returned a, s, w).

Global Instance M_bind (S : Type) : MBind (M S) :=
  λ A B k m s w,
    match m s w with
    | (Returned a, s', w') => k a s' w'
    | (Threw e, s', w') => (Threw e, s', w')
    | (Suspended, s', w') => (Suspended, s', w')
    end.

Section Primitives.
Context {S : Type}.

Definition throw {A : Type} (e : Err.t) : M S A := λ s w, (Threw e, s, w).

(** a promise that never settles *)
Definition never {A : Type} : M S A := λ s w, (Suspended, s, w).

Definition try_catch (body : M S unit) (handler : Err.t -> M S unit) : M S unit :=
  λ s w,
    match body s w with
    | (Threw e, s', w') => handler e s' w'
    | r => r
    end.

Definition try_finally (body : M S unit) (finalizer : M S unit) : M S unit :=
  λ s w,
    match body s w with
    | (Suspended, s', w') => (Suspended, s', w')
    | (r, s', w') =>
        match finalizer s' w' with
        | (Returned _, s'', w'') => (r, s'', w'')
        | other => other
        end
    end.

Definition emit (e : Event) : M S unit := λ s w, (Returned tt, s, log e w).

(** the value of a state variable *)
Definition read {A : Type} (field : S -> A) : M S A := λ s w, (Returned (field s), s, w).

(** a React state setter *)
Definition set (setter : string) (update : S -> S) : M S unit :=
  λ s w, (Returned tt, update s, log (set_state setter) w).

Definition world {A : Type} (field : World -> A) : M S A :=
  λ s w, (Returned (field w), s, w).

(** [await] of a backend call: the request is logged, then the next
    outcome of [network] decides; with no outcome left the browser is
    offline and the call resolves with an error. *)
Definition await (r : Backend.Request) : M S Backend.Response :=
  λ s w,
    let w1 := log (call r) w in
    match head (network w1) with
    | Some (Served uuid now) =>
        let '(resp, b) := Backend.serve (User.id <$> user w1) uuid now r (backend w1) in
        (Returned resp, s, respond b w1)
    | Some (Refused msg) =>
        (Returned (Backend.failed "" msg), s, respond (backend w1) w1)
    | Some (Thrown msg) =>
        (Threw (Err.Error msg), s, respond (backend w1) w1)
    | None =>
        (Returned (Backend.failed "" "Failed to fetch"), s, w1)
    end.

(** [window.confirm] *)
Definition ask (msg : string) : M S bool :=
  emit (confirm msg);; world dialog.

(** storage.from(bucket).getPublicUrl(path).data.publicUrl: no request.
    The client builds the URL from its base URL (the project URL, without
    a trailing slash), the bucket and the path, and passes it through
    [encodeURI]. *)
Definition getPublicUrl (bucket path : string) : M S string :=
  base ← world supabaseUrl;
  mret (JS.encodeURI (base +:+ "/storage/v1/object/public/" +:+ bucket +:+ "/" +:+ path)).

Definition run (m : M S unit) (s : S) (w : World) : S * World :=
  let '(_, s', w') := m s w in (s', w').

End Primitives.

(* ===================================================================== *)
(** ** pages/dashboard/Dashboard.tsx *)
(* ===================================================================== *)

Module Dashboard.

Record State : Type := {
  podcasts : list Podcast.t;
  loading : bool;
  error : option string
}.

Definition init : State := {| podcasts := []; loading := true; error := None |}.

Definition setPodcasts (l : list Podcast.t) : M State unit :=
  set "setPodcasts" (λ s, {| podcasts := l; loading := loading s; error := error s |}).
Definition setLoading (b : bool) : M State unit :=
  set "setLoading" (λ s, {| podcasts := podcasts s; loading := b; error := error s |}).
Definition setError (e : option string) : M State unit :=
  set "setError" (λ s, {| podcasts := podcasts s; loading := loading s; error := e |}).

Definition fetchUserPodcasts (u : User.t) : M State unit :=
  try_finally
    (try_catch
       (r ← await (Backend.select_podcasts_of (User.id u));
        match Backend.error r with
        | Some e => throw e
        | None =>
            setPodcasts (match Backend.data r with
                         | Backend.podcast_rows l => l
                         | _ => []
                         end)
        end)
       (λ err,
          emit (console_error "Error fetching podcasts:");;
          setError (Some "Failed to load your podcasts")))
    (setLoading false).

Definition useEffect : M State unit :=
  u ← world user;
  match u with
  | None => emit (navigate "/login")
  | Some u => fetchUserPodcasts u
  end.

Definition handleDeletePodcast (podcastId : string) : M State unit :=
  yes ← ask "Are you sure you want to delete this podcast? This action cannot be undone.";
  if negb yes then mret tt
  else
    try_catch
      (r ← await (Backend.delete_podcast podcastId);
       match Backend.error r with
       | Some e => throw e
       | None =>
           podcasts ← read podcasts;
           setPodcasts (filter (λ podcast, Podcast.id podcast ≠ podcastId) podcasts)
       end)
      (λ err,
         emit (console_error "Error deleting podcast:");;
         emit (alert "Failed to delete podcast")).

End Dashboard.

(* ===================================================================== *)
(** ** pages/dashboard/PodcastEpisodes.tsx *)
(* ===================================================================== *)

Module PodcastEpisodes.

Record State : Type := {
  podcast : option Podcast.t;
  episodes : list Episode.t;
  loading : bool;
  error : option string
}.

Definition setEpisodes (l : list Episode.t) : M State unit :=
  set "setEpisodes"
      (λ s, {| podcast := podcast s; episodes := l;
               loading := loading s; error := error s |}).

Definition handleDeleteEpisode (episodeId : string) : M State unit :=
  yes ← ask "Are you sure you want to delete this episode? This action cannot be undone.";
  if negb yes then mret tt
  else
    try_catch
      (r ← await (Backend.delete_episode episodeId);
       match Backend.error r with
       | Some e => throw e
       | None =>
           episodes ← read episodes;
           setEpisodes (filter (λ episode, Episode.id episode ≠ episodeId) episodes)
       end)
      (λ err,
         emit (console_error "Error deleting episode:");;
         emit (alert "Failed to delete episode")).

End PodcastEpisodes.

(* ===================================================================== *)
(** ** pages/EpisodePlayer.tsx: the favorite toggle *)
(* ===================================================================== *)

Module EpisodePlayer.

(** The state the toggle reads and writes; the transport state of the
    player (position, volume, playing) is independent of it. *)
Record State : Type := {
  episode : option Episode.t;
  podcast : option Podcast.t;
  loading : bool;
  error : option string;
  isFavorite : bool
}.

Definition setIsFavorite (b : bool) : M State unit :=
  set "setIsFavorite"
      (λ s, {| episode := episode s; podcast := podcast s; loading := loading s;
               error := error s; isFavorite := b |}).

Definition handleFavorite : M State unit :=
  user ← world user;
  episode ← read episode;
  match user, episode with
  | Some user, Some episode =>
      try_catch
        (isFavorite ← read isFavorite;
         if (isFavorite : bool) then
           await (Backend.delete_favorite (Episode.id episode) (User.id user));;
           setIsFavorite false
         else
           await (Backend.insert_favorite (Episode.id episode) (User.id user));;
           setIsFavorite true)
        (λ err, emit (console_error "Error updating favorites:"))
  | _, _ => mret tt
  end.

End EpisodePlayer.

(* ===================================================================== *)
(** ** pages/PodcastDetail.tsx: the subscribe toggle *)
(* ===================================================================== *)

Module PodcastDetail.

Record State : Type := {
  podcast : option Podcast.t;
  episodes : list Episode.t;
  isSubscribed : bool;
  loading : bool;
  error : option string
}.

Definition setIsSubscribed (b : bool) : M State unit :=
  set "setIsSubscribed"
      (λ s, {| podcast := podcast s; episodes := episodes s; isSubscribed := b;
               loading := loading s; error := error s |}).

(** [id] is the route parameter of /podcasts/:id. *)
Definition handleSubscribe (id : string) : M State unit :=
  user ← world user;
  match user with
  | None => mret tt
  | Some user =>
      try_catch
        (isSubscribed ← read isSubscribed;
         if (isSubscribed : bool) then
           await (Backend.delete_subscription id (User.id user));;
           setIsSubscribed false
         else
           await (Backend.insert_subscription id (User.id user));;
           setIsSubscribed true)
        (λ err, emit (console_error "Error updating subscription:"))
  end.

End PodcastDetail.

(* ===================================================================== *)
(** ** pages/Favorites.tsx *)
(* ===================================================================== *)

Module Favorites.

Record State : Type := {
  favorites : list Favorite.t;
  loading : bool;
  error : option string
}.

Definition init : State := {| favorites := []; loading := true; error := None |}.

Definition setFavorites (l : list Favorite.t) : M State unit :=
  set "setFavorites" (λ s, {| favorites := l; loading := loading s; error := error s |}).
Definition setLoading (b : bool) : M State unit :=
  set "setLoading" (λ s, {| favorites := favorites s; loading := b; error := error s |}).
Definition setError (e : option string) : M State unit :=
  set "setError" (λ s, {| favorites := favorites s; loading := loading s; error := e |}).

Definition fetchFavorites (u : User.t) : M State unit :=
  try_finally
    (try_catch
       (r ← await (Backend.select_favorites_of (User.id u));
        match Backend.error r with
        | Some e => throw e
        | None =>
            setFavorites (match Backend.data r with
                          | Backend.favorite_rows l => l
                          | _ => []
                          end)
        end)
       (λ err,
          emit (console_error "Error fetching favorites:");;
          setError (Some "Failed to load your favorites")))
    (setLoading false).

Definition useEffect : M State unit :=
  u ← world user;
  match u with
  | None => emit (navigate "/login")
  | Some u => fetchFavorites u
  end.

End Favorites.

(* ===================================================================== *)
(** ** pages/dashboard/CreatePodcast.tsx *)
(* ===================================================================== *)

Module CreatePodcast.

Record PodcastFormValues : Type := { title : string; description : string }.

Record State : Type := {
  coverImage : option File.t;
  (** the object URL of the preview, as the file it points to *)
  coverImagePreview : option File.t;
  isUploading : bool;
  error : option string;
  bucketReady : bool
}.

Definition init : State :=
  {| coverImage := None; coverImagePreview := None; isUploading := false;
     error := None; bucketReady := false |}.

Definition setCoverImage (f : option File.t) : M State unit :=
  set "setCoverImage"
      (λ s, {| coverImage := f; coverImagePreview := coverImagePreview s;
               isUploading := isUploading s; error := error s;
               bucketReady := bucketReady s |}).
Definition setCoverImagePreview (f : option File.t) : M State unit :=
  set "setCoverImagePreview"
      (λ s, {| coverImage := coverImage s; coverImagePreview := f;
               isUploading := isUploading s; error := error s;
               bucketReady := bucketReady s |}).
Definition setIsUploading (b : bool) : M State unit :=
  set "setIsUploading"
      (λ s, {| coverImage := coverImage s; coverImagePreview := coverImagePreview s;
               isUploading := b; error := error s; bucketReady := bucketReady s |}).
Definition setError (e : option string) : M State unit :=
  set "setError"
      (λ s, {| coverImage := coverImage s; coverImagePreview := coverImagePreview s;
               isUploading := isUploading s; error := e; bucketReady := bucketReady s |}).
Definition setBucketReady (b : bool) : M State unit :=
  set "setBucketReady"
      (λ s, {| coverImage := coverImage s; coverImagePreview := coverImagePreview s;
               isUploading := isUploading s; error := error s; bucketReady := b |}).

(** first effect: redirect if not logged in *)
Definition redirectEffect : M State unit :=
  u ← world user;
  match u with
  | None => emit (navigate "/login")
  | Some _ => mret tt
  end.

(** [buckets?.some(bucket => bucket.name === name)], falsy on null data *)
Definition some_bucket (name : string) (d : Backend.Data) : bool :=
  match d with
  | Backend.bucket_names l => existsb (String.eqb name) l
  | _ => false
  end.

(** second effect: check that the required bucket exists *)
Definition checkBucketExists : M State unit :=
  try_catch
    (setError None;;
     r ← await Backend.listBuckets;
     match Backend.error r with
     | Some listError =>
         emit (console_error "Error listing buckets:");;
         setError (Some ("Error checking storage buckets: " +:+ Err.message listError))
     | None =>
         let bucketExists := some_bucket "podcast-covers" (Backend.data r) in
         if negb bucketExists then
           setError (Some ("Storage bucket " +:+ JS.quoted "podcast-covers"
                           +:+ " not found. Please contact the administrator to set up storage."))
         else
           setBucketReady true
     end)
    (λ err,
       emit (console_error "Error checking bucket:");;
       setError (Some "Failed to check storage availability. Please try again later.")).

Definition useEffect : M State unit := redirectEffect;; checkBucketExists.

(** [file] is [e.target.files?.[0]]. *)
Definition handleImageChange (file : option File.t) : M State unit :=
  match file with
  | None => mret tt
  | Some file =>
      if negb (JS.startsWith (File.type file) "image/") then
        setError (Some "Please upload an image file")
      else if (5 * 1024 * 1024 <? File.size file)%N then
        setError (Some "Image size should be less than 5MB")
      else
        setCoverImage (Some file);;
        setCoverImagePreview (Some file);;
        setError None
  end.

Definition onSubmit (data : PodcastFormValues) : M State unit :=
  u ← world user;
  match u with
  | None => mret tt
  | Some user =>
      try_finally
        (try_catch
           (setIsUploading true;;
            setError None;;
            coverImage ← read coverImage;
            coverImageUrl ←
              match coverImage with
              | Some coverImage =>
                  bucketReady ← read bucketReady;
                  if negb bucketReady then
                    throw (Err.Error ("Storage is not ready. Please ensure the "
                                      +:+ JS.quoted "podcast-covers"
                                      +:+ " bucket exists in Supabase."))
                  else
                    let fileExt := JS.pop (JS.split "." (File.name coverImage)) in
                    random ← world random36;
                    let fileName := random +:+ "." +:+ fileExt in
                    let filePath := User.id user +:+ "/" +:+ fileName in
                    r ← await (Backend.upload "podcast-covers" filePath coverImage true);
                    match Backend.error r with
                    | Some uploadError =>
                        emit (console_error "Upload error:");;
                        throw (Err.Error ("Image upload failed: " +:+ Err.message uploadError))
                    | None =>
                        publicUrl ← getPublicUrl "podcast-covers" filePath;
                        mret (Some publicUrl)
                    end
              | None => mret None
              end;
            r ← await (Backend.insert_podcast
                         {| NewPodcast.title := title data;
                            NewPodcast.description := description data;
                            NewPodcast.cover_image_url := coverImageUrl;
                            NewPodcast.author_id := User.id user |});
            match Backend.error r with
            | Some insertError =>
                emit (console_error "Insert error:");;
                throw (Err.Error ("Failed to create podcast: " +:+ Err.message insertError))
            | None =>
                match Backend.data r with
                | Backend.podcast_row podcast =>
                    emit (navigate ("/dashboard/podcasts/" +:+ Podcast.id podcast +:+ "/episodes"))
                | _ => throw (Err.Error "Cannot read properties of null (reading 'id')")
                end
            end)
           (λ err,
              emit (console_error "Error creating podcast:");;
              setError (Some (JS.or_else (Err.message err) "Failed to create podcast"))))
        (setIsUploading false)
  end.

End CreatePodcast.

(* ===================================================================== *)
(** ** pages/dashboard/CreateEpisode.tsx *)
(* ===================================================================== *)

Module CreateEpisode.

Record EpisodeFormValues : Type := {
  title : string;
  description : string;
  publishedAt : string
}.

Record State : Type := {
  podcast : option Podcast.t;
  audioFile : option File.t;
  isUploading : bool;
  uploadProgress : Q;
  error : option string
}.

Definition init : State :=
  {| podcast := None; audioFile := None; isUploading := false;
     uploadProgress := 0; error := None |}.

Definition setPodcast (p : option Podcast.t) : M State unit :=
  set "setPodcast"
      (λ s, {| podcast := p; audioFile := audioFile s; isUploading := isUploading s;
               uploadProgress := uploadProgress s; error := error s |}).
Definition setAudioFile (f : option File.t) : M State unit :=
  set "setAudioFile"
      (λ s, {| podcast := podcast s; audioFile := f; isUploading := isUploading s;
               uploadProgress := uploadProgress s; error := error s |}).
Definition setIsUploading (b : bool) : M State unit :=
  set "setIsUploading"
      (λ s, {| podcast := podcast s; audioFile := audioFile s; isUploading := b;
               uploadProgress := uploadProgress s; error := error s |}).
Definition setUploadProgress (q : Q) : M State unit :=
  set "setUploadProgress"
      (λ s, {| podcast := podcast s; audioFile := audioFile s;
               isUploading := isUploading s; uploadProgress := q; error := error s |}).
Definition setError (e : option string) : M State unit :=
  set "setError"
      (λ s, {| podcast := podcast s; audioFile := audioFile s;
               isUploading := isUploading s; uploadProgress := uploadProgress s;
               error := e |}).

Definition fetchPodcast (podcastId : string) (user : User.t) : M State unit :=
  try_catch
    (r ← await (Backend.select_podcast podcastId);
     match Backend.error r with
     | Some e => throw e
     | None =>
         match Backend.data r with
         | Backend.podcast_row data =>
             (* verify ownership *)
             if negb (String.eqb (Podcast.author_id data) (User.id user)) then
               emit (navigate "/dashboard")
             else
               setPodcast (Some data)
         | _ => throw (Err.Error "Cannot read properties of null (reading 'author_id')")
         end
     end)
    (λ err,
       emit (console_error "Error fetching podcast:");;
       setError (Some "Failed to load podcast details")).

(** create storage bucket if it doesn't exist *)
Definition createStorageBucket : M State unit :=
  try_catch
    (r ← await Backend.listBuckets;
     let bucketExists := CreatePodcast.some_bucket "podcast-audio" (Backend.data r) in
     if negb bucketExists then
       r ← await (Backend.createBucket "podcast-audio" true);
       match Backend.error r with
       | Some _ => emit (console_error "Error creating storage bucket:")
       | None => mret tt
       end
     else mret tt)
    (λ err, emit (console_error "Error checking/creating storage bucket:")).

(** The effect starts [fetchPodcast] and [createStorageBucket] without
    awaiting either.  They touch disjoint state and disjoint parts of the
    backend, and are run here one after the other; in the browser their
    requests and answers interleave. *)
Definition useEffect (podcastId : string) : M State unit :=
  u ← world user;
  match u with
  | None => emit (navigate "/login")
  | Some user =>
      (if String.eqb podcastId "" then mret tt else fetchPodcast podcastId user);;
      createStorageBucket
  end.

(** [file] is [e.target.files?.[0]]. *)
Definition handleAudioChange (file : option File.t) : M State unit :=
  match file with
  | None => mret tt
  | Some file =>
      if negb (JS.startsWith (File.type file) "audio/") then
        setError (Some "Please upload an audio file")
      else if (100 * 1024 * 1024 <? File.size file)%N then
        setError (Some "Audio file size should be less than 100MB")
      else
        setAudioFile (Some file);;
        setError None
  end.

(** The size-based estimate of [audio.onerror].  On the sizes the page
    accepts the double arithmetic is exact: a division by a power of two,
    then a product below 2^53. *)
Definition estimate (file : File.t) : JS.number :=
  let sizeInMB := (inject_Z (Z.of_N (File.size file)) / inject_Z (1024 * 1024))%Q in
  JS.Math_round (JS.Finite (sizeInMB * 60)%Q).

(** The promise resolves in the first handler the element calls. *)
Definition getAudioDuration (file : File.t) : M State JS.number :=
  ev ← world media;
  match ev with
  | loadedmetadata duration => mret (JS.Math_round duration)
  | media_error => mret (estimate file)
  | no_event => never
  end.

(** [onSubmit].  The [onUploadProgress] callback is not run: it only moves
    [uploadProgress], which the [finally] block sets back to 0. *)
Section OnSubmit.
(** [new Date(s).toISOString()]; [None] when it throws a RangeError. *)
Variable toISOString : string -> option string.

Definition onSubmit (data : EpisodeFormValues) : M State unit :=
  u ← world user;
  podcast ← read podcast;
  audioFile ← read audioFile;
  match u, podcast, audioFile with
  | Some user, Some podcast, Some audioFile =>
      try_finally
        (try_catch
           (setIsUploading true;;
            setError None;;
            let fileExt := JS.pop (JS.split "." (File.name audioFile)) in
            random ← world random36;
            let fileName := random +:+ "." +:+ fileExt in
            let filePath := Podcast.id podcast +:+ "/" +:+ fileName in
            audioDuration ← getAudioDuration audioFile;
            r ← await (Backend.upload "podcast-audio" filePath audioFile false);
            match Backend.error r with
            | Some uploadError =>
                emit (console_error "Upload error:");;
                throw (Err.Error ("Audio upload failed: " +:+ Err.message uploadError))
            | None =>
                publicUrl ← getPublicUrl "podcast-audio" filePath;
                match toISOString (publishedAt data) with
                | None => throw (Err.Error "Invalid time value")
                | Some published_at =>
                    r ← await (Backend.insert_episode
                                 {| NewEpisode.podcast_id := Podcast.id podcast;
                                    NewEpisode.title := title data;
                                    NewEpisode.description := description data;
                                    NewEpisode.audio_url := publicUrl;
                                    NewEpisode.duration := audioDuration;
                                    NewEpisode.published_at := published_at |});
                    match Backend.error r with
                    | Some insertError =>
                        emit (console_error "Insert error:");;
                        throw (Err.Error ("Failed to create episode: "
                                          +:+ Err.message insertError))
                    | None =>
                        emit (navigate ("/dashboard/podcasts/" +:+ Podcast.id podcast
                                        +:+ "/episodes"))
                    end
                end
            end)
           (λ err,
              emit (console_error "Error creating episode:");;
              setError (Some (JS.or_else (Err.message err) "Failed to create episode"))))
        (setIsUploading false;; setUploadProgress 0)
  | _, _, _ => setError (Some "Please upload an audio file")
  end.

End OnSubmit.

End CreateEpisode.

(* ===================================================================== *)
(** ** App.tsx: routes and the route guard *)
(* ===================================================================== *)

Module App.

Inductive Page : Type :=
| Home | Login | Signup
| PodcastDetail (id : string)
| EpisodePlayer (id : string)
| Dashboard
| CreatePodcast
| PodcastEpisodes (id : string)
| CreateEpisode (id : string)
| Subscriptions
| Favorites.

(** The [element] of a route: a page, a page inside [<ProtectedRoute>],
    or [<Navigate to=.. />]. *)
Inductive Element : Type :=
| plain (p : Page)
| guarded (p : Page)
| Navigate (to : string).

Definition segments (pathname : string) : list string :=
  filter (λ s, s ≠ "") (JS.split "/" pathname).

(** The [<Routes>] table; segments are compared as written. *)
Definition Routes (pathname : string) : Element :=
  match segments pathname with
  | [] => plain Home
  | [a] =>
      if String.eqb a "login" then plain Login
      else if String.eqb a "signup" then plain Signup
      else if String.eqb a "dashboard" then guarded Dashboard
      else if String.eqb a "subscriptions" then guarded Subscriptions
      else if String.eqb a "favorites" then guarded Favorites
      else Navigate "/"
  | [a; id] =>
      if String.eqb a "podcasts" then plain (PodcastDetail id)
      else if String.eqb a "episodes" then plain (EpisodePlayer id)
      else Navigate "/"
  | [a; b; c] =>
      if String.eqb a "dashboard" && String.eqb b "podcasts" && String.eqb c "new"
      then guarded CreatePodcast
      else Navigate "/"
  | [a; b; id; d] =>
      if String.eqb a "dashboard" && String.eqb b "podcasts" && String.eqb d "episodes"
      then guarded (PodcastEpisodes id)
      else Navigate "/"
  | [a; b; id; d; e] =>
      if String.eqb a "dashboard" && String.eqb b "podcasts"
         && String.eqb d "episodes" && String.eqb e "new"
      then guarded (CreateEpisode id)
      else Navigate "/"
  | _ => Navigate "/"
  end.

(** What a component returns: the spinner, a redirect, or a page that
    React then mounts. *)
Inductive Rendered : Type :=
| Loading
| Redirect (to : string)
| Mounted (p : Page).

Definition ProtectedRoute (children : Page) (w : World) : Rendered :=
  if loading w then Loading
  else match user w with
       | None => Redirect "/login"
       | Some _ => Mounted children
       end.

Definition AppRoutes (pathname : string) (w : World) : Rendered :=
  if loading w then Loading
  else match Routes pathname with
       | plain p => Mounted p
       | guarded p => ProtectedRoute p w
       | Navigate to => Redirect to
       end.

Section Mount.
(** The mount effects of the pages that are not embedded above: the
    subscriptions page, whose source is not part of the sources at
    hand, and the public pages. *)
Variable other_effects : Page -> World -> World.

Definition mount (p : Page) (w : World) : World :=
  match p with
  | Dashboard => (run Dashboard.useEffect Dashboard.init w).2
  | Favorites => (run Favorites.useEffect Favorites.init w).2
  | CreatePodcast => (run CreatePodcast.useEffect CreatePodcast.init w).2
  | CreateEpisode id => (run (CreateEpisode.useEffect id) CreateEpisode.init w).2
  | _ => other_effects p w
  end.

(** A visit of [pathname]: render, then run the effects of what was
    mounted. *)
Definition visit (pathname : string) (w : World) : World :=
  match AppRoutes pathname w with
  | Loading => w
  | Redirect to => log (navigate to) w
  | Mounted p => mount p w
  end.

End Mount.

End App.

(* ===================================================================== *)
(** ** Runs, observations and the vocabulary of the properties *)
(* ===================================================================== *)

(** What a run from [w] to [w'] added to the trace. *)
Definition issued (w w' : World) : list Event :=
  drop (length (trace w)) (trace w').

(** The same handler fired twice, the second time on the state the first
    left. *)
Definition twice {S : Type} (h : M S unit) (s : S) (w : World) : S * World :=
  let '(s1, w1) := run h s w in run h s1 w1.

Definition podcasts_of (w : World) : gmap string Podcast.t :=
  Backend.podcasts (Backend.db (backend w)).

Definition episodes_of (w : World) : gmap string Episode.t :=
  Backend.episodes (Backend.db (backend w)).

Definition favorites_of (w : World) : gmap (string * string) JoinRow.t :=
  Backend.favorites (Backend.db (backend w)).

Definition subscriptions_of (w : World) : gmap (string * string) JoinRow.t :=
  Backend.subscriptions (Backend.db (backend w)).

Definition buckets_of (w : World) : gmap string bool :=
  Backend.buckets (Backend.storage (backend w)).

Definition objects_of (w : World) : gmap (string * string) File.t :=
  Backend.objects (Backend.storage (backend w)).

(** What [getPublicUrl] yields for an object. *)
Definition public_url (w : World) (bucket path : string) : string :=
  JS.encodeURI (supabaseUrl w +:+ "/storage/v1/object/public/" +:+ bucket +:+ "/" +:+ path).

(** The storage paths the two upload flows build. *)
Definition cover_path (u : User.t) (w : World) (f : File.t) : string :=
  User.id u +:+ "/" +:+ random36 w +:+ "." +:+ JS.pop (JS.split "." (File.name f)).

Definition audio_path (p : Podcast.t) (w : World) (f : File.t) : string :=
  Podcast.id p +:+ "/" +:+ random36 w +:+ "." +:+ JS.pop (JS.split "." (File.name f)).

Definition is_navigate (e : Event) : bool :=
  match e with
  | navigate _ => true
  | _ => false
  end.

Definition is_call (e : Event) : bool :=
  match e with
  | call _ => true
  | _ => false
  end.

(** The join row of a pair exists. *)
Definition joined (table : gmap (string * string) JoinRow.t) (user_id target : string) : bool :=
  bool_decide (is_Some (table !! (user_id, target))).

Definition confirm_podcast : Event :=
  confirm "Are you sure you want to delete this podcast? This action cannot be undone.".

Definition confirm_episode : Event :=
  confirm "Are you sure you want to delete this episode? This action cannot be undone.".

(** The awaited call came back without an exception and the server ran the
    statement. *)
Definition served (o : option Outcome) : bool :=
  match o with
  | Some (Served _ _) => true
  | _ => false
  end.

Definition thrown (o : option Outcome) : bool :=
  match o with
  | Some (Thrown _) => true
  | _ => false
  end.

(** The podcast [pid] is [u]'s to delete: no row of the store has that id
    and another author. *)
Definition own_podcast (u : User.t) (pid : string) (w : World) : Prop :=
  ∀ p, podcasts_of w !! pid = Some p -> Podcast.author_id p = User.id u.

(** The episode [eid] is [u]'s to delete: if the store has it, [u] is the
    author of its podcast. *)
Definition own_episode (u : User.t) (eid : string) (w : World) : Prop :=
  ∀ e, episodes_of w !! eid = Some e ->
       ∃ p, podcasts_of w !! Episode.podcast_id e = Some p
            /\ Podcast.author_id p = User.id u.

(** The row is in the store and not the signed-in user's to delete. *)
Definition foreign_podcast (u : User.t) (pid : string) (w : World) : Prop :=
  ∃ p, podcasts_of w !! pid = Some p /\ Podcast.author_id p <> User.id u.

Definition foreign_episode (u : User.t) (eid : string) (w : World) : Prop :=
  ∃ e, episodes_of w !! eid = Some e
       /\ ∀ p, podcasts_of w !! Episode.podcast_id e = Some p ->
               Podcast.author_id p <> User.id u.

(** The delete handlers' protocol: ask, delete in the store, and only when
    the call came back without an error filter the local rows.  The row is
    then [gone] from the store if it was the user's [own]; if it was
    [foreign] the backend is as before.  On failure log, alert, keep the
    rows. *)
Definition store_then_list {S A : Type} (handler : M S unit) (s : S) (w : World)
           (question deletion : Event) (setter logged alerted : string)
           (rows : S -> list A) (kept : A -> Prop) `{!∀ a, Decision (kept a)}
           (own foreign : Prop) (gone : World -> Prop) : Prop :=
  let '(s', w') := run handler s w in
  if served (head (network w)) then
    issued w w' = [question; deletion; set_state setter]
    /\ rows s' = filter kept (rows s)
    /\ (own -> gone w')
    /\ (foreign -> backend w' = backend w)
  else
    issued w w' = [question; deletion; console_error logged; alert alerted]
    /\ rows s' = rows s
    /\ backend w' = backend w.

Definition deletions_store_first (id : string) (u : User.t) (sp : Dashboard.State)
           (se : PodcastEpisodes.State) (w : World) : Prop :=
  store_then_list (Dashboard.handleDeletePodcast id) sp w
    confirm_podcast (call (Backend.delete_podcast id))
    "setPodcasts" "Error deleting podcast:" "Failed to delete podcast"
    Dashboard.podcasts (λ p, Podcast.id p ≠ id)
    (own_podcast u id w) (foreign_podcast u id w) (λ w', podcasts_of w' !! id = None)
  /\
  store_then_list (PodcastEpisodes.handleDeleteEpisode id) se w
    confirm_episode (call (Backend.delete_episode id))
    "setEpisodes" "Error deleting episode:" "Failed to delete episode"
    PodcastEpisodes.episodes (λ e, Episode.id e ≠ id)
    (own_episode u id w) (foreign_episode u id w) (λ w', episodes_of w' !! id = None).

(** As the deletion rule is worded: a row leaves the list only once the
    store has deleted it. *)
Definition listed_until_deleted (pid : string) (s : Dashboard.State) (w : World)
  : Prop :=
  let '(s', w') := run (Dashboard.handleDeletePodcast pid) s w in
  ∀ p, p ∈ Dashboard.podcasts s -> p ∉ Dashboard.podcasts s' ->
       podcasts_of w' !! Podcast.id p = None.

(** What a confirmed [handleDeletePodcast pid] by user [u] changes. *)
Definition deletion_frame (pid : string) (u : User.t) (s : Dashboard.State) (w : World)
  : Prop :=
  let '(s', w') := run (Dashboard.handleDeletePodcast pid) s w in
  (∀ id, id ≠ pid -> podcasts_of w' !! id = podcasts_of w !! id)
  /\ (∀ id q, podcasts_of w !! id = Some q -> Podcast.author_id q ≠ User.id u ->
              podcasts_of w' !! id = Some q)
  /\ (∀ q, q ∈ Dashboard.podcasts s -> Podcast.id q ≠ pid -> q ∈ Dashboard.podcasts s')
  /\ (served (head (network w)) = true ->
      (∃ p, podcasts_of w !! pid = Some p /\ Podcast.author_id p = User.id u) ->
      podcasts_of w' !! pid = None
      /\ Dashboard.podcasts s' = filter (λ q, Podcast.id q ≠ pid) (Dashboard.podcasts s)).

(** What an awaited [r] comes back with in [w]. *)
Definition reply (r : Backend.Request) (w : World) : Result Backend.Response :=
  (await (S := unit) r tt w).1.1.

(** The call resolved, and its [error] field is set. *)
Definition store_error (r : Backend.Request) (w : World) : Prop :=
  ∃ resp e, reply r w = Returned resp /\ Backend.error resp = Some e.

(** The call resolved, and its [error] field is not set. *)
Definition accepted (r : Backend.Request) (w : World) : Prop :=
  ∃ resp, reply r w = Returned resp /\ Backend.error resp = None.

(** The bucket listing, asked in [w], comes back and names [bucket]. *)
Definition listing_shows (bucket : string) (w : World) : bool :=
  match reply Backend.listBuckets w with
  | Returned resp => CreatePodcast.some_bucket bucket (Backend.data resp)
  | _ => false
  end.

(** The request the favorite toggle sends from state [s]. *)
Definition favorite_request (s : EpisodePlayer.State) (u : User.t) (e : Episode.t)
  : Backend.Request :=
  if EpisodePlayer.isFavorite s
  then Backend.delete_favorite (Episode.id e) (User.id u)
  else Backend.insert_favorite (Episode.id e) (User.id u).

Definition subscribe_request (s : PodcastDetail.State) (u : User.t) (id : string)
  : Backend.Request :=
  if PodcastDetail.isSubscribed s
  then Backend.delete_subscription id (User.id u)
  else Backend.insert_subscription id (User.id u).

(** One favorite toggle: the request follows the flag; the flag is flipped
    once the call resolves; a rejected call is logged and leaves the flag. *)
Definition favorite_toggle (u : User.t) (e : Episode.t) (s : EpisodePlayer.State)
           (w : World) : Prop :=
  let '(s', w') := run EpisodePlayer.handleFavorite s w in
  if thrown (head (network w)) then
    issued w w' = [call (favorite_request s u e);
                   console_error "Error updating favorites:"]
    /\ EpisodePlayer.isFavorite s' = EpisodePlayer.isFavorite s
  else
    issued w w' = [call (favorite_request s u e); set_state "setIsFavorite"]
    /\ EpisodePlayer.isFavorite s' = negb (EpisodePlayer.isFavorite s).

(** A toggle whose store call came back with an error: nothing is logged,
    the table is as before, yet the flag is flipped. *)
Definition favorite_flips_anyway (u : User.t) (e : Episode.t) (s : EpisodePlayer.State)
           (w : World) : Prop :=
  let '(s', w') := run EpisodePlayer.handleFavorite s w in
  issued w w' = [call (favorite_request s u e); set_state "setIsFavorite"]
  /\ favorites_of w' = favorites_of w
  /\ EpisodePlayer.isFavorite s' = negb (EpisodePlayer.isFavorite s)
  /\ (EpisodePlayer.isFavorite s = joined (favorites_of w) (User.id u) (Episode.id e) ->
      EpisodePlayer.isFavorite s' ≠ joined (favorites_of w') (User.id u) (Episode.id e)).

Definition subscribe_flips_anyway (u : User.t) (id : string) (s : PodcastDetail.State)
           (w : World) : Prop :=
  let '(s', w') := run (PodcastDetail.handleSubscribe id) s w in
  issued w w' = [call (subscribe_request s u id); set_state "setIsSubscribed"]
  /\ subscriptions_of w' = subscriptions_of w
  /\ PodcastDetail.isSubscribed s' = negb (PodcastDetail.isSubscribed s)
  /\ (PodcastDetail.isSubscribed s = joined (subscriptions_of w) (User.id u) id ->
      PodcastDetail.isSubscribed s' ≠ joined (subscriptions_of w') (User.id u) id).

(** Two toggles in a row bring back the (user, target) pairs of the join
    table and the local flag. *)
Definition favorite_round_trip (s : EpisodePlayer.State) (w : World) : Prop :=
  let '(s2, w2) := twice EpisodePlayer.handleFavorite s w in
  dom (favorites_of w2) = dom (favorites_of w)
  /\ EpisodePlayer.isFavorite s2 = EpisodePlayer.isFavorite s.

Definition subscribe_round_trip (id : string) (s : PodcastDetail.State) (w : World)
  : Prop :=
  let '(s2, w2) := twice (PodcastDetail.handleSubscribe id) s w in
  dom (subscriptions_of w2) = dom (subscriptions_of w)
  /\ PodcastDetail.isSubscribed s2 = PodcastDetail.isSubscribed s.

(** The next two backend calls are served. *)
Definition two_served (w : World) : bool :=
  match network w with
  | Served _ _ :: Served _ _ :: _ => true
  | _ => false
  end.

(** The routes that need a signed-in user. *)
Definition guarded_paths : list string := ["/dashboard"; "/favorites"; "/subscriptions"].

(** A visit from [w] that ended in [w'] went to the login page, or is still
    waiting for the session, and sent nothing to the backend. *)
Definition sent_to_login (w w' : World) : Prop :=
  w' = (if loading w then w else log (navigate "/login") w)
  /\ (∀ r, call r ∉ issued w w')
  /\ (loading w = false -> issued w w' = [navigate "/login"]).

Definition is_upload (e : Event) : bool :=
  match e with
  | call (Backend.upload _ _ _ _) => true
  | _ => false
  end.

(** [e] is a request to create [bucket]. *)
Definition creates (bucket : string) (e : Event) : bool :=
  match e with
  | call (Backend.createBucket name _) => String.eqb name bucket
  | _ => false
  end.

Definition is_createBucket (e : Event) : bool :=
  match e with
  | call (Backend.createBucket _ _) => true
  | _ => false
  end.

(** The row a create-podcast submission without a cover inserts. *)
Definition coverless_row (data : CreatePodcast.PodcastFormValues) (u : User.t)
  : NewPodcast.t :=
  {| NewPodcast.title := CreatePodcast.title data;
     NewPodcast.description := CreatePodcast.description data;
     NewPodcast.cover_image_url := None;
     NewPodcast.author_id := User.id u |}.

(** A create-podcast submission by [u] with no cover image selected. *)
Definition coverless_submission (data : CreatePodcast.PodcastFormValues) (u : User.t)
           (s : CreatePodcast.State) (w : World) : Prop :=
  let '(s', w') := run (CreatePodcast.onSubmit data) s w in
  existsb is_upload (issued w w') = false
  /\ call (Backend.insert_podcast (coverless_row data u)) ∈ issued w w'
  /\ (∀ row, call (Backend.insert_podcast row) ∈ issued w w' ->
             NewPodcast.cover_image_url row = None)
  /\ (∀ uuid now rest,
        network w = Served uuid now :: rest -> podcasts_of w !! uuid = None ->
        issued w w' = [set_state "setIsUploading"; set_state "setError";
                       call (Backend.insert_podcast (coverless_row data u));
                       navigate ("/dashboard/podcasts/" +:+ uuid +:+ "/episodes");
                       set_state "setIsUploading"]
        /\ CreatePodcast.error s' = None
        /\ ∃ p, podcasts_of w' !! uuid = Some p
                /\ Podcast.cover_image_url p = None
                /\ Podcast.title p = CreatePodcast.title data
                /\ Podcast.author_id p = User.id u)
  /\ run (CreatePodcast.handleImageChange None) s w = (s, w).

(** As the bucket rule is worded: a flow that finds [bucket] missing sends
    a request that creates it. *)
Definition creates_missing_bucket {S : Type} (flow : M S unit) (bucket : string)
           (s : S) (w : World) : Prop :=
  buckets_of w !! bucket = None ->
  existsb (creates bucket) (issued w (run flow s w).2) = true.

(** Only requests and console output. *)
Definition silent (e : Event) : bool :=
  match e with
  | call _ | console_error _ => true
  | _ => false
  end.

(** The create-episode page: [createBucket] is sent exactly when the
    listing does not come back showing the bucket; a bucket the listing
    shows is left alone; and whatever the store answers, the page state is
    untouched and nothing but requests and console output is issued. *)
Definition ensures_audio_bucket (s : CreateEpisode.State) (w : World) : Prop :=
  let '(s', w') := run CreateEpisode.createStorageBucket s w in
  s' = s
  /\ forallb silent (issued w w') = true
  /\ (if thrown (head (network w)) then
        issued w w' = [call Backend.listBuckets;
                       console_error "Error checking/creating storage bucket:"]
      else
        existsb (creates "podcast-audio") (issued w w')
        = negb (listing_shows "podcast-audio" w))
  /\ (listing_shows "podcast-audio" w = true ->
      backend w' = backend w /\ issued w w' = [call Backend.listBuckets]).

(** What the mount check of the create-podcast page shows, by the answer
    to the bucket listing. *)
Definition covers_check_reports (s s' : CreatePodcast.State) (w : World) : Prop :=
  match reply Backend.listBuckets w with
  | Returned resp =>
      match Backend.error resp with
      | Some listError =>
          CreatePodcast.error s'
          = Some ("Error checking storage buckets: " +:+ Err.message listError)
          /\ CreatePodcast.bucketReady s' = CreatePodcast.bucketReady s
      | None =>
          if CreatePodcast.some_bucket "podcast-covers" (Backend.data resp) then
            CreatePodcast.error s' = None /\ CreatePodcast.bucketReady s' = true
          else
            CreatePodcast.error s'
            = Some ("Storage bucket " +:+ JS.quoted "podcast-covers"
                    +:+ " not found. Please contact the administrator to set up storage.")
            /\ CreatePodcast.bucketReady s' = CreatePodcast.bucketReady s
      end
  | _ =>
      CreatePodcast.error s'
      = Some "Failed to check storage availability. Please try again later."
      /\ CreatePodcast.bucketReady s' = CreatePodcast.bucketReady s
  end.

(** The create-podcast page: the mount check creates nothing, sets
    [bucketReady] only on a listing that shows the bucket, and says what
    it found otherwise; a submission uploads only when [bucketReady] is
    set. *)
Definition relies_on_covers_bucket (data : CreatePodcast.PodcastFormValues)
           (s : CreatePodcast.State) (w : World) : Prop :=
  (let '(s', w') := run CreatePodcast.checkBucketExists s w in
   existsb is_createBucket (issued w w') = false
   /\ backend w' = backend w
   /\ (CreatePodcast.bucketReady s' = true ->
       CreatePodcast.bucketReady s = true
       \/ (served (head (network w)) = true
           /\ is_Some (buckets_of w !! "podcast-covers")))
   /\ covers_check_reports s s' w)
  /\ (let '(s', w') := run (CreatePodcast.onSubmit data) s w in
      existsb is_upload (issued w w') = true -> CreatePodcast.bucketReady s = true).

(** The durations of the episode rows a run sent to the store, and the
    files it sent to storage. *)
Definition inserted_durations (l : list Event) : list JS.number :=
  flat_map (λ e, match e with
                 | call (Backend.insert_episode row) => [NewEpisode.duration row]
                 | _ => []
                 end) l.

Definition uploaded_files (l : list Event) : list File.t :=
  flat_map (λ e, match e with
                 | call (Backend.upload _ _ file _) => [file]
                 | _ => []
                 end) l.

(** The duration rule in the words of the specification: the rounded
    duration the audio element reports, and round(size / (1024*1024) * 60)
    when metadata extraction fails. *)
Definition reported_duration (f : File.t) (ev : MediaEvent) : option JS.number :=
  match ev with
  | loadedmetadata d => Some (JS.Math_round d)
  | media_error =>
      Some (JS.Math_round
              (JS.Finite (inject_Z (Z.of_N (File.size f)) / inject_Z (1024 * 1024) * 60)%Q))
  | no_event => None
  end.

(** Every duration a submission sends, and every duration of an episode
    row the store holds after it and did not hold before, is the reported
    one. *)
Definition stores_reported_duration (toISOString : string -> option string)
           (data : CreateEpisode.EpisodeFormValues) (s : CreateEpisode.State) (w : World)
  : Prop :=
  let '(s', w') := run (CreateEpisode.onSubmit toISOString data) s w in
  (∀ d, d ∈ inserted_durations (issued w w') ->
        ∃ f, CreateEpisode.audioFile s = Some f /\ reported_duration f (media w) = Some d)
  /\ (∀ id e, episodes_of w !! id = None -> episodes_of w' !! id = Some e ->
              ∃ f, CreateEpisode.audioFile s = Some f
                   /\ reported_duration f (media w)
                      = Some (JS.Finite (inject_Z (Episode.duration e)))).

(** A submission that gets as far as the insert: exactly one episode row
    is sent, with duration [d]; and when the submission ends in the
    navigation, the store holds a new row with that duration. *)
Definition sends_reported_duration (d : JS.number)
           (toISOString : string -> option string)
           (data : CreateEpisode.EpisodeFormValues) (s : CreateEpisode.State) (w : World)
  : Prop :=
  let '(s', w') := run (CreateEpisode.onSubmit toISOString data) s w in
  inserted_durations (issued w w') = [d]
  /\ (existsb is_navigate (issued w w') = true ->
      ∃ id e, episodes_of w !! id = None /\ episodes_of w' !! id = Some e
              /\ JS.Finite (inject_Z (Episode.duration e)) = d).

(** What the visitor does on the create-episode page. *)
Inductive Action : Type :=
| Mount (podcastId : string)
| AudioChange (file : option File.t)
| Submit (data : CreateEpisode.EpisodeFormValues).

Definition step (toISOString : string -> option string) (a : Action)
  : M CreateEpisode.State unit :=
  match a with
  | Mount podcastId => CreateEpisode.useEffect podcastId
  | AudioChange file => CreateEpisode.handleAudioChange file
  | Submit data => CreateEpisode.onSubmit toISOString data
  end.

(** The page states a visitor can bring about, in any worlds. *)
Inductive reachable (toISOString : string -> option string) : CreateEpisode.State -> Prop :=
| reach_init : reachable toISOString CreateEpisode.init
| reach_step (a : Action) (s : CreateEpisode.State) (w : World) :
    reachable toISOString s ->
    reachable toISOString (run (step toISOString a) s w).1.

Definition accepted_audio (f : File.t) : Prop :=
  JS.startsWith (File.type f) "audio/" = true
  /\ (File.size f <= 100 * 1024 * 1024)%N.

Definition positive (x : JS.number) : Prop :=
  match x with
  | JS.Finite q => (0 < q)%Q
  | JS.PlusInfinity => True
  | JS.NaN => False
  end.

Definition non_negative (x : JS.number) : Prop :=
  match x with
  | JS.Finite q => (0 <= q)%Q
  | JS.PlusInfinity => True
  | JS.NaN => False
  end.

(** The audio element behaves: a duration it reports is not NaN and not
    negative. *)
Definition decoder_sane (ev : MediaEvent) : Prop :=
  match ev with
  | loadedmetadata d => non_negative d
  | _ => True
  end.

(** A submission from state [s] in world [w]: the files it uploads are
    accepted audio files and the durations it inserts satisfy [duration_ok]. *)
Definition submission_meets (duration_ok : JS.number -> Prop)
           (toISOString : string -> option string)
           (data : CreateEpisode.EpisodeFormValues) (s : CreateEpisode.State) (w : World)
  : Prop :=
  let '(s', w') := run (CreateEpisode.onSubmit toISOString data) s w in
  Forall accepted_audio (uploaded_files (issued w w'))
  /\ Forall duration_ok (inserted_durations (issued w w')).

(** The file the page holds, if any, went through the checks of
    [handleAudioChange]. *)
Definition holds_accepted_audio (s : CreateEpisode.State) : Prop :=
  ∀ f, CreateEpisode.audioFile s = Some f -> accepted_audio f.

(** A handler leaves a component of the state as it found it. *)
Definition keeps {S A B : Type} (f : S -> B) (m : M S A) : Prop :=
  ∀ s w, f (m s w).1.2 = f s.

(* ===================================================================== *)
(** ** Sample data *)
(* ===================================================================== *)

Module Sample.

Definition alice : User.t := {| User.id := "u1"; User.email := "alice@example.org" |}.

Definition show : Podcast.t :=
  {| Podcast.id := "p1"; Podcast.title := "Test Show";
     Podcast.description := "A show about testing"; Podcast.cover_image_url := None;
     Podcast.author_id := "u1"; Podcast.created_at := 10; Podcast.updated_at := 10 |}.

Definition other_show : Podcast.t :=
  {| Podcast.id := "p2"; Podcast.title := "Elsewhere";
     Podcast.description := "Somebody else's show"; Podcast.cover_image_url := None;
     Podcast.author_id := "u2"; Podcast.created_at := 11; Podcast.updated_at := 11 |}.

Definition pilot : Episode.t :=
  {| Episode.id := "e1"; Episode.podcast_id := "p1"; Episode.title := "Pilot";
     Episode.description := "The first episode"; Episode.audio_url := "https://x/a.mp3";
     Episode.duration := 60; Episode.published_at := "2024-01-01T00:00:00.000Z";
     Episode.created_at := 12 |}.

Definition tables : Backend.DB :=
  {| Backend.podcasts := {[ "p1" := show; "p2" := other_show ]};
     Backend.episodes := {[ "e1" := pilot ]};
     Backend.subscriptions := ∅;
     Backend.favorites := ∅ |}.

Definition no_buckets : Backend.Storage :=
  {| Backend.buckets := ∅; Backend.objects := ∅ |}.

(** Alice signed in, two calls that will be served. *)
Definition world : World :=
  {| user := Some alice; loading := false;
     backend := {| Backend.db := tables; Backend.storage := no_buckets |};
     network := [Served "id-1" 100; Served "id-2" 101];
     dialog := true; media := media_error; random36 := "k3j2x9";
     supabaseUrl := "https://proj.supabase.co"; trace := [] |}.

Definition dashboard : Dashboard.State :=
  {| Dashboard.podcasts := [show]; Dashboard.loading := false; Dashboard.error := None |}.

Definition episode_list : PodcastEpisodes.State :=
  {| PodcastEpisodes.podcast := Some show; PodcastEpisodes.episodes := [pilot];
     PodcastEpisodes.loading := false; PodcastEpisodes.error := None |}.

Definition player : EpisodePlayer.State :=
  {| EpisodePlayer.episode := Some pilot; EpisodePlayer.podcast := Some show;
     EpisodePlayer.loading := false; EpisodePlayer.error := None;
     EpisodePlayer.isFavorite := false |}.

Definition detail : PodcastDetail.State :=
  {| PodcastDetail.podcast := Some show; PodcastDetail.episodes := [pilot];
     PodcastDetail.isSubscribed := false; PodcastDetail.loading := false;
     PodcastDetail.error := None |}.

(** The same world with the next call refused by the network. *)
Definition offline : World :=
  {| user := Some alice; loading := false; backend := backend world;
     network := [Refused "Failed to fetch"];
     dialog := true; media := media_error; random36 := "k3j2x9";
     supabaseUrl := "https://proj.supabase.co"; trace := [] |}.

(** Alice's favorite of the pilot is already in the table (set from
    another tab), while the page still shows it as not favorited. *)
Definition favorited_elsewhere : World :=
  {| user := Some alice; loading := false;
     backend :=
       {| Backend.db :=
            Backend.with_favorites
              {[ ("u1", "e1") := {| JoinRow.id := "f1"; JoinRow.created_at := 50 |} ]}
              tables;
          Backend.storage := no_buckets |};
     network := [Served "id-1" 100; Served "id-2" 101];
     dialog := true; media := media_error; random36 := "k3j2x9";
     supabaseUrl := "https://proj.supabase.co"; trace := [] |}.

(** Nobody is signed in, and the session check has finished. *)
Definition anonymous : World :=
  {| user := None; loading := false; backend := backend world;
     network := [Served "id-1" 100; Served "id-2" 101];
     dialog := true; media := media_error; random36 := "k3j2x9";
     supabaseUrl := "https://proj.supabase.co"; trace := [] |}.

(** First call served, second refused. *)
Definition flaky : World :=
  {| user := Some alice; loading := false; backend := backend world;
     network := [Served "id-1" 100; Refused "Failed to fetch"];
     dialog := true; media := media_error; random36 := "k3j2x9";
     supabaseUrl := "https://proj.supabase.co"; trace := [] |}.

(** A 100-byte audio file. *)
Definition jingle : File.t :=
  {| File.name := "jingle.mp3"; File.type := "audio/mpeg"; File.size := 100 |}.

(** One mebibyte of audio. *)
Definition talk : File.t :=
  {| File.name := "talk.mp3"; File.type := "audio/mpeg"; File.size := 1048576 |}.

Definition episode_form : CreateEpisode.EpisodeFormValues :=
  {| CreateEpisode.title := "Pilot";
     CreateEpisode.description := "The first episode";
     CreateEpisode.publishedAt := "2024-01-01" |}.

(** Dates as the date input yields them: midnight UTC of the day. *)
Definition midnight (day : string) : option string :=
  if String.eqb day "" then None else Some (day +:+ "T00:00:00.000Z").

(** The audio bucket exists; the element fails to decode. *)
Definition studio : World :=
  {| user := Some alice; loading := false;
     backend :=
       {| Backend.db := tables;
          Backend.storage :=
            {| Backend.buckets := {[ "podcast-audio" := true ]};
               Backend.objects := ∅ |} |};
     network := [Served "id-1" 100; Served "id-2" 101; Served "id-3" 102;
                 Served "id-4" 103];
     dialog := true; media := media_error; random36 := "k3j2x9";
     supabaseUrl := "https://proj.supabase.co"; trace := [] |}.

(** The page after mounting for podcast p1 and choosing [file]. *)
Definition chosen (file : File.t) : CreateEpisode.State :=
  (run (step midnight (AudioChange (Some file)))
       (run (step midnight (Mount "p1")) CreateEpisode.init studio).1
       studio).1.

Definition form : CreatePodcast.PodcastFormValues :=
  {| CreatePodcast.title := "Test Show";
     CreatePodcast.description := "A show about testing" |}.

Definition mallory : User.t :=
  {| User.id := "u9"; User.email := "mallory@example.org" |}.

(** The session has changed to another user. *)
Definition switched : World :=
  {| user := Some mallory; loading := false; backend := backend world;
     network := [Served "id-1" 100; Served "id-2" 101];
     dialog := true; media := media_error; random36 := "k3j2x9";
     supabaseUrl := "https://proj.supabase.co"; trace := [] |}.

End Sample.

(* ===================================================================== *)
(** ** Further code of the pages *)
(* ===================================================================== *)

Module Text.

(** [s.includes(c)] for one character. *)
Fixpoint includes (c : ascii) (s : string) : bool :=
  match s with
  | EmptyString => false
  | String d rest => Ascii.eqb d c || includes c rest
  end.

(** The first [n] characters of [fill] repeated without end, as
    [padStart] uses its fill string; [cur] is what is left of the current
    copy. *)
Fixpoint filler (n : nat) (fill cur : string) : string :=
  match n with
  | O => EmptyString
  | S n' =>
      match cur with
      | String c rest => String c (filler n' fill rest)
      | EmptyString =>
          match fill with
          | String c rest => String c (filler n' fill rest)
          | EmptyString => EmptyString
          end
      end
  end.

(** [s.padStart(targetLength, fill)] *)
Definition padStart (s : string) (targetLength : nat) (fill : string) : string :=
  filler (targetLength - String.length s) fill fill +:+ s.

(** [formatDuration] of PodcastDetail, Favorites and PodcastEpisodes, on a
    whole number of seconds (the INTEGER column).  Up to 2^53 the doubles
    of the code are exact on these: [Math.floor(seconds / 60)] is the floor
    quotient and [%] the remainder with the sign of the dividend. *)
Definition formatDuration (seconds : Z) : string :=
  let minutes := (seconds / 60)%Z in
  let remainingSeconds := Z.rem seconds 60 in
  pretty minutes +:+ ":" +:+ padStart (pretty remainingSeconds) 2 "0".

(** The two decimal digits of a number below 100. *)
Definition two_decimals (n : Z) : string :=
  String (ascii_of_nat (48 + Z.to_nat (n / 10)))
         (String (ascii_of_nat (48 + Z.to_nat (n mod 10))) EmptyString).

(** The path has no empty folder: no slash at either end and no two
    slashes in a row.  The storage client stores an upload under such a
    path as given. *)
Definition no_empty_folder (path : string) : bool :=
  forallb (λ folder, negb (String.eqb folder "")) (JS.split "/" path).

(** The text of a UUID as [gen_random_uuid()] yields it: not empty, and
    made of lower-case hexadecimal digits and hyphens. *)
Definition uuid_text (s : string) : bool :=
  negb (String.eqb s "")
  && forallb (λ c, existsb (Ascii.eqb c) (list_ascii_of_string "0123456789abcdef-"))
             (list_ascii_of_string s).

End Text.

(** The pages behind [<ProtectedRoute>]. *)
Definition needs_user (p : App.Page) : bool :=
  match p with
  | App.Dashboard | App.CreatePodcast | App.PodcastEpisodes _
  | App.CreateEpisode _ | App.Subscriptions | App.Favorites => true
  | _ => false
  end.

(** The path both creation flows navigate to when the store has accepted
    the row. *)
Definition episodes_path (podcast_id : string) : string :=
  "/dashboard/podcasts/" +:+ podcast_id +:+ "/episodes".

(** A submission that has come to its end: the spinner is off, and either
    the page navigated away with no error shown, or it stayed and shows
    one. *)
Definition settled (shown : option string) (uploading : bool) (l : list Event) : Prop :=
  uploading = false
  /\ ((existsb is_navigate l = true /\ shown = None)
      \/ (existsb is_navigate l = false /\ shown <> None)).

Definition accepted_image (f : File.t) : Prop :=
  JS.startsWith (File.type f) "image/" = true
  /\ (File.size f <= 5 * 1024 * 1024)%N.

(** What the visitor does on the create-podcast page. *)
Inductive CoverAction : Type :=
| CoverMount
| ImageChange (file : option File.t)
| CoverSubmit (data : CreatePodcast.PodcastFormValues).

Definition cover_step (a : CoverAction) : M CreatePodcast.State unit :=
  match a with
  | CoverMount => CreatePodcast.useEffect
  | ImageChange file => CreatePodcast.handleImageChange file
  | CoverSubmit data => CreatePodcast.onSubmit data
  end.

Inductive cover_reachable : CreatePodcast.State -> Prop :=
| cover_reach_init : cover_reachable CreatePodcast.init
| cover_reach_step (a : CoverAction) (s : CreatePodcast.State) (w : World) :
    cover_reachable s -> cover_reachable (run (cover_step a) s w).1.

Definition holds_accepted_image (s : CreatePodcast.State) : Prop :=
  ∀ f, CreatePodcast.coverImage s = Some f -> accepted_image f.

(** The outcome of choosing [file] on the create-episode page. *)
Definition audio_choice (file : File.t) (s s' : CreateEpisode.State) : Prop :=
  if JS.startsWith (File.type file) "audio/" then
    if (File.size file <=? 100 * 1024 * 1024)%N then
      CreateEpisode.audioFile s' = Some file /\ CreateEpisode.error s' = None
    else
      CreateEpisode.audioFile s' = CreateEpisode.audioFile s
      /\ CreateEpisode.error s' = Some "Audio file size should be less than 100MB"
  else
    CreateEpisode.audioFile s' = CreateEpisode.audioFile s
    /\ CreateEpisode.error s' = Some "Please upload an audio file".

Definition image_choice (file : File.t) (s s' : CreatePodcast.State) : Prop :=
  if JS.startsWith (File.type file) "image/" then
    if (File.size file <=? 5 * 1024 * 1024)%N then
      CreatePodcast.coverImage s' = Some file /\ CreatePodcast.error s' = None
    else
      CreatePodcast.coverImage s' = CreatePodcast.coverImage s
      /\ CreatePodcast.error s' = Some "Image size should be less than 5MB"
  else
    CreatePodcast.coverImage s' = CreatePodcast.coverImage s
    /\ CreatePodcast.error s' = Some "Please upload an image file".

Definition rejected_audio (file : File.t) : bool :=
  negb (JS.startsWith (File.type file) "audio/" && (File.size file <=? 100 * 1024 * 1024)%N).

Definition rejected_image (file : File.t) : bool :=
  negb (JS.startsWith (File.type file) "image/" && (File.size file <=? 5 * 1024 * 1024)%N).

(** The three ways a create-episode submission can go. *)
Definition episode_outcome (s s' : CreateEpisode.State) (w w' : World) : Prop :=
  match user w, CreateEpisode.podcast s, CreateEpisode.audioFile s with
  | Some _, Some _, Some _ =>
      match media w with
      | no_event =>
          issued w w' = [set_state "setIsUploading"; set_state "setError"]
          /\ CreateEpisode.isUploading s' = true
      | _ =>
          settled (CreateEpisode.error s') (CreateEpisode.isUploading s') (issued w w')
          /\ CreateEpisode.uploadProgress s' = 0%Q
      end
  | _, _, _ =>
      issued w w' = [set_state "setError"]
      /\ CreateEpisode.error s' = Some "Please upload an audio file"
      /\ CreateEpisode.isUploading s' = CreateEpisode.isUploading s
  end.

(** Nothing the backend held before the run is gone or altered after it. *)
Definition only_adds (w w' : World) : Prop :=
  objects_of w ⊆ objects_of w'
  /\ episodes_of w ⊆ episodes_of w'
  /\ podcasts_of w' = podcasts_of w
  /\ favorites_of w' = favorites_of w
  /\ subscriptions_of w' = subscriptions_of w.

(** More sample data. *)
Module Gallery.

Definition picture : File.t :=
  {| File.name := "cover.png"; File.type := "image/png"; File.size := 20000 |}.

(** Storage with both buckets. *)
Definition world : World :=
  {| user := Some Sample.alice; loading := false;
     backend :=
       {| Backend.db := Sample.tables;
          Backend.storage :=
            {| Backend.buckets := {[ "podcast-covers" := true; "podcast-audio" := true ]};
               Backend.objects := ∅ |} |};
     network := [Served "id-1" 100; Served "id-2" 101; Served "id-3" 102];
     dialog := true; media := media_error; random36 := "k3j2x9";
     supabaseUrl := "https://proj.supabase.co"; trace := [] |}.

(** The create-podcast page after mounting and choosing the picture. *)
Definition with_picture : CreatePodcast.State :=
  (run (cover_step (ImageChange (Some picture)))
       (run (cover_step CoverMount) CreatePodcast.init world).1 world).1.

(** The upload is served, the insert is refused. *)
Definition insert_refused : World :=
  {| user := Some Sample.alice; loading := false; backend := backend world;
     network := [Served "id-1" 100; Refused "Failed to fetch"];
     dialog := true; media := media_error; random36 := "k3j2x9";
     supabaseUrl := "https://proj.supabase.co"; trace := [] |}.

Definition bob : User.t := {| User.id := "u3"; User.email := "bob@example.org" |}.

(** Bob is signed in and has no podcast yet. *)
Definition newcomer : World :=
  {| user := Some bob; loading := false; backend := backend world;
     network := [Served "id-1" 100; Served "id-2" 101];
     dialog := true; media := media_error; random36 := "k3j2x9";
     supabaseUrl := "https://proj.supabase.co"; trace := [] |}.

(** The store hands out a UUID for the row it inserts. *)
Definition fresh : World :=
  {| user := Some Sample.alice; loading := false; backend := backend world;
     network := [Served "7c9e6679-7425-40de-944b-e07fc1f90ae7" 100;
                 Served "0f8fad5b-d9cb-469f-a165-70867728950e" 101];
     dialog := true; media := media_error; random36 := "k3j2x9";
     supabaseUrl := "https://proj.supabase.co"; trace := [] |}.

(** The upload is stored; the insert is served and rejected, the id the
    store draws being taken. *)
Definition insert_rejected : World :=
  {| user := Some Sample.alice; loading := false; backend := backend world;
     network := [Served "id-1" 100; Served "e1" 101];
     dialog := true; media := media_error; random36 := "k3j2x9";
     supabaseUrl := "https://proj.supabase.co"; trace := [] |}.

End Gallery.

(** One subscribe toggle by [u] on the podcast of the route. *)
Definition subscribe_toggle (u : User.t) (id : string) (s : PodcastDetail.State)
           (w : World) : Prop :=
  let '(s', w') := run (PodcastDetail.handleSubscribe id) s w in
  if thrown (head (network w)) then
    issued w w' = [call (subscribe_request s u id);
                   console_error "Error updating subscription:"]
    /\ PodcastDetail.isSubscribed s' = PodcastDetail.isSubscribed s
  else
    issued w w' = [call (subscribe_request s u id); set_state "setIsSubscribed"]
    /\ PodcastDetail.isSubscribed s' = negb (PodcastDetail.isSubscribed s).




(** Every favorite points to an episode and every episode to a podcast of
    the store: the foreign keys of the schema. *)
Definition references_hold (w : World) : Prop :=
  (∀ k jr, favorites_of w !! k = Some jr -> is_Some (episodes_of w !! k.2))
  /\ (∀ k jr, subscriptions_of w !! k = Some jr -> is_Some (podcasts_of w !! k.2))
  /\ (∀ id e, episodes_of w !! id = Some e ->
              is_Some (podcasts_of w !! Episode.podcast_id e)).

(** What is left after the podcast [pid] was deleted from [w]. *)
Definition cascaded (pid : string) (w w' : World) : Prop :=
  (∀ id e, episodes_of w' !! id = Some e
           <-> episodes_of w !! id = Some e /\ Episode.podcast_id e <> pid)
  /\ (∀ k jr, subscriptions_of w' !! k = Some jr
              <-> subscriptions_of w !! k = Some jr /\ k.2 <> pid)
  /\ (∀ k jr e, episodes_of w !! k.2 = Some e ->
                (favorites_of w' !! k = Some jr
                 <-> favorites_of w !! k = Some jr /\ Episode.podcast_id e <> pid))
  /\ (references_hold w -> references_hold w').

(** The row the store makes of a create-podcast submission without cover. *)
Definition created_podcast (data : CreatePodcast.PodcastFormValues) (u : User.t)
           (uuid : string) (now : Z) : Podcast.t :=
  {| Podcast.id := uuid;
     Podcast.title := CreatePodcast.title data;
     Podcast.description := CreatePodcast.description data;
     Podcast.cover_image_url := None;
     Podcast.author_id := User.id u;
     Podcast.created_at := now;
     Podcast.updated_at := now |}.

(** What a confirmed, served [handleDeleteEpisode eid] by [u] does. *)
Definition episode_deleted (eid : string) (u : User.t) (s s' : PodcastEpisodes.State)
           (w w' : World) : Prop :=
  PodcastEpisodes.episodes s'
  = filter (λ e, Episode.id e <> eid) (PodcastEpisodes.episodes s)
  /\ existsb (λ e, match e with alert _ => true | _ => false end) (issued w w') = false
  /\ podcasts_of w' = podcasts_of w
  /\ (∀ id, id <> eid -> episodes_of w' !! id = episodes_of w !! id)
  /\ match episodes_of w !! eid with
     | Some e =>
         if Backend.authors (Some (User.id u)) (Backend.db (backend w))
                            (Episode.podcast_id e)
         then episodes_of w' !! eid = None
              /\ (∀ k, favorites_of w' !! k
                       = if decide (k.2 = eid) then None else favorites_of w !! k)
              /\ subscriptions_of w' = subscriptions_of w
              /\ Backend.storage (backend w') = Backend.storage (backend w)
         else backend w' = backend w
     | None => backend w' = backend w
     end.

(** The favorites page, mounted in [w], lists the episode [episode_id]. *)
Definition on_favorites_page (episode_id : string) (w : World) : Prop :=
  ∃ row, row ∈ Favorites.favorites (run Favorites.useEffect Favorites.init w).1
         /\ Favorite.episode_id row = episode_id.

(** The control under the description of the podcast page: for a signed-in
    visitor the button bound to [handleSubscribe], for anybody else a link
    to the login page.  [subscribe_control id] is a click on it. *)
Definition subscribe_control (id : string) : M PodcastDetail.State unit :=
  u ← world user;
  match u with
  | Some _ => PodcastDetail.handleSubscribe id
  | None => emit (navigate "/login")
  end.

(** The row a create-episode submission sends. *)
Definition episode_row_sent (data : CreateEpisode.EpisodeFormValues) (p : Podcast.t)
           (f : File.t) (d : JS.number) (iso : string) (w : World) : NewEpisode.t :=
  {| NewEpisode.podcast_id := Podcast.id p;
     NewEpisode.title := CreateEpisode.title data;
     NewEpisode.description := CreateEpisode.description data;
     NewEpisode.audio_url := public_url w "podcast-audio" (audio_path p w f);
     NewEpisode.duration := d;
     NewEpisode.published_at := iso |}.

(** The insert of [row], sent by [u] and answered by outcome [o], comes
    back with an error: the call is refused; or the store runs the
    statement and the insert policy, the primary key or the INTEGER column
    rejects the row. *)
Definition insert_turned_down (u : User.t) (row : NewEpisode.t) (o : Outcome)
           (w : World) : Prop :=
  match o with
  | Served uuid now =>
      (∀ q, podcasts_of w !! NewEpisode.podcast_id row = Some q ->
            Podcast.author_id q <> User.id u)
      \/ is_Some (episodes_of w !! uuid)
      \/ Backend.to_integer (NewEpisode.duration row) = None
  | Refused _ => True
  | Thrown _ => False
  end.

(* ===================================================================== *)
(** ** Proof tools *)
(* ===================================================================== *)

(** Symbolic execution of a handler: unfold the monad, the handlers'
    helpers, the record projections and the server, and nothing of the
    maps, sets and strings the run computes with. *)
Ltac exec :=
  lazy beta iota zeta delta
    [ run twice ask getPublicUrl mbind M_bind mret M_ret try_catch try_finally
      await emit world read set throw never log respond reply
      user loading backend network dialog media random36 supabaseUrl trace
      Backend.serve Backend.serve_db Backend.serve_storage Backend.is_storage
      Backend.ok Backend.failed Backend.error Backend.data Backend.db Backend.storage
      Backend.with_favorites Backend.with_subscriptions Backend.with_podcasts
      Backend.with_episodes
      Backend.podcasts Backend.episodes Backend.favorites Backend.subscriptions
      Backend.buckets Backend.objects
      Err.Error Err.message Err.code
      head tail fmap option_fmap option_map negb andb fst snd
      podcasts_of episodes_of favorites_of subscriptions_of buckets_of
      served thrown two_served
      Dashboard.podcasts Dashboard.loading Dashboard.error
      Dashboard.setPodcasts Dashboard.setLoading Dashboard.setError
      PodcastEpisodes.podcast PodcastEpisodes.episodes PodcastEpisodes.loading
      PodcastEpisodes.error PodcastEpisodes.setEpisodes
      EpisodePlayer.episode EpisodePlayer.podcast EpisodePlayer.loading
      EpisodePlayer.error EpisodePlayer.isFavorite EpisodePlayer.setIsFavorite
      PodcastDetail.podcast PodcastDetail.episodes PodcastDetail.isSubscribed
      PodcastDetail.loading PodcastDetail.error PodcastDetail.setIsSubscribed
      Favorites.favorites Favorites.loading Favorites.error
      Favorites.setFavorites Favorites.setLoading Favorites.setError
      CreatePodcast.coverImage CreatePodcast.coverImagePreview CreatePodcast.isUploading
      CreatePodcast.error CreatePodcast.bucketReady
      CreatePodcast.setCoverImage CreatePodcast.setCoverImagePreview
      CreatePodcast.setIsUploading CreatePodcast.setError CreatePodcast.setBucketReady
      CreatePodcast.title CreatePodcast.description
      CreateEpisode.podcast CreateEpisode.audioFile CreateEpisode.isUploading
      CreateEpisode.uploadProgress CreateEpisode.error
      CreateEpisode.setPodcast CreateEpisode.setAudioFile CreateEpisode.setIsUploading
      CreateEpisode.setUploadProgress CreateEpisode.setError
      CreateEpisode.title CreateEpisode.description CreateEpisode.publishedAt
      CreateEpisode.getAudioDuration
      NewPodcast.title NewPodcast.description NewPodcast.cover_image_url
      NewPodcast.author_id
      NewEpisode.podcast_id NewEpisode.title NewEpisode.description
      NewEpisode.audio_url NewEpisode.duration NewEpisode.published_at ].

Ltac unfold_prims :=
  unfold twice, run, ask, getPublicUrl, mbind, M_bind, mret, M_ret, try_catch,
    try_finally, await, emit, world, read, set, throw, never, log, respond in *.

(** Bring a trace of the shape [((t ++ [a]) ++ [b]) ++ ..] to [t ++ [a; b; ..]]
    and read off what was issued. *)
Ltac read_trace :=
  unfold issued; cbn [trace];
  rewrite <- ?app_assoc; cbn [app]; rewrite ?drop_app_length, ?drop_all.

Lemma issued_app (w w' : World) (l : list Event) :
  trace w' = trace w ++ l -> issued w w' = l.
Proof. intros H. unfold issued. rewrite H. apply drop_app_length. Qed.

Lemma issued_refl (w : World) : issued w w = [].
Proof. unfold issued. apply drop_all. Qed.

(* ===================================================================== *)
(** ** Deleting a podcast or an episode *)
(* ===================================================================== *)

Lemma podcast_deletion (pid : string) (u : User.t) (s : Dashboard.State) (w : World) :
  user w = Some u -> dialog w = true ->
  store_then_list (Dashboard.handleDeletePodcast pid) s w
    confirm_podcast (call (Backend.delete_podcast pid))
    "setPodcasts" "Error deleting podcast:" "Failed to delete podcast"
    Dashboard.podcasts (λ p, Podcast.id p ≠ pid)
    (own_podcast u pid w) (foreign_podcast u pid w)
    (λ w', podcasts_of w' !! pid = None).
Proof.
  intros Hu Hd.
  destruct w as [u' ld [[pods eps subs favs] st] net dlg md rnd url tr].
  simpl in Hu, Hd; subst u' dlg.
  unfold store_then_list, Dashboard.handleDeletePodcast, confirm_podcast, own_podcast,
    foreign_podcast.
  destruct net as [|[uuid now|msg|msg] rest]; exec; try (read_trace; done).
  unfold Backend.authors. cbn [Backend.podcasts].
  destruct (pods !! pid) as [p|] eqn:Hp; exec.
  - destruct (bool_decide (Some (User.id u) = Some (Podcast.author_id p))) eqn:Hb; exec.
    + split; [by read_trace | split; [done | split]].
      * intros _. unfold Backend.drop_podcast. cbn. apply lookup_delete_eq.
      * intros (q & Hq & Hne). apply bool_decide_eq_true_1 in Hb. congruence.
    + split; [by read_trace | split; [done | split; [| done]]].
      intros Hown. apply bool_decide_eq_false in Hb. destruct Hb.
      by rewrite (Hown p eq_refl).
  - split; [by read_trace | split; [done | split; [| done]]]. by intros _.
Qed.

Lemma episode_deletion (eid : string) (u : User.t) (s : PodcastEpisodes.State)
      (w : World) :
  user w = Some u -> dialog w = true ->
  store_then_list (PodcastEpisodes.handleDeleteEpisode eid) s w
    confirm_episode (call (Backend.delete_episode eid))
    "setEpisodes" "Error deleting episode:" "Failed to delete episode"
    PodcastEpisodes.episodes (λ e, Episode.id e ≠ eid)
    (own_episode u eid w) (foreign_episode u eid w)
    (λ w', episodes_of w' !! eid = None).
Proof.
  intros Hu Hd.
  destruct w as [u' ld [[pods eps subs favs] st] net dlg md rnd url tr].
  simpl in Hu, Hd; subst u' dlg.
  unfold store_then_list, PodcastEpisodes.handleDeleteEpisode, confirm_episode,
    own_episode, foreign_episode.
  destruct net as [|[uuid now|msg|msg] rest]; exec; try (read_trace; done).
  destruct (eps !! eid) as [e|] eqn:He; exec.
  - unfold Backend.authors. cbn [Backend.podcasts].
    destruct (pods !! Episode.podcast_id e) as [p|] eqn:Hp; exec.
    + destruct (bool_decide (Some (User.id u) = Some (Podcast.author_id p))) eqn:Hb; exec.
      * split; [by read_trace | split; [done | split]].
        -- intros _. unfold Backend.drop_episode. cbn. apply lookup_delete_eq.
        -- intros (e' & [= <-] & Hne). apply bool_decide_eq_true_1 in Hb.
           destruct (Hne p Hp). congruence.
      * split; [by read_trace | split; [done | split; [| done]]].
        intros Hown. destruct (Hown e eq_refl) as (q & Hq & Ha).
        apply bool_decide_eq_false in Hb. destruct Hb. congruence.
    + split; [by read_trace | split; [done | split; [| done]]].
      intros Hown. destruct (Hown e eq_refl) as (q & Hq & _). congruence.
  - split; [by read_trace | split; [done | split; [| done]]]. by intros _.
Qed.

(** C6, amended: a confirmed podcast or episode deletion sends the store
    delete first and filters the local list only after the call came back
    without an error.  The row is then gone from the store when the
    signed-in user is the author of the podcast (of the episode's podcast)
    or the row was gone already; when somebody else is the author the store
    filters the delete without an error, so the backend is as before and
    the row leaves the list all the same.  When the store delete fails the
    local list and the backend are unchanged, the error is logged and a
    browser alert is shown. *)
Theorem deletion_store_first (id : string) (u : User.t) (sp : Dashboard.State)
        (se : PodcastEpisodes.State) (w : World) :
  user w = Some u -> dialog w = true -> deletions_store_first id u sp se w.
Proof.
  intros Hu Hd. split; [by apply podcast_deletion | by apply episode_deletion].
Qed.

Lemma deletion_store_first_witness :
  user Sample.world = Some Sample.alice /\ dialog Sample.world = true
  /\ deletions_store_first "p1" Sample.alice Sample.dashboard Sample.episode_list
       Sample.world.
Proof.
  split; [reflexivity | split; [reflexivity |]].
  apply (deletion_store_first "p1" Sample.alice); reflexivity.
Defined.

(** Alice's dashboard is on screen when the session changes to Mallory,
    who deletes Alice's podcast: the row-level policy filters the delete,
    the store answers without an error and keeps the row, and the row
    leaves the list. *)
Lemma foreign_row_leaves_the_list :
  Sample.dashboard = (run Dashboard.useEffect Dashboard.init Sample.world).1
  /\ ~ listed_until_deleted "p1" Sample.dashboard Sample.switched.
Proof.
  split; [vm_compute; reflexivity |].
  unfold listed_until_deleted.
  destruct (run (Dashboard.handleDeletePodcast "p1") Sample.dashboard Sample.switched)
    as [s' w'] eqn:Hrun.
  assert (Dashboard.podcasts s' = []) as Hl
      by (apply (f_equal fst) in Hrun; cbn [fst] in Hrun; subst s';
          vm_compute; reflexivity).
  assert (podcasts_of w' !! "p1" = Some Sample.show) as Hkept
      by (apply (f_equal snd) in Hrun; cbn [snd] in Hrun; subst w';
          vm_compute; reflexivity).
  intros H. specialize (H Sample.show).
  rewrite Hl in H. change (Podcast.id Sample.show) with "p1" in H.
  rewrite Hkept in H. discriminate H.
  - apply list_elem_of_here.
  - apply not_elem_of_nil.
Qed.

(** C5: a confirmed deletion by the signed-in author removes exactly the
    podcast with the given id, from the store and from the dashboard list;
    every other podcast, and every podcast of another author, is unchanged. *)
Theorem delete_podcast_frame (pid : string) (u : User.t) (s : Dashboard.State)
        (w : World) :
  user w = Some u -> dialog w = true -> deletion_frame pid u s w.
Proof.
  intros Hu Hd.
  destruct w as [u' ld b net dlg md rnd url tr]; simpl in Hu, Hd; subst u' dlg.
  unfold deletion_frame, Dashboard.handleDeletePodcast, Dashboard.setPodcasts, podcasts_of.
  destruct net as [|[uuid now|msg|msg] rest]; unfold_prims; cbn;
    try (repeat split; done).
  unfold Backend.authors.
  destruct (Backend.podcasts (Backend.db b) !! pid) as [p|] eqn:Hpid; cbn;
    [case_bool_decide as Hown; cbn|].
  - repeat split.
    + intros id Hne. by rewrite lookup_delete_ne.
    + intros id q Hq Hau. destruct (decide (id = pid)) as [->|Hne].
      * rewrite Hpid in Hq. congruence.
      * by rewrite lookup_delete_ne.
    + intros q Hq Hne. by apply list_elem_of_filter.
    + apply lookup_delete_eq.
  - repeat split; try done.
    all: try (intros q Hq Hne; by apply list_elem_of_filter).
    all: destruct H0 as (p' & Hp' & Hau); congruence.
  - repeat split; try done.
    all: try (intros q Hq Hne; by apply list_elem_of_filter).
    all: destruct H0 as (p' & Hp' & _); congruence.
Qed.

Lemma delete_podcast_frame_witness :
  user Sample.world = Some Sample.alice /\ dialog Sample.world = true
  /\ deletion_frame "p1" Sample.alice Sample.dashboard Sample.world.
Proof.
  split; [reflexivity | split; [reflexivity |]].
  apply (delete_podcast_frame "p1" Sample.alice); reflexivity.
Defined.

(* ===================================================================== *)
(** ** The favorite and subscribe toggles *)
(* ===================================================================== *)

(** C4: with a signed-in user on a loaded episode the toggle sends a delete
    of the (user, episode) row when the flag is set and an insert when it
    is not; once the call resolves the flag is flipped; when the call
    rejects, the error is logged and nothing else happens to the flag. *)
Theorem favorite_toggle_protocol (u : User.t) (e : Episode.t)
        (s : EpisodePlayer.State) (w : World) :
  user w = Some u -> EpisodePlayer.episode s = Some e -> favorite_toggle u e s w.
Proof.
  intros Hu He.
  destruct w as [u' ld b net dlg md rnd url tr]; simpl in Hu; subst u'.
  destruct s as [ep pc lo er fav]; simpl in He; subst ep.
  unfold favorite_toggle, favorite_request, EpisodePlayer.handleFavorite,
    EpisodePlayer.setIsFavorite.
  destruct fav, net as [|[uuid now|msg|msg] rest]; unfold_prims; cbn;
    try (read_trace; done).
  - case_bool_decide; cbn; read_trace; done.
  - repeat (case_bool_decide; cbn); read_trace; done.
Qed.

Lemma favorite_toggle_protocol_witness :
  user Sample.world = Some Sample.alice
  /\ EpisodePlayer.episode Sample.player = Some Sample.pilot
  /\ favorite_toggle Sample.alice Sample.pilot Sample.player Sample.world.
Proof.
  split; [reflexivity | split; [reflexivity |]].
  apply (favorite_toggle_protocol Sample.alice Sample.pilot); reflexivity.
Defined.

Lemma favorite_error_flips (u : User.t) (e : Episode.t) (s : EpisodePlayer.State)
      (w : World) :
  user w = Some u -> EpisodePlayer.episode s = Some e ->
  store_error (favorite_request s u e) w -> favorite_flips_anyway u e s w.
Proof.
  intros Hu He (resp & err & Hr & Herr).
  destruct w as [u' ld b net dlg md rnd url tr]; simpl in Hu; subst u'.
  destruct s as [ep pc lo er fav]; simpl in He; subst ep.
  unfold favorite_flips_anyway, favorite_request, reply, joined, favorites_of,
    EpisodePlayer.handleFavorite, EpisodePlayer.setIsFavorite in *.
  destruct fav, net as [|[uuid now|msg|msg] rest]; unfold_prims; cbn in *;
    try discriminate;
    repeat (case_bool_decide; cbn in * );
    simplify_eq; cbn in *; try discriminate;
    read_trace; repeat split; try done;
    intros ->; done.
Qed.

Lemma subscribe_error_flips (u : User.t) (id : string) (s : PodcastDetail.State)
      (w : World) :
  user w = Some u ->
  store_error (subscribe_request s u id) w -> subscribe_flips_anyway u id s w.
Proof.
  intros Hu (resp & err & Hr & Herr).
  destruct w as [u' ld b net dlg md rnd url tr]; simpl in Hu; subst u'.
  destruct s as [pc eps sub lo er].
  unfold subscribe_flips_anyway, subscribe_request, reply, joined, subscriptions_of,
    PodcastDetail.handleSubscribe, PodcastDetail.setIsSubscribed in *.
  destruct sub, net as [|[uuid now|msg|msg] rest]; unfold_prims; cbn in *;
    try discriminate;
    repeat (case_bool_decide; cbn in * );
    simplify_eq; cbn in *; try discriminate;
    read_trace; repeat split; try done;
    intros ->; done.
Qed.

(** C9: neither toggle looks at the [error] a resolved store call carries.
    When the insert or delete comes back with an error, the catch branch is
    not entered (nothing is logged), the join table is as before, and the
    local flag is flipped all the same, so a flag that agreed with the
    table no longer does. *)
Theorem toggles_ignore_store_errors (u : User.t) (e : Episode.t) (id : string)
        (sf : EpisodePlayer.State) (sd : PodcastDetail.State) (w : World) :
  user w = Some u -> EpisodePlayer.episode sf = Some e ->
  (store_error (favorite_request sf u e) w -> favorite_flips_anyway u e sf w)
  /\ (store_error (subscribe_request sd u id) w -> subscribe_flips_anyway u id sd w).
Proof.
  intros Hu He. split.
  - by apply favorite_error_flips.
  - by apply subscribe_error_flips.
Qed.

Lemma offline_store_error (r : Backend.Request) : store_error r Sample.offline.
Proof. eexists _, _. split; reflexivity. Defined.

Lemma toggles_ignore_store_errors_witness :
  user Sample.offline = Some Sample.alice
  /\ EpisodePlayer.episode Sample.player = Some Sample.pilot
  /\ favorite_flips_anyway Sample.alice Sample.pilot Sample.player Sample.offline
  /\ subscribe_flips_anyway Sample.alice "p1" Sample.detail Sample.offline.
Proof.
  pose proof (toggles_ignore_store_errors Sample.alice Sample.pilot "p1"
                Sample.player Sample.detail Sample.offline eq_refl eq_refl) as [Hf Hs].
  split; [reflexivity | split; [reflexivity | split]].
  - apply Hf, offline_store_error.
  - apply Hs, offline_store_error.
Defined.

Lemma favorite_twice (u : User.t) (e : Episode.t) (s : EpisodePlayer.State) (w : World) :
  user w = Some u -> EpisodePlayer.episode s = Some e ->
  two_served w = true ->
  is_Some (episodes_of w !! Episode.id e) ->
  EpisodePlayer.isFavorite s = joined (favorites_of w) (User.id u) (Episode.id e) ->
  favorite_round_trip s w
  /\ (EpisodePlayer.isFavorite s = false ->
      favorites_of (twice EpisodePlayer.handleFavorite s w).2
        !! (User.id u, Episode.id e) = None).
Proof.
  intros Hu He Hn Hfk Hsync.
  destruct w as [u' ld b net dlg md rnd url tr]; simpl in Hu; subst u'.
  destruct s as [ep pc lo er fav]; simpl in He; subst ep.
  unfold two_served in Hn; cbn in Hn.
  destruct net as [|[a1 n1|?|?] [|[a2 n2|?|?] rest]]; try discriminate.
  unfold favorite_round_trip, joined, favorites_of, episodes_of,
    EpisodePlayer.handleFavorite, EpisodePlayer.setIsFavorite in *.
  cbn in Hsync, Hfk. subst fav.
  case_bool_decide as Hrow; unfold_prims; cbn.
  - rewrite bool_decide_eq_true_2 by done. cbn.
    rewrite bool_decide_eq_true_2 by done. cbn.
    rewrite bool_decide_eq_true_2 by done. cbn.
    rewrite lookup_delete_eq.
    rewrite bool_decide_eq_false_2 by (by intros [? ?]). cbn.
    repeat split; try done.
    rewrite dom_insert_L, dom_delete_L.
    apply elem_of_dom in Hrow.
    symmetry. by apply union_difference_singleton_L.
  - rewrite bool_decide_eq_true_2 by done. cbn.
    rewrite bool_decide_eq_true_2 by done. cbn.
    rewrite bool_decide_eq_false_2 by done. cbn.
    rewrite bool_decide_eq_true_2 by done. cbn.
    assert (Backend.favorites (Backend.db b) !! (User.id u, Episode.id e) = None) as Hnone.
    { destruct (Backend.favorites (Backend.db b) !! (User.id u, Episode.id e)) eqn:E;
        [exfalso; apply Hrow; eauto | done]. }
    rewrite delete_insert_eq, delete_id by done.
    repeat split; done.
Qed.

Lemma subscribe_twice (u : User.t) (id : string) (s : PodcastDetail.State) (w : World) :
  user w = Some u ->
  two_served w = true ->
  is_Some (podcasts_of w !! id) ->
  PodcastDetail.isSubscribed s = joined (subscriptions_of w) (User.id u) id ->
  subscribe_round_trip id s w
  /\ (PodcastDetail.isSubscribed s = false ->
      subscriptions_of (twice (PodcastDetail.handleSubscribe id) s w).2
        !! (User.id u, id) = None).
Proof.
  intros Hu Hn Hfk Hsync.
  destruct w as [u' ld b net dlg md rnd url tr]; simpl in Hu; subst u'.
  destruct s as [pc eps sub lo er].
  unfold two_served in Hn; cbn in Hn.
  destruct net as [|[a1 n1|?|?] [|[a2 n2|?|?] rest]]; try discriminate.
  unfold subscribe_round_trip, joined, subscriptions_of, podcasts_of,
    PodcastDetail.handleSubscribe, PodcastDetail.setIsSubscribed in *.
  cbn in Hsync, Hfk. subst sub.
  case_bool_decide as Hrow; unfold_prims; cbn.
  - rewrite bool_decide_eq_true_2 by done. cbn.
    rewrite bool_decide_eq_true_2 by done. cbn.
    rewrite bool_decide_eq_true_2 by done. cbn.
    rewrite lookup_delete_eq.
    rewrite bool_decide_eq_false_2 by (by intros [? ?]). cbn.
    repeat split; try done.
    rewrite dom_insert_L, dom_delete_L.
    apply elem_of_dom in Hrow.
    symmetry. by apply union_difference_singleton_L.
  - rewrite bool_decide_eq_true_2 by done. cbn.
    rewrite bool_decide_eq_true_2 by done. cbn.
    rewrite bool_decide_eq_false_2 by done. cbn.
    rewrite bool_decide_eq_true_2 by done. cbn.
    assert (Backend.subscriptions (Backend.db b) !! (User.id u, id) = None) as Hnone.
    { destruct (Backend.subscriptions (Backend.db b) !! (User.id u, id)) eqn:E;
        [exfalso; apply Hrow; eauto | done]. }
    rewrite delete_insert_eq, delete_id by done.
    repeat split; done.
Qed.

(** C2, amended: when the local flag agrees with the join table, the target
    row still exists and both store calls are served, two toggles in a row
    bring the (user, target) pairs of the join table and the local flag
    back to where they were; in particular favorite then unfavorite (and
    subscribe then unsubscribe) leaves no row for the pair. *)
Theorem toggle_round_trip (u : User.t) (e : Episode.t) (id : string)
        (sf : EpisodePlayer.State) (sd : PodcastDetail.State) (w : World) :
  user w = Some u -> two_served w = true ->
  EpisodePlayer.episode sf = Some e ->
  is_Some (episodes_of w !! Episode.id e) ->
  is_Some (podcasts_of w !! id) ->
  EpisodePlayer.isFavorite sf = joined (favorites_of w) (User.id u) (Episode.id e) ->
  PodcastDetail.isSubscribed sd = joined (subscriptions_of w) (User.id u) id ->
  favorite_round_trip sf w
  /\ subscribe_round_trip id sd w
  /\ (EpisodePlayer.isFavorite sf = false ->
      favorites_of (twice EpisodePlayer.handleFavorite sf w).2
        !! (User.id u, Episode.id e) = None)
  /\ (PodcastDetail.isSubscribed sd = false ->
      subscriptions_of (twice (PodcastDetail.handleSubscribe id) sd w).2
        !! (User.id u, id) = None).
Proof.
  intros Hu Hn He Hep Hpc Hf Hs.
  destruct (favorite_twice u e sf w Hu He Hn Hep Hf) as [Hf1 Hf2].
  destruct (subscribe_twice u id sd w Hu Hn Hpc Hs) as [Hs1 Hs2].
  done.
Qed.

Lemma toggle_round_trip_witness :
  favorite_round_trip Sample.player Sample.world
  /\ subscribe_round_trip "p1" Sample.detail Sample.world
  /\ favorites_of (twice EpisodePlayer.handleFavorite Sample.player Sample.world).2
       !! ("u1", "e1") = None
  /\ subscriptions_of (twice (PodcastDetail.handleSubscribe "p1") Sample.detail
                             Sample.world).2 !! ("u1", "p1") = None.
Proof.
  assert (is_Some (episodes_of Sample.world !! "e1")) as Hep by (by eexists).
  assert (is_Some (podcasts_of Sample.world !! "p1")) as Hpc by (by eexists).
  destruct (toggle_round_trip Sample.alice Sample.pilot "p1" Sample.player Sample.detail
              Sample.world eq_refl eq_refl eq_refl Hep Hpc eq_refl eq_refl)
    as (H1 & H2 & H3 & H4).
  split; [exact H1 | split; [exact H2 | split; [exact (H3 eq_refl) | exact (H4 eq_refl)]]].
Defined.

(** The favorite was set elsewhere while the page shows it unset: the first
    toggle's insert hits the unique constraint, the second toggle deletes
    the row. No call fails to reach the server, yet the pair is gone. *)
Lemma round_trip_loses_row :
  ~ favorite_round_trip Sample.player Sample.favorited_elsewhere.
Proof.
  unfold favorite_round_trip.
  destruct (twice EpisodePlayer.handleFavorite Sample.player Sample.favorited_elsewhere)
    as [s2 w2] eqn:Hrun.
  intros [Hdom _].
  assert (("u1", "e1") ∈ dom (favorites_of Sample.favorited_elsewhere)) as Hin.
  { apply elem_of_dom. by eexists. }
  rewrite <- Hdom in Hin. apply elem_of_dom in Hin as [row Hrow].
  assert (w2 = (twice EpisodePlayer.handleFavorite Sample.player
                      Sample.favorited_elsewhere).2) as -> by (by rewrite Hrun).
  vm_compute in Hrow. discriminate.
Qed.

(** With the flag in step with the table, a second call that fails leaves
    the row the first toggle inserted. *)
Lemma round_trip_needs_both_calls :
  ~ favorite_round_trip Sample.player Sample.flaky.
Proof.
  unfold favorite_round_trip.
  destruct (twice EpisodePlayer.handleFavorite Sample.player Sample.flaky)
    as [s2 w2] eqn:Hrun.
  intros [Hdom _].
  assert (("u1", "e1") ∈ dom (favorites_of w2)) as Hin.
  { assert (w2 = (twice EpisodePlayer.handleFavorite Sample.player Sample.flaky).2)
      as -> by (by rewrite Hrun).
    apply elem_of_dom. eexists. vm_compute. reflexivity. }
  rewrite Hdom in Hin. apply elem_of_dom in Hin as [row Hrow].
  vm_compute in Hrow. discriminate.
Qed.

(* ===================================================================== *)
(** ** Guarded routes *)
(* ===================================================================== *)

Lemma guarded_routes (pathname : string) :
  pathname ∈ guarded_paths ->
  ∃ p, App.Routes pathname = App.guarded p.
Proof.
  unfold guarded_paths. rewrite !elem_of_cons, elem_of_nil.
  intros [->|[->|[->|[]]]]; eexists; vm_compute; reflexivity.
Qed.

Lemma login_sends_nothing (w : World) (r : Backend.Request) :
  call r ∉ issued w (log (navigate "/login") w).
Proof.
  unfold log. read_trace. rewrite elem_of_cons, elem_of_nil. intros [?|[]]. discriminate.
Qed.

(** C3: a visit of /dashboard, /favorites or /subscriptions without a
    signed-in user ends on /login (once the session check is over) and
    sends no request to the backend; the guard is in front of the pages,
    whatever their own mount effects do, and the dashboard and favorites
    pages redirect again on their own before they fetch. *)
Theorem guarded_routes_redirect (other : App.Page -> World -> World)
        (pathname : string) (w : World)
        (sd : Dashboard.State) (sf : Favorites.State) :
  pathname ∈ guarded_paths -> user w = None ->
  sent_to_login w (App.visit other pathname w)
  /\ run Dashboard.useEffect sd w = (sd, log (navigate "/login") w)
  /\ run Favorites.useEffect sf w = (sf, log (navigate "/login") w).
Proof.
  intros Hp Hu. destruct (guarded_routes pathname Hp) as [p Hr].
  split; [|split].
  - unfold sent_to_login, App.visit, App.AppRoutes, App.ProtectedRoute.
    rewrite Hr, Hu. destruct (loading w) eqn:Hl.
    + split; [done|]. split; [|done].
      intros r. rewrite issued_refl. apply not_elem_of_nil.
    + split; [done|]. split; [apply login_sends_nothing|].
      intros _. unfold log. read_trace. reflexivity.
  - destruct w; simpl in Hu; subst. reflexivity.
  - destruct w; simpl in Hu; subst. reflexivity.
Qed.

Lemma guarded_routes_redirect_witness :
  "/subscriptions" ∈ guarded_paths /\ user Sample.anonymous = None
  /\ sent_to_login Sample.anonymous
       (App.visit (λ _ w, w) "/subscriptions" Sample.anonymous).
Proof.
  assert ("/subscriptions" ∈ guarded_paths) as Hp.
  { unfold guarded_paths. rewrite !elem_of_cons. auto. }
  split; [exact Hp | split; [reflexivity |]].
  apply (guarded_routes_redirect (λ _ w, w) "/subscriptions" Sample.anonymous
           Dashboard.init Favorites.init Hp eq_refl).
Defined.

(** With a user signed in the dashboard is mounted and does fetch. *)
Lemma dashboard_fetches_when_signed_in (other : App.Page -> World -> World) :
  issued Sample.world (App.visit other "/dashboard" Sample.world)
  = [call (Backend.select_podcasts_of "u1"); set_state "setPodcasts";
     set_state "setLoading"].
Proof. vm_compute. reflexivity. Qed.

(* ===================================================================== *)
(** ** Creating a podcast *)
(* ===================================================================== *)

(** C10: a create-podcast submission with no cover image selected sends no
    storage upload and inserts a row whose cover_image_url is null; when the
    store accepts the row the page moves on to the new podcast's episodes
    without an error.  Nothing checks the image when no file is chosen:
    the change handler returns at once. *)
Theorem coverless_podcast (data : CreatePodcast.PodcastFormValues) (u : User.t)
        (s : CreatePodcast.State) (w : World) :
  user w = Some u -> CreatePodcast.coverImage s = None ->
  coverless_submission data u s w.
Proof.
  intros Hu Hc.
  destruct w as [u' ld [[pods eps subs favs] [bks objs]] net dlg md rnd url tr];
    simpl in Hu; subst u'.
  destruct s as [ci cp up er br]; simpl in Hc; subst ci.
  destruct data as [ti de].
  unfold coverless_submission, coverless_row, CreatePodcast.onSubmit.
  destruct net as [|[uuid now|msg|msg] rest]; exec;
    [ | rewrite bool_decide_eq_true_2 by done;
        destruct (bool_decide (is_Some (pods !! uuid))) eqn:Hdup; exec | | ].
  all: split; [by read_trace |].
  all: split; [read_trace; rewrite !elem_of_cons; auto |].
  all: split; [intros row; read_trace; rewrite !elem_of_cons, elem_of_nil;
               intros Hin; repeat destruct Hin as [Hin|Hin]; by simplify_eq |].
  all: split; [| reflexivity].
  all: intros uuid' now' rest' Hnet Hfresh; simplify_eq.
  - apply bool_decide_eq_true in Hdup. rewrite Hfresh in Hdup. by destruct Hdup.
  - split; [by read_trace |]. split; [done |].
    eexists. rewrite lookup_insert_eq. done.
Qed.

Lemma coverless_podcast_witness :
  user Sample.world = Some Sample.alice
  /\ CreatePodcast.coverImage CreatePodcast.init = None
  /\ coverless_submission Sample.form Sample.alice CreatePodcast.init Sample.world.
Proof.
  split; [reflexivity | split; [reflexivity |]].
  apply (coverless_podcast Sample.form Sample.alice); reflexivity.
Defined.

(* ===================================================================== *)
(** ** Storage buckets *)
(* ===================================================================== *)

Lemma some_bucket_listed (name : string) (bks : gmap string bool) :
  CreatePodcast.some_bucket name (Backend.bucket_names (elements (dom bks)))
  = bool_decide (is_Some (bks !! name)).
Proof.
  unfold CreatePodcast.some_bucket.
  destruct (existsb (String.eqb name) (elements (dom bks))) eqn:E; symmetry.
  - apply bool_decide_eq_true. apply existsb_exists in E as (x & Hin & Heq).
    apply String.eqb_eq in Heq as <-.
    apply list_elem_of_In, elem_of_elements in Hin. by apply elem_of_dom.
  - apply bool_decide_eq_false. intros Hs.
    assert (existsb (String.eqb name) (elements (dom bks)) = true) as Ht; [|congruence].
    apply existsb_exists. exists name. split; [|apply String.eqb_refl].
    apply list_elem_of_In, elem_of_elements. by apply elem_of_dom.
Qed.

Lemma audio_bucket_ensured (s : CreateEpisode.State) (w : World) :
  ensures_audio_bucket s w.
Proof.
  destruct w as [u ld [[pods eps subs favs] [bks objs]] net dlg md rnd url tr].
  destruct s as [pc af up pr er].
  unfold ensures_audio_bucket, listing_shows, CreateEpisode.createStorageBucket.
  destruct (bool_decide (is_Some (bks !! "podcast-audio"))) eqn:Hb.
  all: destruct net as [|[a1 n1|m1|m1] [|[a2 n2|m2|m2] rest]]; exec.
  all: rewrite ?some_bucket_listed, ?Hb; cbn [CreatePodcast.some_bucket]; exec.
  all: rewrite ?Hb; exec.
  all: split; [reflexivity |].
  all: split; [by read_trace |].
  all: split; [by read_trace |].
  all: intros Hl; first [discriminate | split; [done | by read_trace]].
Qed.

Lemma covers_bucket_relied_on (data : CreatePodcast.PodcastFormValues)
      (s : CreatePodcast.State) (w : World) :
  relies_on_covers_bucket data s w.
Proof.
  destruct w as [u ld [[pods eps subs favs] [bks objs]] net dlg md rnd url tr].
  destruct s as [ci cp up er br]. destruct data as [ti de].
  unfold relies_on_covers_bucket. split.
  - unfold CreatePodcast.checkBucketExists, covers_check_reports.
    destruct (bool_decide (is_Some (bks !! "podcast-covers"))) eqn:Hb.
    all: destruct net as [|[a1 n1|m1|m1] rest]; exec.
    all: rewrite ?some_bucket_listed, ?Hb; exec.
    all: split; [by read_trace | split; [done | split; [| by split]]].
    all: intros Hr; first [by left | right; split; [done |];
                           by apply bool_decide_eq_true in Hb].
  - destruct br; [by destruct (run _ _ _) |].
    unfold CreatePodcast.onSubmit.
    destruct u as [u|], ci as [f|], net as [|[a1 n1|m1|m1] rest]; exec.
    all: rewrite ?bool_decide_eq_true_2 by done;
         try destruct (bool_decide (is_Some (pods !! a1))); exec.
    all: read_trace; cbn [existsb is_upload orb]; intros; discriminate.
Qed.

(** C8, amended: [createStorageBucket] of the create-episode page lists
    the buckets; when the listing call resolves it sends [createBucket] for
    'podcast-audio' exactly when the answer does not show the bucket (so
    also after a listing answered with an error), and a bucket the listing
    shows is left alone; when the listing call is rejected nothing more is
    sent.  Whatever the store answers the page shows nothing and only
    logs.  The create-podcast page never creates 'podcast-covers': its
    mount check sets [bucketReady] only on a listing that shows the bucket,
    shows 'Storage bucket "podcast-covers" not found. ...' on a listing
    without it, 'Error checking storage buckets: ...' on a listing that
    comes back with an error and 'Failed to check storage availability.
    ...' on a rejected call; and a cover upload is sent only when
    [bucketReady] is set. *)
Theorem bucket_before_upload (data : CreatePodcast.PodcastFormValues)
        (se : CreateEpisode.State) (sp : CreatePodcast.State) (w : World) :
  ensures_audio_bucket se w /\ relies_on_covers_bucket data sp w.
Proof.
  split; [apply audio_bucket_ensured | apply covers_bucket_relied_on].
Qed.

(** On mount, with no 'podcast-covers' bucket in storage, the create-podcast
    page lists the buckets, reports the bucket as missing and creates
    nothing. *)
Lemma covers_bucket_not_created :
  ~ creates_missing_bucket CreatePodcast.useEffect "podcast-covers"
      CreatePodcast.init Sample.world.
Proof.
  unfold creates_missing_bucket. intros H.
  specialize (H eq_refl). vm_compute in H. discriminate.
Qed.

(** The create-episode page does send the request in the same world. *)
Lemma audio_bucket_created :
  creates_missing_bucket (CreateEpisode.useEffect "p1") "podcast-audio"
    CreateEpisode.init Sample.world.
Proof. intros _. vm_compute. reflexivity. Qed.

(* ===================================================================== *)
(** ** Creating an episode *)
(* ===================================================================== *)

Section Keeps.
Context {S B : Type} (f : S -> B).

Lemma keeps_ret {A : Type} (a : A) : keeps f (mret a : M S A).
Proof. by intros s w. Qed.

Lemma keeps_bind {A C : Type} (m : M S A) (k : A -> M S C) :
  keeps f m -> (∀ a, keeps f (k a)) -> keeps f (m ≫= k).
Proof.
  intros Hm Hk s w. unfold mbind, M_bind. specialize (Hm s w).
  destruct (m s w) as [[[a|e|] s1] w1]; cbn in *; [|done..].
  by rewrite Hk.
Qed.

Lemma keeps_throw {A : Type} (e : Err.t) : keeps f (throw e : M S A).
Proof. by intros s w. Qed.

Lemma keeps_never {A : Type} : keeps f (never : M S A).
Proof. by intros s w. Qed.

Lemma keeps_emit (e : Event) : keeps f (emit e : M S unit).
Proof. by intros s w. Qed.

Lemma keeps_read {A : Type} (g : S -> A) : keeps f (read g).
Proof. by intros s w. Qed.

Lemma keeps_world {A : Type} (g : World -> A) : keeps f (world g : M S A).
Proof. by intros s w. Qed.

Lemma keeps_await (r : Backend.Request) : keeps f (await r : M S _).
Proof.
  intros s w. unfold await.
  destruct (head (network (log (call r) w))) as [[uuid now|msg|msg]|]; try done.
  by destruct (Backend.serve _ _ _ _ _).
Qed.

Lemma keeps_set (name : string) (update : S -> S) :
  (∀ s, f (update s) = f s) -> keeps f (set name update).
Proof. intros H s w. apply H. Qed.

Lemma keeps_try_catch (body : M S unit) (handler : Err.t -> M S unit) :
  keeps f body -> (∀ e, keeps f (handler e)) -> keeps f (try_catch body handler).
Proof.
  intros Hb Hh s w. unfold try_catch. specialize (Hb s w).
  destruct (body s w) as [[[a|e|] s1] w1]; cbn in *; [done| |done].
  by rewrite Hh.
Qed.

Lemma keeps_try_finally (body finalizer : M S unit) :
  keeps f body -> keeps f finalizer -> keeps f (try_finally body finalizer).
Proof.
  intros Hb Hf s w. unfold try_finally. specialize (Hb s w).
  destruct (body s w) as [[[a|e|] s1] w1]; cbn in *; [| |done].
  all: specialize (Hf s1 w1);
    destruct (finalizer s1 w1) as [[[a'|e'|] s2] w2]; cbn in *; congruence.
Qed.

End Keeps.

(** Take a handler apart along its binds, branches and handlers. *)
Ltac keeps_step :=
  first
    [ apply keeps_ret | apply keeps_throw | apply keeps_never | apply keeps_emit
    | apply keeps_read | apply keeps_world | apply keeps_await
    | apply keeps_set; intros ?; reflexivity
    | apply keeps_bind; [| intros ?]
    | apply keeps_try_catch; [| intros ?]
    | apply keeps_try_finally
    | match goal with
      | |- keeps _ (match ?x with _ => _ end) => destruct x
      | |- keeps _ (if ?x then _ else _) => destruct x
      end ].

Ltac keeps_all := cbv zeta; repeat keeps_step.

Lemma useEffect_keeps_audioFile (podcastId : string) :
  keeps CreateEpisode.audioFile (CreateEpisode.useEffect podcastId).
Proof.
  unfold CreateEpisode.useEffect, CreateEpisode.fetchPodcast,
    CreateEpisode.createStorageBucket, CreateEpisode.setPodcast, CreateEpisode.setError.
  keeps_all.
Qed.

Lemma onSubmit_keeps_audioFile (toISOString : string -> option string)
      (data : CreateEpisode.EpisodeFormValues) :
  keeps CreateEpisode.audioFile (CreateEpisode.onSubmit toISOString data).
Proof.
  unfold CreateEpisode.onSubmit, CreateEpisode.getAudioDuration, getPublicUrl,
    CreateEpisode.setIsUploading, CreateEpisode.setUploadProgress, CreateEpisode.setError.
  keeps_all.
Qed.

Lemma handleAudioChange_accepts (file : option File.t) (s : CreateEpisode.State)
      (w : World) :
  holds_accepted_audio s ->
  holds_accepted_audio (run (CreateEpisode.handleAudioChange file) s w).1.
Proof.
  intros Hs. unfold CreateEpisode.handleAudioChange.
  destruct file as [file|]; [|exact Hs].
  destruct (JS.startsWith (File.type file) "audio/") eqn:Ht; cbn [negb];
    [|intros f; exec; apply Hs].
  destruct (100 * 1024 * 1024 <? File.size file)%N eqn:Hz;
    [intros f; exec; apply Hs|].
  intros f. exec. intros [= <-]. split; [done|]. by apply N.ltb_ge.
Qed.

Lemma reachable_holds_accepted (toISOString : string -> option string)
      (s : CreateEpisode.State) :
  reachable toISOString s -> holds_accepted_audio s.
Proof.
  induction 1 as [|a s w Hr IH].
  - intros f. discriminate.
  - destruct a as [podcastId|file|data]; cbn [step].
    + intros f. unfold run.
      pose proof (useEffect_keeps_audioFile podcastId s w) as Hk.
      destruct (CreateEpisode.useEffect podcastId s w) as [[r s'] w']; cbn in *.
      rewrite Hk. apply IH.
    + by apply handleAudioChange_accepts.
    + intros f. unfold run.
      pose proof (onSubmit_keeps_audioFile toISOString data s w) as Hk.
      destruct (CreateEpisode.onSubmit toISOString data s w) as [[r s'] w']; cbn in *.
      rewrite Hk. apply IH.
Qed.

Lemma to_integer_round (x : JS.number) (z : Z) :
  Backend.to_integer (JS.Math_round x) = Some z ->
  JS.Math_round x = JS.Finite (inject_Z z).
Proof.
  destruct x as [q| |]; unfold JS.Math_round, Backend.to_integer; [|discriminate..].
  rewrite Qfloor_Z. destruct (_ && _ && _); [|discriminate]. by intros [= <-].
Qed.

Ltac case_stuck :=
  repeat (match goal with
          | |- context [bool_decide ?P] => destruct (bool_decide P) eqn:?
          | |- context [Backend.authors ?a ?b ?c] =>
              destruct (Backend.authors a b c) eqn:?
          | |- context [Backend.to_integer ?x] =>
              destruct (Backend.to_integer x) eqn:?
          end; exec).

Ltac sent_in_trace :=
  read_trace; cbn [uploaded_files inserted_durations flat_map app];
  rewrite ?elem_of_cons, ?elem_of_nil.

Lemma onSubmit_sends (toISOString : string -> option string)
      (data : CreateEpisode.EpisodeFormValues) (s : CreateEpisode.State) (w : World) :
  let '(s', w') := run (CreateEpisode.onSubmit toISOString data) s w in
  (∀ f, f ∈ uploaded_files (issued w w') -> CreateEpisode.audioFile s = Some f)
  /\ (∀ d, d ∈ inserted_durations (issued w w') ->
           ∃ f, CreateEpisode.audioFile s = Some f
                /\ reported_duration f (media w) = Some d)
  /\ (∀ id e, episodes_of w !! id = None -> episodes_of w' !! id = Some e ->
              ∃ f, CreateEpisode.audioFile s = Some f
                   /\ reported_duration f (media w)
                      = Some (JS.Finite (inject_Z (Episode.duration e)))).
Proof.
  destruct w as [u ld [[pods eps subs favs] [bks objs]] net dlg md rnd url tr].
  destruct s as [pc af up pr er]. destruct data as [ti de pa].
  unfold CreateEpisode.onSubmit.
  destruct u as [u|]; [destruct pc as [pc|]; [destruct af as [f|] |] |]; exec.
  - destruct md as [d| |], net as [|[a1 n1|m1|m1] net]; exec; case_stuck.
    all: try (destruct (toISOString pa) as [iso|] eqn:Hiso; exec).
    all: try (destruct net as [|[a2 n2|m2|m2] rest]; exec; case_stuck).
    all: (split; [intros f0; sent_in_trace; intros Hin;
                  repeat destruct Hin as [Hin|Hin]; try done; by simplify_eq |]).
    all: (split; [intros d0; sent_in_trace; intros Hin;
                  repeat destruct Hin as [Hin|Hin]; try done;
                  eexists; (split; [reflexivity |]); by simplify_eq |]).
    all: intros id e Hnone Hsome; try congruence.
    all: destruct (decide (id = a2)) as [->|Hne];
      [rewrite lookup_insert_eq in Hsome | rewrite lookup_insert_ne in Hsome by done;
                                          congruence].
    all: simplify_eq; cbn [Episode.duration]; eexists; split; [reflexivity |].
    all: cbn [reported_duration]; f_equal.
    all: first [by apply to_integer_round | by apply (to_integer_round (JS.Finite _))].
  - split; [intros f0; sent_in_trace; intros Hin; by repeat destruct Hin as [Hin|Hin] |].
    split; [intros f0; sent_in_trace; intros Hin; by repeat destruct Hin as [Hin|Hin] |].
    intros; congruence.
  - split; [intros f0; sent_in_trace; intros Hin; by repeat destruct Hin as [Hin|Hin] |].
    split; [intros f0; sent_in_trace; intros Hin; by repeat destruct Hin as [Hin|Hin] |].
    intros; congruence.
  - split; [intros f0; sent_in_trace; intros Hin; by repeat destruct Hin as [Hin|Hin] |].
    split; [intros f0; sent_in_trace; intros Hin; by repeat destruct Hin as [Hin|Hin] |].
    intros; congruence.
Qed.

Lemma only_reported_durations (toISOString : string -> option string)
      (data : CreateEpisode.EpisodeFormValues) (s : CreateEpisode.State) (w : World) :
  stores_reported_duration toISOString data s w.
Proof.
  pose proof (onSubmit_sends toISOString data s w) as H.
  unfold stores_reported_duration.
  destruct (run (CreateEpisode.onSubmit toISOString data) s w) as [s' w'].
  destruct H as (_ & Hsent & Hkept). by split.
Qed.

(** C7: a create-episode submission whose upload the store accepts sends
    exactly one episode row, and the duration in it is the rounded duration
    the transient audio element reports or, when metadata extraction
    fails, round(size / (1024*1024) * 60); when the submission ends in the
    navigation the store holds a new row with that duration.  No
    submission sends or stores any other duration. *)
Theorem duration_from_decoder_or_size (toISOString : string -> option string)
        (data : CreateEpisode.EpisodeFormValues) (s : CreateEpisode.State) (w : World)
        (u : User.t) (p : Podcast.t) (f : File.t) (d : JS.number) (iso : string) :
  user w = Some u -> CreateEpisode.podcast s = Some p ->
  CreateEpisode.audioFile s = Some f ->
  reported_duration f (media w) = Some d ->
  accepted (Backend.upload "podcast-audio" (audio_path p w f) f false) w ->
  toISOString (CreateEpisode.publishedAt data) = Some iso ->
  stores_reported_duration toISOString data s w
  /\ sends_reported_duration d toISOString data s w.
Proof.
  intros Hu Hp Hf Hd Hacc Hiso. split; [apply only_reported_durations |].
  unfold sends_reported_duration, accepted, audio_path in *.
  destruct w as [u' ld [[pods eps subs favs] [bks objs]] net dlg md rnd url tr].
  destruct s as [pc af up pr er]. destruct data as [ti de pa].
  cbn in Hu, Hp, Hf, Hd, Hiso. subst u' pc af.
  destruct Hacc as (resp & Hr & He). revert Hr He.
  unfold CreateEpisode.onSubmit.
  destruct md as [x| |]; cbn [reported_duration] in Hd; simplify_eq.
  all: destruct net as [|[a1 n1|m1|m1] net]; exec.
  all: try (intros [= <-]; discriminate).
  all: try discriminate.
  all: case_stuck.
  all: try (intros [= <-]; discriminate).
  all: intros _ _.
  all: rewrite Hiso; exec.
  all: destruct net as [|[a2 n2|m2|m2] rest]; exec; case_stuck.
  all: (split; [read_trace; reflexivity |]).
  all: read_trace; cbn [existsb is_navigate orb]; intros Hnav; try discriminate.
  all: match goal with
       | H : bool_decide (is_Some (_ !! ?id)) = false |- ∃ _ _, _ !! _ = None /\ _ =>
           apply bool_decide_eq_false in H; apply eq_None_not_Some in H;
           exists id; eexists; split; [exact H |]; split; [apply lookup_insert_eq |]
       end.
  all: cbn [Episode.duration]; symmetry.
  all: first [by apply to_integer_round | by apply (to_integer_round (JS.Finite _))].
Qed.

Lemma duration_from_decoder_or_size_witness :
  user Sample.studio = Some Sample.alice
  /\ CreateEpisode.audioFile (Sample.chosen Sample.talk) = Some Sample.talk
  /\ reported_duration Sample.talk (media Sample.studio)
     = Some (CreateEpisode.estimate Sample.talk)
  /\ sends_reported_duration (CreateEpisode.estimate Sample.talk)
       Sample.midnight Sample.episode_form (Sample.chosen Sample.talk) Sample.studio.
Proof.
  split; [reflexivity | split; [reflexivity | split; [reflexivity |]]].
  apply (duration_from_decoder_or_size Sample.midnight Sample.episode_form
           (Sample.chosen Sample.talk) Sample.studio Sample.alice Sample.show
           Sample.talk (CreateEpisode.estimate Sample.talk)
           "2024-01-01T00:00:00.000Z").
  - reflexivity.
  - vm_compute. reflexivity.
  - reflexivity.
  - reflexivity.
  - eexists. split; vm_compute; reflexivity.
  - reflexivity.
Defined.

(** The size estimate over the integers: 60 seconds per mebibyte, to the
    nearest second. *)
Lemma estimate_closed_form (f : File.t) :
  CreateEpisode.estimate f
  = JS.Finite (inject_Z ((120 * Z.of_N (File.size f) + 1048576) / 2097152)).
Proof.
  unfold CreateEpisode.estimate, JS.Math_round. do 2 f_equal.
  change (1024 * 1024)%Z with 1048576%Z.
  unfold Qfloor, Qplus, Qmult, Qdiv, Qinv, inject_Z. cbn.
  f_equal. lia.
Qed.

Lemma one_mebibyte_is_a_minute :
  CreateEpisode.estimate Sample.talk = JS.Finite (inject_Z 60).
Proof. rewrite estimate_closed_form. reflexivity. Qed.

(** A submission in the studio: the file is uploaded, the row is sent and
    kept with the estimated duration. *)
Lemma studio_submission :
  let w' := (run (CreateEpisode.onSubmit Sample.midnight Sample.episode_form)
                 (Sample.chosen Sample.talk) Sample.studio).2 in
  uploaded_files (issued Sample.studio w') = [Sample.talk]
  /\ inserted_durations (issued Sample.studio w') = [JS.Finite (inject_Z 60)]
  /\ Episode.duration <$> episodes_of w' !! "id-2" = Some 60%Z.
Proof. vm_compute. repeat split; reflexivity. Qed.

Lemma round_non_negative (x : JS.number) :
  non_negative x -> non_negative (JS.Math_round x).
Proof.
  destruct x as [q| |]; unfold non_negative, JS.Math_round; [|done..]. intros Hq.
  rewrite <- (Zle_Qle 0). change 0%Z with (Qfloor 0).
  apply Qfloor_resp_le.
  apply Qle_trans with q; [done|].
  rewrite <- (Qplus_0_r q) at 1. apply Qplus_le_r. discriminate.
Qed.

Lemma estimate_non_negative (f : File.t) : non_negative (CreateEpisode.estimate f).
Proof.
  rewrite estimate_closed_form. unfold non_negative.
  rewrite <- (Zle_Qle 0). apply Z.div_pos; lia.
Qed.

(** C1, amended: whatever the visitor did on the create-episode page
    before, a submission that reaches the upload step uploads a file whose
    mime type starts with 'audio/' and whose size is at most 100*1024*1024
    bytes, and the duration it inserts is not negative (it can be 0), as
    long as the audio element does not report a negative or NaN duration. *)
Theorem submission_checked (toISOString : string -> option string)
        (data : CreateEpisode.EpisodeFormValues) (s : CreateEpisode.State) (w : World) :
  reachable toISOString s -> decoder_sane (media w) ->
  submission_meets non_negative toISOString data s w.
Proof.
  intros Hr Hm.
  pose proof (onSubmit_sends toISOString data s w) as H.
  pose proof (reachable_holds_accepted toISOString s Hr) as Hs.
  unfold submission_meets.
  destruct (run (CreateEpisode.onSubmit toISOString data) s w) as [s' w'].
  destruct H as (Hup & Hsent & _). split; apply Forall_forall.
  - intros f Hf. apply Hs, Hup, Hf.
  - intros d Hd. destruct (Hsent d Hd) as (f & _ & Hrep).
    destruct (media w) as [x| |]; cbn in Hrep, Hm; simplify_eq.
    + by apply round_non_negative.
    + apply (estimate_non_negative f).
Qed.

Lemma chosen_reachable (file : File.t) :
  reachable Sample.midnight (Sample.chosen file).
Proof. unfold Sample.chosen. apply reach_step, reach_step, reach_init. Defined.

Lemma submission_checked_witness :
  reachable Sample.midnight (Sample.chosen Sample.talk)
  /\ decoder_sane (media Sample.studio)
  /\ submission_meets non_negative Sample.midnight Sample.episode_form
       (Sample.chosen Sample.talk) Sample.studio.
Proof.
  split; [apply chosen_reachable | split; [exact I |]].
  apply (submission_checked Sample.midnight Sample.episode_form
           (Sample.chosen Sample.talk) Sample.studio (chosen_reachable Sample.talk) I).
Defined.

(** A 100-byte audio file whose metadata cannot be read: the submission
    goes through and the inserted duration is round(100 / 1048576 * 60) = 0,
    which is not positive. *)
Lemma zero_duration_inserted :
  reachable Sample.midnight (Sample.chosen Sample.jingle)
  /\ ~ submission_meets positive Sample.midnight Sample.episode_form
         (Sample.chosen Sample.jingle) Sample.studio.
Proof.
  split; [apply chosen_reachable |].
  unfold submission_meets.
  destruct (run (CreateEpisode.onSubmit Sample.midnight Sample.episode_form)
                (Sample.chosen Sample.jingle) Sample.studio) as [s' w'] eqn:Hrun.
  intros [_ Hd].
  assert (w' = (run (CreateEpisode.onSubmit Sample.midnight Sample.episode_form)
                    (Sample.chosen Sample.jingle) Sample.studio).2) as ->
      by (by rewrite Hrun).
  assert (inserted_durations
            (issued Sample.studio
               (run (CreateEpisode.onSubmit Sample.midnight Sample.episode_form)
                    (Sample.chosen Sample.jingle) Sample.studio).2)
          = [JS.Finite (inject_Z 0)]) as Hzero by (vm_compute; reflexivity).
  rewrite Hzero in Hd. apply Forall_cons in Hd as [Hpos _].
  cbn in Hpos. by apply Qlt_irrefl in Hpos.
Qed.

(* ===================================================================== *)
(** ** Text helpers *)
(* ===================================================================== *)

Lemma string_app_cons (x : ascii) (a b : string) :
  String x a +:+ b = String x (a +:+ b).
Proof. reflexivity. Qed.

Lemma string_app_length (a b : string) :
  String.length (a +:+ b) = String.length a + String.length b.
Proof.
  induction a as [|c a IH]; [done |].
  rewrite string_app_cons. simpl. by rewrite IH.
Qed.

Lemma string_app_assoc (a b c : string) : (a +:+ b) +:+ c = a +:+ b +:+ c.
Proof.
  induction a as [|x a IH]; [done |].
  rewrite !string_app_cons. by rewrite IH.
Qed.

Lemma string_app_inv (a b c d : string) :
  String.length a = String.length c -> a +:+ b = c +:+ d -> a = c /\ b = d.
Proof.
  revert c. induction a as [|x a IH]; intros [|y c] Hl H; try discriminate.
  - done.
  - rewrite !string_app_cons in H. injection H as -> H. simpl in Hl.
    destruct (IH c) as [-> ->]; [lia | done | done].
Qed.

Lemma two_digits (r : Z) :
  (0 <= r < 60)%Z -> String.length (Text.padStart (pretty r) 2 "0") = 2.
Proof.
  intros Hr.
  assert (∃ n : nat, n < 60 /\ r = Z.of_nat n) as (n & Hn & ->).
  { exists (Z.to_nat r). lia. }
  do 60 (destruct n as [|n]; [vm_compute; reflexivity |]). lia.
Qed.

Lemma two_digits_inj (r1 r2 : Z) :
  (0 <= r1 < 60)%Z -> (0 <= r2 < 60)%Z ->
  Text.padStart (pretty r1) 2 "0" = Text.padStart (pretty r2) 2 "0" -> r1 = r2.
Proof.
  intros H1 H2.
  assert (∃ n : nat, n < 60 /\ r1 = Z.of_nat n) as (n & Hn & ->).
  { exists (Z.to_nat r1). lia. }
  assert (∃ m : nat, m < 60 /\ r2 = Z.of_nat m) as (m & Hm & ->).
  { exists (Z.to_nat r2). lia. }
  intros Heq. f_equal.
  pose (read := λ s : string,
          match s with
          | String a (String b EmptyString) =>
              10 * (nat_of_ascii a - 48) + (nat_of_ascii b - 48)
          | _ => 0
          end).
  assert (∀ k, k < 60 -> read (Text.padStart (pretty (Z.of_nat k)) 2 "0") = k) as Hd.
  { intros k Hk. do 60 (destruct k as [|k]; [vm_compute; reflexivity |]). lia. }
  rewrite <- (Hd n Hn), <- (Hd m Hm). by rewrite Heq.
Qed.

Lemma two_digits_text (r : Z) :
  (0 <= r < 60)%Z -> Text.padStart (pretty r) 2 "0" = Text.two_decimals r.
Proof.
  intros Hr.
  assert (∃ n : nat, n < 60 /\ r = Z.of_nat n) as (n & Hn & ->).
  { exists (Z.to_nat r). lia. }
  do 60 (destruct n as [|n]; [vm_compute; reflexivity |]). lia.
Qed.

(** X1: for a whole number of seconds from 0 up to 2^53, [formatDuration]
    is the decimal numeral of the minutes (not folded into hours), a colon
    and the two decimal digits of the seconds left; so no two durations
    are shown the same. *)
Theorem formatDuration_faithful (a b : Z) :
  (0 <= a < 2 ^ 53)%Z -> (0 <= b < 2 ^ 53)%Z ->
  Text.formatDuration a
  = pretty (a / 60)%Z +:+ ":" +:+ Text.two_decimals (a mod 60)
  /\ (Text.formatDuration a = Text.formatDuration b -> a = b).
Proof.
  intros [Ha _] [Hb _]. unfold Text.formatDuration. cbv zeta.
  rewrite !Z.rem_mod_nonneg by lia.
  pose proof (two_digits (a mod 60) ltac:(apply Z.mod_pos_bound; lia)) as La.
  pose proof (two_digits (b mod 60) ltac:(apply Z.mod_pos_bound; lia)) as Lb.
  split.
  - by rewrite two_digits_text by (apply Z.mod_pos_bound; lia).
  - intros Heq.
    assert (String.length (pretty (a / 60)%Z) = String.length (pretty (b / 60)%Z)) as Hl.
    { apply (f_equal String.length) in Heq.
      rewrite !string_app_length, La, Lb in Heq. lia. }
    apply string_app_inv in Heq as [Hm Hs]; [|done].
    apply (inj pretty) in Hm.
    apply (string_app_inv ":" _ ":" _ eq_refl) in Hs as [_ Hs].
    apply two_digits_inj in Hs; try (apply Z.mod_pos_bound; lia).
    rewrite (Z.div_mod a 60), (Z.div_mod b 60) by lia. congruence.
Qed.

Lemma formatDuration_faithful_witness :
  (0 <= 3725 < 2 ^ 53)%Z /\ (0 <= 125 < 2 ^ 53)%Z
  /\ Text.formatDuration 3725 = "62:05"
  /\ (Text.formatDuration 3725 = Text.formatDuration 125 -> 3725%Z = 125%Z).
Proof.
  split; [lia | split; [lia |]].
  destruct (formatDuration_faithful 3725 125) as [H1 H2]; [lia | lia |].
  split; [rewrite H1; vm_compute; reflexivity | exact H2].
Defined.

(* ===================================================================== *)
(** ** File names and paths *)
(* ===================================================================== *)

Lemma split_from_plain (sep : ascii) (cur s : string) :
  Text.includes sep s = false -> JS.split_from sep cur s = [cur +:+ s].
Proof.
  revert cur. induction s as [|c s IH]; intros cur Hs.
  - simpl. f_equal. clear. induction cur as [|x cur IH]; [done |].
    rewrite string_app_cons. by rewrite <- IH.
  - simpl in Hs. apply orb_false_iff in Hs as [Hc Hs].
    simpl. rewrite Hc, IH by done. by rewrite string_app_assoc.
Qed.

Lemma split_from_not_nil (sep : ascii) (cur s : string) :
  JS.split_from sep cur s <> [].
Proof.
  revert cur. induction s as [|c s IH]; intros cur; simpl; [done |].
  destruct (Ascii.eqb c sep); [done | apply IH].
Qed.

Lemma last_cons_not_nil {A : Type} (x d : A) (l : list A) :
  l <> [] -> List.last (x :: l) d = List.last l d.
Proof. by destruct l. Qed.

Lemma split_from_last (sep : ascii) (cur a b : string) :
  List.last (JS.split_from sep cur (a +:+ String sep b)) ""
  = List.last (JS.split_from sep "" b) "".
Proof.
  revert cur. induction a as [|c a IH]; intros cur.
  - change ("" +:+ String sep b) with (String sep b).
    cbn [JS.split_from]. rewrite Ascii.eqb_refl.
    apply last_cons_not_nil, split_from_not_nil.
  - rewrite string_app_cons. cbn [JS.split_from].
    destruct (Ascii.eqb c sep); [|apply IH].
    rewrite last_cons_not_nil by apply split_from_not_nil. apply IH.
Qed.

(** X2: the extension both upload paths end in is what follows the last
    dot of the file name, and for a name without a dot the whole name. *)
Theorem file_extension (name base ext : string) :
  Text.includes "." name = false -> Text.includes "." ext = false ->
  JS.pop (JS.split "." name) = name
  /\ JS.pop (JS.split "." (base +:+ "." +:+ ext)) = ext.
Proof.
  intros Hn He. unfold JS.pop, JS.split. split.
  - by rewrite split_from_plain.
  - change ("." +:+ ext) with (String "." ext).
    rewrite split_from_last. by rewrite split_from_plain.
Qed.

Lemma file_extension_witness :
  Text.includes "." "README" = false /\ Text.includes "." "mp3" = false
  /\ JS.pop (JS.split "." "README") = "README"
  /\ JS.pop (JS.split "." ("talk.final" +:+ "." +:+ "mp3")) = "mp3".
Proof.
  split; [reflexivity | split; [reflexivity |]].
  apply (file_extension "README" "talk.final" "mp3"); reflexivity.
Defined.

(* ===================================================================== *)
(** ** The route table *)
(* ===================================================================== *)

Lemma plain_routes_public (pathname : string) (p : App.Page) :
  App.Routes pathname = App.plain p -> needs_user p = false.
Proof.
  unfold App.Routes.
  destruct (App.segments pathname) as [|a [|b [|c [|d [|e [|? ?]]]]]];
    repeat case_match; intros; by simplify_eq.
Qed.

(** X3: whatever the path, a page that needs a user (dashboard, create
    podcast, a podcast's episodes, create episode, subscriptions,
    favorites) is mounted only once the session check is over and a user
    is signed in. *)
Theorem guarded_pages_need_user (pathname : string) (w : World) (p : App.Page) :
  App.AppRoutes pathname w = App.Mounted p -> needs_user p = true ->
  loading w = false /\ ∃ u, user w = Some u.
Proof.
  unfold App.AppRoutes, App.ProtectedRoute. intros Hm Hp.
  destruct (loading w); [discriminate |]. split; [done |].
  destruct (App.Routes pathname) as [q|q|to] eqn:Hr; [| |discriminate].
  - simplify_eq. apply plain_routes_public in Hr. congruence.
  - destruct (user w) as [u|]; [by eexists | discriminate].
Qed.

Lemma guarded_pages_need_user_witness :
  App.AppRoutes "/dashboard/podcasts/p1/episodes/new" Sample.world
  = App.Mounted (App.CreateEpisode "p1")
  /\ needs_user (App.CreateEpisode "p1") = true
  /\ loading Sample.world = false /\ ∃ u, user Sample.world = Some u.
Proof.
  assert (App.AppRoutes "/dashboard/podcasts/p1/episodes/new" Sample.world
          = App.Mounted (App.CreateEpisode "p1")) as Hm by (vm_compute; reflexivity).
  split; [exact Hm | split; [reflexivity |]].
  apply (guarded_pages_need_user _ _ _ Hm). reflexivity.
Defined.

Lemma split_from_piece (sep : ascii) (cur a b : string) :
  Text.includes sep a = false ->
  JS.split_from sep cur (a +:+ String sep b) = (cur +:+ a) :: JS.split_from sep "" b.
Proof.
  revert cur. induction a as [|c a IH]; intros cur Ha.
  - change ("" +:+ String sep b) with (String sep b).
    cbn [JS.split_from]. rewrite Ascii.eqb_refl. f_equal.
    clear. induction cur as [|x cur IH]; [done |].
    rewrite string_app_cons. by rewrite <- IH.
  - simpl in Ha. apply orb_false_iff in Ha as [Hc Ha].
    rewrite string_app_cons. cbn [JS.split_from]. rewrite Hc, IH by done.
    by rewrite string_app_assoc.
Qed.

Lemma episodes_path_segments (id : string) :
  id <> "" -> Text.includes "/" id = false ->
  App.segments (episodes_path id) = ["dashboard"; "podcasts"; id; "episodes"].
Proof.
  intros Hne Hid. unfold App.segments, JS.split.
  change (episodes_path id)
    with (String "/" ("dashboard" +:+ String "/" ("podcasts" +:+ String "/"
            (id +:+ String "/" "episodes")))).
  cbn [JS.split_from]. rewrite Ascii.eqb_refl.
  rewrite !split_from_piece by done.
  rewrite split_from_plain by done.
  change ("" +:+ id) with id.
  rewrite !filter_cons, filter_nil.
  repeat case_decide; try done.
Qed.

Lemma episodes_path_route (id : string) :
  id <> "" -> Text.includes "/" id = false ->
  App.Routes (episodes_path id) = App.guarded (App.PodcastEpisodes id).
Proof.
  intros Hne Hid. unfold App.Routes.
  by rewrite episodes_path_segments.
Qed.

Lemma uuid_text_plain (id : string) :
  Text.uuid_text id = true -> id <> "" /\ Text.includes "/" id = false.
Proof.
  unfold Text.uuid_text. intros H. apply andb_true_iff in H as [Hne Hall]. split.
  - intros ->. discriminate.
  - clear Hne. induction id as [|c id IH]; [done |].
    cbn [list_ascii_of_string forallb] in Hall.
    apply andb_true_iff in Hall as [Hc Hall].
    cbn [Text.includes]. rewrite (IH Hall), orb_false_r.
    destruct (Ascii.eqb c "/") eqn:E; [|done].
    apply Ascii.eqb_eq in E as ->. vm_compute in Hc. discriminate.
Qed.

(** X4: when the store accepts a podcast created without a cover, the page
    navigates to /dashboard/podcasts/<id>/episodes for the id the store
    gave the row, and the route table resolves that path, for the
    signed-in user, to the episodes page of that podcast.  The id is a
    UUID as the store draws it: lower-case hexadecimal digits and hyphens,
    none of which the router treats specially. *)
Theorem created_podcast_lands_on_its_episodes
        (data : CreatePodcast.PodcastFormValues) (u : User.t)
        (s : CreatePodcast.State) (w : World) (uuid : string) (now : Z)
        (rest : list Outcome) :
  user w = Some u -> loading w = false -> CreatePodcast.coverImage s = None ->
  network w = Served uuid now :: rest -> podcasts_of w !! uuid = None ->
  Text.uuid_text uuid = true ->
  let w' := (run (CreatePodcast.onSubmit data) s w).2 in
  navigate (episodes_path uuid) ∈ issued w w'
  /\ App.AppRoutes (episodes_path uuid) w' = App.Mounted (App.PodcastEpisodes uuid).
Proof.
  intros Hu Hl Hc Hn Hf Hid. unfold podcasts_of in Hf.
  apply uuid_text_plain in Hid as [Hne Hsl].
  destruct w as [u' ld [[pods eps subs favs] [bks objs]] net dlg md rnd url tr];
    simpl in Hu, Hl, Hn, Hf; subst u' ld net.
  destruct s as [ci cp up er br]; simpl in Hc; subst ci.
  destruct data as [ti de].
  unfold App.AppRoutes, App.ProtectedRoute. rewrite episodes_path_route by done.
  unfold CreatePodcast.onSubmit. exec.
  rewrite bool_decide_eq_true_2 by done.
  rewrite bool_decide_eq_false_2 by (rewrite Hf; by intros [? ?]). exec.
  split; [|done]. read_trace. rewrite !elem_of_cons. auto.
Qed.

Lemma created_podcast_lands_on_its_episodes_witness :
  let id := "7c9e6679-7425-40de-944b-e07fc1f90ae7" in
  Text.uuid_text id = true
  /\ navigate (episodes_path id)
       ∈ issued Gallery.fresh
           (run (CreatePodcast.onSubmit Sample.form) CreatePodcast.init Gallery.fresh).2
  /\ App.AppRoutes (episodes_path id)
       (run (CreatePodcast.onSubmit Sample.form) CreatePodcast.init Gallery.fresh).2
     = App.Mounted (App.PodcastEpisodes id).
Proof.
  cbv zeta. split; [reflexivity |].
  apply (created_podcast_lands_on_its_episodes Sample.form Sample.alice
           CreatePodcast.init Gallery.fresh "7c9e6679-7425-40de-944b-e07fc1f90ae7" 100
           [Served "0f8fad5b-d9cb-469f-a165-70867728950e" 101]);
    reflexivity.
Defined.

(* ===================================================================== *)
(** ** Choosing a file *)
(* ===================================================================== *)

(** X5: on the create-episode page an audio file of at most 100*1024*1024
    bytes replaces the selection and clears the error; any other file only
    sets an error (the type message first) and leaves the earlier selection
    in place, so that the next submission runs exactly as if that file had
    never been chosen. *)
Theorem rejected_audio_is_ignored (toISOString : string -> option string)
        (data : CreateEpisode.EpisodeFormValues) (file : File.t)
        (s : CreateEpisode.State) (w w2 : World) :
  let s' := (run (CreateEpisode.handleAudioChange (Some file)) s w).1 in
  audio_choice file s s'
  /\ (rejected_audio file = true ->
      run (CreateEpisode.onSubmit toISOString data) s' w2
      = run (CreateEpisode.onSubmit toISOString data) s w2).
Proof.
  unfold audio_choice, rejected_audio, CreateEpisode.handleAudioChange.
  destruct s as [pc af up pr er].
  destruct (JS.startsWith (File.type file) "audio/") eqn:Ht; cbn [negb andb].
  - destruct (File.size file <=? 100 * 1024 * 1024)%N eqn:Hz.
    + apply N.leb_le in Hz. rewrite (proj2 (N.ltb_ge _ _) Hz). exec.
      split; [done | discriminate].
    + apply N.leb_gt in Hz. rewrite (proj2 (N.ltb_lt _ _) Hz). exec.
      split; [done |]. intros _.
      destruct w2 as [u ld [[pods eps subs favs] [bks objs]] net dlg md rnd url tr].
      unfold CreateEpisode.onSubmit. destruct u, pc, af; exec; reflexivity.
  - exec. split; [done |]. intros _.
    destruct w2 as [u ld [[pods eps subs favs] [bks objs]] net dlg md rnd url tr].
    unfold CreateEpisode.onSubmit. destruct u, pc, af; exec; reflexivity.
Qed.

Lemma rejected_audio_is_ignored_witness :
  rejected_audio Gallery.picture = true
  /\ run (CreateEpisode.onSubmit Sample.midnight Sample.episode_form)
         (run (CreateEpisode.handleAudioChange (Some Gallery.picture))
              (Sample.chosen Sample.talk) Sample.studio).1
         Sample.studio
     = run (CreateEpisode.onSubmit Sample.midnight Sample.episode_form)
           (Sample.chosen Sample.talk) Sample.studio.
Proof.
  split; [reflexivity |].
  apply (rejected_audio_is_ignored Sample.midnight Sample.episode_form Gallery.picture
           (Sample.chosen Sample.talk) Sample.studio Sample.studio).
  reflexivity.
Defined.

(** X6: the same on the create-podcast page, for image files of at most
    5*1024*1024 bytes and a submission by a signed-in user. *)
Theorem rejected_image_is_ignored (data : CreatePodcast.PodcastFormValues)
        (file : File.t) (s : CreatePodcast.State) (w w2 : World) :
  is_Some (user w2) ->
  let s' := (run (CreatePodcast.handleImageChange (Some file)) s w).1 in
  image_choice file s s'
  /\ (rejected_image file = true ->
      run (CreatePodcast.onSubmit data) s' w2 = run (CreatePodcast.onSubmit data) s w2).
Proof.
  intros [u Hu].
  unfold image_choice, rejected_image, CreatePodcast.handleImageChange.
  destruct s as [ci cp up er br].
  destruct w2 as [u' ld [[pods eps subs favs] [bks objs]] net dlg md rnd url tr].
  simpl in Hu; subst u'.
  destruct (JS.startsWith (File.type file) "image/") eqn:Ht; cbn [negb andb].
  - destruct (File.size file <=? 5 * 1024 * 1024)%N eqn:Hz.
    + apply N.leb_le in Hz. rewrite (proj2 (N.ltb_ge _ _) Hz). exec.
      split; [done | discriminate].
    + apply N.leb_gt in Hz. rewrite (proj2 (N.ltb_lt _ _) Hz). exec.
      split; [done |]. intros _.
      unfold CreatePodcast.onSubmit. exec; reflexivity.
  - exec. split; [done |]. intros _.
    unfold CreatePodcast.onSubmit. exec; reflexivity.
Qed.

Lemma rejected_image_is_ignored_witness :
  is_Some (user Sample.world)
  /\ image_choice Sample.talk CreatePodcast.init
       (run (CreatePodcast.handleImageChange (Some Sample.talk)) CreatePodcast.init
            Sample.world).1
  /\ run (CreatePodcast.onSubmit Sample.form)
         (run (CreatePodcast.handleImageChange (Some Sample.talk)) CreatePodcast.init
              Sample.world).1 Sample.world
     = run (CreatePodcast.onSubmit Sample.form) CreatePodcast.init Sample.world.
Proof.
  assert (is_Some (user Sample.world)) as Hu by (by eexists).
  destruct (rejected_image_is_ignored Sample.form Sample.talk CreatePodcast.init
              Sample.world Sample.world Hu) as [H1 H2].
  split; [exact Hu | split; [exact H1 | exact (H2 eq_refl)]].
Defined.

(* ===================================================================== *)
(** ** Creating a podcast with a cover *)
(* ===================================================================== *)

Lemma cover_useEffect_keeps_coverImage :
  keeps CreatePodcast.coverImage CreatePodcast.useEffect.
Proof.
  unfold CreatePodcast.useEffect, CreatePodcast.redirectEffect,
    CreatePodcast.checkBucketExists, CreatePodcast.setError,
    CreatePodcast.setBucketReady.
  keeps_all.
Qed.

Lemma cover_onSubmit_keeps_coverImage (data : CreatePodcast.PodcastFormValues) :
  keeps CreatePodcast.coverImage (CreatePodcast.onSubmit data).
Proof.
  unfold CreatePodcast.onSubmit, getPublicUrl, CreatePodcast.setIsUploading,
    CreatePodcast.setError.
  keeps_all.
Qed.

Lemma handleImageChange_accepts (file : option File.t) (s : CreatePodcast.State)
      (w : World) :
  holds_accepted_image s ->
  holds_accepted_image (run (CreatePodcast.handleImageChange file) s w).1.
Proof.
  intros Hs. unfold CreatePodcast.handleImageChange.
  destruct file as [file|]; [|exact Hs].
  destruct (JS.startsWith (File.type file) "image/") eqn:Ht; cbn [negb];
    [|intros f; exec; apply Hs].
  destruct (5 * 1024 * 1024 <? File.size file)%N eqn:Hz;
    [intros f; exec; apply Hs|].
  intros f. exec. intros [= <-]. split; [done|]. by apply N.ltb_ge.
Qed.

Lemma cover_reachable_holds_accepted (s : CreatePodcast.State) :
  cover_reachable s -> holds_accepted_image s.
Proof.
  induction 1 as [|a s w Hr IH].
  - intros f. discriminate.
  - destruct a as [|file|data]; cbn [cover_step].
    + intros f. unfold run.
      pose proof (cover_useEffect_keeps_coverImage s w) as Hk.
      destruct (CreatePodcast.useEffect s w) as [[r s'] w']; cbn in *.
      rewrite Hk. apply IH.
    + by apply handleImageChange_accepts.
    + intros f. unfold run.
      pose proof (cover_onSubmit_keeps_coverImage data s w) as Hk.
      destruct (CreatePodcast.onSubmit data s w) as [[r s'] w']; cbn in *.
      rewrite Hk. apply IH.
Qed.

(** What a create-podcast submission sends: only the selected cover, and
    only rows that carry the public URL of the cover as it now lies in
    storage (or no cover at all). *)
Lemma cover_onSubmit_sends (data : CreatePodcast.PodcastFormValues)
      (s : CreatePodcast.State) (w : World) :
  let '(s', w') := run (CreatePodcast.onSubmit data) s w in
  (∀ f, f ∈ uploaded_files (issued w w') -> CreatePodcast.coverImage s = Some f)
  /\ (∀ row, call (Backend.insert_podcast row) ∈ issued w w' ->
        ∃ u, user w = Some u
             /\ NewPodcast.author_id row = User.id u
             /\ match CreatePodcast.coverImage s with
                | None => NewPodcast.cover_image_url row = None
                | Some f =>
                    NewPodcast.cover_image_url row
                    = Some (public_url w "podcast-covers" (cover_path u w f))
                    /\ objects_of w' !! ("podcast-covers", cover_path u w f) = Some f
                end)
  /\ (is_Some (user w) ->
      settled (CreatePodcast.error s') (CreatePodcast.isUploading s') (issued w w')).
Proof.
  destruct w as [u ld [[pods eps subs favs] [bks objs]] net dlg md rnd url tr].
  destruct s as [ci cp up er br]. destruct data as [ti de].
  unfold CreatePodcast.onSubmit, settled, objects_of, public_url, cover_path.
  destruct u as [u|];
    [destruct ci as [f|];
     [destruct br; [destruct net as [|[a1 n1|m1|m1] [|[a2 n2|m2|m2] rest]] |]
     |destruct net as [|[a1 n1|m1|m1] rest]] |];
    exec; case_stuck.
  all: (split; [intros f0; sent_in_trace; intros Hin;
                repeat destruct Hin as [Hin|Hin]; try done; by simplify_eq |]).
  all: (split; [intros row; read_trace; rewrite ?elem_of_cons, ?elem_of_nil;
                intros Hin; repeat destruct Hin as [Hin|Hin]; try done;
                simplify_eq; eexists; (split; [reflexivity |]);
                (split; [reflexivity |]);
                first [reflexivity | split; [reflexivity | apply lookup_insert_eq]] |]).
  all: intros Hu; try (by destruct Hu).
  all: split; [reflexivity |]; read_trace; cbn [existsb is_navigate orb].
  all: first [left; split; reflexivity | right; split; [reflexivity | discriminate]].
Qed.

(** X7: whatever the visitor did on the create-podcast page before, a
    submission uploads nothing but an image file of at most 5*1024*1024
    bytes. *)
Theorem cover_upload_checked (data : CreatePodcast.PodcastFormValues)
        (s : CreatePodcast.State) (w : World) :
  cover_reachable s ->
  Forall accepted_image
         (uploaded_files (issued w (run (CreatePodcast.onSubmit data) s w).2)).
Proof.
  intros Hr. pose proof (cover_onSubmit_sends data s w) as H.
  pose proof (cover_reachable_holds_accepted s Hr) as Hs.
  destruct (run (CreatePodcast.onSubmit data) s w) as [s' w'].
  destruct H as (Hup & _). apply Forall_forall. intros f Hf. apply Hs, Hup, Hf.
Qed.

(** X8: a podcast row is sent to the store only with the signed-in user
    as its author and, when a cover is selected, with the public URL the
    client yields (percent-encoded) for the object that then holds that
    cover in the 'podcast-covers' bucket, under
    <user id>/<random>.<extension>, a path without an empty folder; with
    no cover selected the URL is null. *)
Theorem podcast_row_references_cover (data : CreatePodcast.PodcastFormValues)
        (s : CreatePodcast.State) (w : World) (row : NewPodcast.t) :
  (∀ u f, user w = Some u -> CreatePodcast.coverImage s = Some f ->
          Text.no_empty_folder (cover_path u w f) = true) ->
  let w' := (run (CreatePodcast.onSubmit data) s w).2 in
  call (Backend.insert_podcast row) ∈ issued w w' ->
  ∃ u, user w = Some u
       /\ NewPodcast.author_id row = User.id u
       /\ match CreatePodcast.coverImage s with
          | None => NewPodcast.cover_image_url row = None
          | Some f =>
              NewPodcast.cover_image_url row
              = Some (public_url w "podcast-covers" (cover_path u w f))
              /\ objects_of w' !! ("podcast-covers", cover_path u w f) = Some f
          end.
Proof.
  intros _.
  pose proof (cover_onSubmit_sends data s w) as H.
  destruct (run (CreatePodcast.onSubmit data) s w) as [s' w'].
  destruct H as (_ & Hrow & _). apply Hrow.
Qed.

(** X9: a create-podcast submission by a signed-in user always ends with
    the spinner off and in exactly one of two ways: the page navigated away
    and shows no error, or it stayed and shows one. *)
Theorem podcast_submission_settles (data : CreatePodcast.PodcastFormValues)
        (s : CreatePodcast.State) (w : World) :
  is_Some (user w) ->
  let '(s', w') := run (CreatePodcast.onSubmit data) s w in
  settled (CreatePodcast.error s') (CreatePodcast.isUploading s') (issued w w').
Proof.
  intros Hu. pose proof (cover_onSubmit_sends data s w) as H.
  destruct (run (CreatePodcast.onSubmit data) s w) as [s' w'].
  destruct H as (_ & _ & Hs). by apply Hs.
Qed.

Lemma with_picture_reachable : cover_reachable Gallery.with_picture.
Proof.
  unfold Gallery.with_picture. apply cover_reach_step, cover_reach_step, cover_reach_init.
Defined.

Lemma cover_upload_checked_witness :
  cover_reachable Gallery.with_picture
  /\ Forall accepted_image
       (uploaded_files
          (issued Gallery.world
             (run (CreatePodcast.onSubmit Sample.form) Gallery.with_picture
                  Gallery.world).2)).
Proof.
  split; [apply with_picture_reachable |].
  apply (cover_upload_checked Sample.form Gallery.with_picture Gallery.world
           with_picture_reachable).
Defined.

Lemma with_picture_uploads :
  uploaded_files
    (issued Gallery.world
       (run (CreatePodcast.onSubmit Sample.form) Gallery.with_picture Gallery.world).2)
  = [Gallery.picture].
Proof. vm_compute. reflexivity. Qed.

Lemma podcast_row_references_cover_witness :
  ∃ row u,
    call (Backend.insert_podcast row)
      ∈ issued Gallery.world
          (run (CreatePodcast.onSubmit Sample.form) Gallery.with_picture Gallery.world).2
    /\ user Gallery.world = Some u
    /\ NewPodcast.cover_image_url row
       = Some (public_url Gallery.world "podcast-covers"
                 (cover_path u Gallery.world Gallery.picture)).
Proof.
  set (row := {| NewPodcast.title := "Test Show";
                 NewPodcast.description := "A show about testing";
                 NewPodcast.cover_image_url :=
                   Some (public_url Gallery.world "podcast-covers"
                           (cover_path Sample.alice Gallery.world Gallery.picture));
                 NewPodcast.author_id := "u1" |}).
  assert (call (Backend.insert_podcast row)
            ∈ issued Gallery.world
                (run (CreatePodcast.onSubmit Sample.form) Gallery.with_picture
                     Gallery.world).2) as Hin.
  { assert (issued Gallery.world
              (run (CreatePodcast.onSubmit Sample.form) Gallery.with_picture
                   Gallery.world).2
            = [set_state "setIsUploading"; set_state "setError";
               call (Backend.upload "podcast-covers"
                       (cover_path Sample.alice Gallery.world Gallery.picture)
                       Gallery.picture true);
               call (Backend.insert_podcast row);
               navigate (episodes_path "id-2");
               set_state "setIsUploading"]) as -> by (vm_compute; reflexivity).
    rewrite !elem_of_cons. auto. }
  assert (CreatePodcast.coverImage Gallery.with_picture = Some Gallery.picture) as Hci
      by (vm_compute; reflexivity).
  assert (∀ u f, user Gallery.world = Some u ->
                 CreatePodcast.coverImage Gallery.with_picture = Some f ->
                 Text.no_empty_folder (cover_path u Gallery.world f) = true) as Hpath.
  { intros u f Hu Hf. rewrite Hci in Hf. cbn in Hu. simplify_eq.
    vm_compute. reflexivity. }
  destruct (podcast_row_references_cover Sample.form Gallery.with_picture Gallery.world
              row Hpath Hin) as (u & Hu & _ & Hc).
  exists row, u. split; [exact Hin | split; [exact Hu |]].
  rewrite Hci in Hc. exact (proj1 Hc).
Defined.

Lemma podcast_submission_settles_witness :
  is_Some (user Gallery.insert_refused)
  /\ settled
       (CreatePodcast.error
          (run (CreatePodcast.onSubmit Sample.form) Gallery.with_picture
               Gallery.insert_refused).1)
       (CreatePodcast.isUploading
          (run (CreatePodcast.onSubmit Sample.form) Gallery.with_picture
               Gallery.insert_refused).1)
       (issued Gallery.insert_refused
          (run (CreatePodcast.onSubmit Sample.form) Gallery.with_picture
               Gallery.insert_refused).2).
Proof.
  assert (is_Some (user Gallery.insert_refused)) as Hu by (by eexists).
  split; [exact Hu |].
  pose proof (podcast_submission_settles Sample.form Gallery.with_picture
                Gallery.insert_refused Hu) as H.
  destruct (run (CreatePodcast.onSubmit Sample.form) Gallery.with_picture
                Gallery.insert_refused) as [s' w'].
  exact H.
Defined.

(* ===================================================================== *)
(** ** More on creating an episode *)
(* ===================================================================== *)

Lemma not_decided_none {A : Type} (o : option A) :
  bool_decide (is_Some o) = false -> o = None.
Proof.
  intros H. apply bool_decide_eq_false in H.
  destruct o; [exfalso; apply H; by eexists | done].
Qed.

Lemma episode_onSubmit_more (toISOString : string -> option string)
      (data : CreateEpisode.EpisodeFormValues) (s : CreateEpisode.State) (w : World) :
  let '(s', w') := run (CreateEpisode.onSubmit toISOString data) s w in
  (∀ row, call (Backend.insert_episode row) ∈ issued w w' ->
     ∃ p f, CreateEpisode.podcast s = Some p /\ CreateEpisode.audioFile s = Some f
            /\ NewEpisode.podcast_id row = Podcast.id p
            /\ NewEpisode.audio_url row
               = public_url w "podcast-audio" (audio_path p w f)
            /\ objects_of w' !! ("podcast-audio", audio_path p w f) = Some f)
  /\ episode_outcome s s' w w'
  /\ only_adds w w'.
Proof.
  destruct w as [u ld [[pods eps subs favs] [bks objs]] net dlg md rnd url tr].
  destruct s as [pc af up pr er]. destruct data as [ti de pa].
  unfold CreateEpisode.onSubmit, episode_outcome, settled, only_adds, objects_of,
    public_url, audio_path.
  destruct u as [u|]; [destruct pc as [pc|]; [destruct af as [f|] |] |]; exec.
  - destruct md as [d| |], net as [|[a1 n1|m1|m1] net]; exec; case_stuck.
    all: try (destruct (toISOString pa) as [iso|] eqn:Hiso; exec).
    all: try (destruct net as [|[a2 n2|m2|m2] rest]; exec; case_stuck).
    all: (split; [intros row; read_trace; rewrite ?elem_of_cons, ?elem_of_nil;
                  intros Hin; repeat destruct Hin as [Hin|Hin]; try done;
                  simplify_eq; eexists _, _; repeat (split; [reflexivity |]);
                  apply lookup_insert_eq |]).
    all: (split; [first [ by split; read_trace
                        | split; [|reflexivity]; (split; [reflexivity |]);
                          read_trace; cbn [existsb is_navigate orb];
                          first [left; split; reflexivity
                                | right; split; [reflexivity | discriminate]]] |]).
    all: repeat split; try done.
    all: apply insert_subseteq; by apply not_decided_none.
  - repeat split; try done; try (by read_trace);
      intros row; read_trace;
      rewrite ?elem_of_cons, ?elem_of_nil; intros Hin;
      by repeat destruct Hin as [Hin|Hin].
  - repeat split; try done; try (by read_trace);
      intros row; read_trace;
      rewrite ?elem_of_cons, ?elem_of_nil; intros Hin;
      by repeat destruct Hin as [Hin|Hin].
  - repeat split; try done; try (by read_trace);
      intros row; read_trace;
      rewrite ?elem_of_cons, ?elem_of_nil; intros Hin;
      by repeat destruct Hin as [Hin|Hin].
Qed.

(** X10: an episode row is sent to the store only for the podcast the page
    has loaded and with the public URL the client yields (percent-encoded)
    for the object that then holds the selected audio file in the
    'podcast-audio' bucket, under <podcast id>/<random>.<extension>, a
    path without an empty folder. *)
Theorem episode_row_references_audio (toISOString : string -> option string)
        (data : CreateEpisode.EpisodeFormValues) (s : CreateEpisode.State) (w : World)
        (row : NewEpisode.t) :
  (∀ p f, CreateEpisode.podcast s = Some p -> CreateEpisode.audioFile s = Some f ->
          Text.no_empty_folder (audio_path p w f) = true) ->
  let w' := (run (CreateEpisode.onSubmit toISOString data) s w).2 in
  call (Backend.insert_episode row) ∈ issued w w' ->
  ∃ p f, CreateEpisode.podcast s = Some p /\ CreateEpisode.audioFile s = Some f
         /\ NewEpisode.podcast_id row = Podcast.id p
         /\ NewEpisode.audio_url row = public_url w "podcast-audio" (audio_path p w f)
         /\ objects_of w' !! ("podcast-audio", audio_path p w f) = Some f.
Proof.
  intros _.
  pose proof (episode_onSubmit_more toISOString data s w) as H.
  destruct (run (CreateEpisode.onSubmit toISOString data) s w) as [s' w'].
  destruct H as (Hrow & _). apply Hrow.
Qed.

Lemma episode_row_references_audio_witness :
  ∃ row p f,
    call (Backend.insert_episode row)
      ∈ issued Sample.studio
          (run (CreateEpisode.onSubmit Sample.midnight Sample.episode_form)
               (Sample.chosen Sample.talk) Sample.studio).2
    /\ CreateEpisode.podcast (Sample.chosen Sample.talk) = Some p
    /\ NewEpisode.audio_url row
       = public_url Sample.studio "podcast-audio" (audio_path p Sample.studio f).
Proof.
  set (row := {| NewEpisode.podcast_id := "p1"; NewEpisode.title := "Pilot";
                 NewEpisode.description := "The first episode";
                 NewEpisode.audio_url :=
                   public_url Sample.studio "podcast-audio"
                     (audio_path Sample.show Sample.studio Sample.talk);
                 NewEpisode.duration := CreateEpisode.estimate Sample.talk;
                 NewEpisode.published_at := "2024-01-01T00:00:00.000Z" |}).
  assert (call (Backend.insert_episode row)
            ∈ issued Sample.studio
                (run (CreateEpisode.onSubmit Sample.midnight Sample.episode_form)
                     (Sample.chosen Sample.talk) Sample.studio).2) as Hin.
  { assert (issued Sample.studio
              (run (CreateEpisode.onSubmit Sample.midnight Sample.episode_form)
                   (Sample.chosen Sample.talk) Sample.studio).2
            = [set_state "setIsUploading"; set_state "setError";
               call (Backend.upload "podcast-audio"
                       (audio_path Sample.show Sample.studio Sample.talk)
                       Sample.talk false);
               call (Backend.insert_episode row);
               navigate (episodes_path "p1");
               set_state "setIsUploading"; set_state "setUploadProgress"]) as ->
        by (vm_compute; reflexivity).
    rewrite !elem_of_cons. auto. }
  assert (∀ p f, CreateEpisode.podcast (Sample.chosen Sample.talk) = Some p ->
                 CreateEpisode.audioFile (Sample.chosen Sample.talk) = Some f ->
                 Text.no_empty_folder (audio_path p Sample.studio f) = true) as Hpath.
  { intros p f Hp Hf. vm_compute in Hp, Hf. simplify_eq. vm_compute. reflexivity. }
  destruct (episode_row_references_audio Sample.midnight Sample.episode_form
              (Sample.chosen Sample.talk) Sample.studio row Hpath Hin)
    as (p & f & Hp & _ & _ & Hurl & _).
  exists row, p, f. split; [exact Hin | split; [exact Hp | exact Hurl]].
Defined.

(** X11: a create-episode submission goes one of three ways.  Without a
    user, a loaded podcast or a selected file it only shows 'Please upload
    an audio file'.  When the audio element fires neither event it hangs
    with the spinner on and nothing sent.  Otherwise it ends with the
    spinner off and the progress at 0, and either navigated away with no
    error shown or stayed and shows one. *)
Theorem episode_submission_outcome (toISOString : string -> option string)
        (data : CreateEpisode.EpisodeFormValues) (s : CreateEpisode.State) (w : World) :
  let '(s', w') := run (CreateEpisode.onSubmit toISOString data) s w in
  episode_outcome s s' w w'.
Proof.
  pose proof (episode_onSubmit_more toISOString data s w) as H.
  destruct (run (CreateEpisode.onSubmit toISOString data) s w) as [s' w'].
  by destruct H as (_ & Ho & _).
Qed.

(** X12: a create-episode submission never removes or overwrites anything
    the backend holds: every stored object and every episode row is still
    there unchanged after it, and the podcasts, favorites and
    subscriptions are as before. *)
Theorem episode_submission_only_adds (toISOString : string -> option string)
        (data : CreateEpisode.EpisodeFormValues) (s : CreateEpisode.State) (w : World) :
  only_adds w (run (CreateEpisode.onSubmit toISOString data) s w).2.
Proof.
  pose proof (episode_onSubmit_more toISOString data s w) as H.
  destruct (run (CreateEpisode.onSubmit toISOString data) s w) as [s' w'].
  by destruct H as (_ & _ & Ha).
Qed.

(** X13: when the store accepts the audio upload (under a path without an
    empty folder) and the insert of the episode row then comes back with
    an error (the call is refused, or the store runs the statement and its
    policy, its primary key or its INTEGER column rejects the row), the
    page shows 'Failed to create episode: ...' and does not navigate, no
    episode row is added, and the uploaded object stays in storage: the
    upload and the insert are the only requests, nothing is sent to remove
    the file. *)
Theorem failed_insert_leaves_the_upload (toISOString : string -> option string)
        (data : CreateEpisode.EpisodeFormValues) (s : CreateEpisode.State) (w : World)
        (u : User.t) (p : Podcast.t) (f : File.t) (iso : string)
        (d : JS.number) (o1 o2 : Outcome) (rest : list Outcome) :
  user w = Some u -> CreateEpisode.podcast s = Some p ->
  CreateEpisode.audioFile s = Some f ->
  reported_duration f (media w) = Some d ->
  toISOString (CreateEpisode.publishedAt data) = Some iso ->
  network w = o1 :: o2 :: rest ->
  Text.no_empty_folder (audio_path p w f) = true ->
  accepted (Backend.upload "podcast-audio" (audio_path p w f) f false) w ->
  insert_turned_down u (episode_row_sent data p f d iso w) o2 w ->
  let '(s', w') := run (CreateEpisode.onSubmit toISOString data) s w in
  objects_of w' !! ("podcast-audio", audio_path p w f) = Some f
  /\ episodes_of w' = episodes_of w
  /\ (∃ msg, CreateEpisode.error s' = Some ("Failed to create episode: " +:+ msg)
             /\ ∀ m, o2 = Refused m -> msg = m)
  /\ existsb is_navigate (issued w w') = false
  /\ filter (λ e, is_call e = true) (issued w w')
     = [call (Backend.upload "podcast-audio" (audio_path p w f) f false);
        call (Backend.insert_episode (episode_row_sent data p f d iso w))].
Proof.
  intros Hu Hp Hf Hd Hiso Hn _ Hacc Hdown.
  unfold objects_of, episodes_of, podcasts_of, audio_path, public_url, accepted,
    insert_turned_down, episode_row_sent in *.
  destruct w as [u' ld [[pods eps subs favs] [bks objs]] net dlg md rnd url tr].
  destruct s as [pc af up pr er]. destruct data as [ti de pa].
  cbn in Hu, Hp, Hf, Hiso, Hn. subst u' pc af net.
  destruct Hacc as (resp & Hr & He). revert Hr He Hdown.
  unfold CreateEpisode.onSubmit.
  destruct md as [x| |]; cbn [reported_duration media] in Hd; simplify_eq.
  all: destruct o1 as [a1 n1|m1|m1]; exec.
  all: try (intros [= <-]; discriminate).
  all: try discriminate.
  all: case_stuck.
  all: try (intros [= <-]; discriminate).
  all: intros _ _.
  all: rewrite Hiso; exec.
  all: destruct o2 as [a2 n2|m2|m2]; exec.
  all: intros Hdown; try done.
  all: unfold Backend.authors; cbn [Backend.podcasts]; exec.
  all: try (destruct (pods !! Podcast.id p) as [q|] eqn:Hq; exec).
  all: case_stuck.
  all: first
         [ split; [apply lookup_insert_eq |]; split; [done |];
           split; [eexists; split; [reflexivity | intros m Hm; by simplify_eq] |];
           split; read_trace; reflexivity
         | exfalso; destruct Hdown as [H|[H|H]];
           [ match goal with
             | Hb : bool_decide (Some _ = Some _) = true |- _ =>
                 apply bool_decide_eq_true_1 in Hb; apply (H _ eq_refl); congruence
             end
           | match goal with
             | Hb : bool_decide (is_Some (_ !! _)) = false |- _ =>
                 by apply bool_decide_eq_false_1 in Hb
             end
           | discriminate ]
         | exfalso; unfold CreateEpisode.estimate in *; cbv zeta in *; congruence ].
Qed.

Lemma failed_insert_leaves_the_upload_witness :
  let w := Gallery.insert_rejected in
  let r := run (CreateEpisode.onSubmit Sample.midnight Sample.episode_form)
               (Sample.chosen Sample.talk) w in
  accepted (Backend.upload "podcast-audio" (audio_path Sample.show w Sample.talk)
                           Sample.talk false) w
  /\ is_Some (episodes_of w !! "e1")
  /\ objects_of r.2 !! ("podcast-audio", audio_path Sample.show w Sample.talk)
     = Some Sample.talk
  /\ episodes_of r.2 = episodes_of w
  /\ existsb is_navigate (issued w r.2) = false.
Proof.
  cbv zeta.
  assert (accepted (Backend.upload "podcast-audio"
                      (audio_path Sample.show Gallery.insert_rejected Sample.talk)
                      Sample.talk false) Gallery.insert_rejected) as Hacc
      by (eexists; split; vm_compute; reflexivity).
  assert (is_Some (episodes_of Gallery.insert_rejected !! "e1")) as Hkey
      by (eexists; vm_compute; reflexivity).
  split; [exact Hacc | split; [exact Hkey |]].
  pose proof (failed_insert_leaves_the_upload Sample.midnight Sample.episode_form
                (Sample.chosen Sample.talk) Gallery.insert_rejected Sample.alice
                Sample.show Sample.talk "2024-01-01T00:00:00.000Z"
                (CreateEpisode.estimate Sample.talk) (Served "id-1" 100)
                (Served "e1" 101) []
                eq_refl eq_refl eq_refl eq_refl eq_refl eq_refl eq_refl Hacc
                (or_intror (or_introl Hkey))) as H.
  destruct (run (CreateEpisode.onSubmit Sample.midnight Sample.episode_form)
                (Sample.chosen Sample.talk) Gallery.insert_rejected) as [s' w'].
  destruct H as (H1 & H2 & _ & H4 & _).
  split; [exact H1 | split; [exact H2 | exact H4]].
Defined.





(** Somebody else's podcast: the page goes back to the dashboard and loads
    nothing. *)
Lemma foreign_podcast_not_loaded :
  let r := run (CreateEpisode.useEffect "p2") CreateEpisode.init Sample.studio in
  CreateEpisode.podcast r.1 = None
  /\ navigate "/dashboard" ∈ issued Sample.studio r.2.
Proof.
  cbv zeta. split; [vm_compute; reflexivity |].
  assert (issued Sample.studio
            (run (CreateEpisode.useEffect "p2") CreateEpisode.init Sample.studio).2
          = [call (Backend.select_podcast "p2"); navigate "/dashboard";
             call Backend.listBuckets]) as -> by (vm_compute; reflexivity).
  rewrite !elem_of_cons. auto.
Qed.

(* ===================================================================== *)
(** ** More on the toggles *)
(* ===================================================================== *)

(** X15: the control under the description of the podcast page.  For a
    visitor who is not signed in it is a link: a click navigates to /login,
    sends nothing and changes nothing.  For a signed-in user it is the
    subscribe button: it sends a delete of the (user, podcast) row when the
    flag is set and an insert when it is not, flips the flag once the call
    resolves, and only logs a rejected call. *)
Theorem subscribe_toggle_protocol (id : string) (s : PodcastDetail.State) (w : World) :
  (user w = None ->
   let '(s', w') := run (subscribe_control id) s w in
   s' = s /\ issued w w' = [navigate "/login"] /\ backend w' = backend w)
  /\ (∀ u, user w = Some u ->
           run (subscribe_control id) s w = run (PodcastDetail.handleSubscribe id) s w
           /\ subscribe_toggle u id s w).
Proof.
  destruct w as [u' ld b net dlg md rnd url tr].
  destruct s as [pc eps sub lo er]. split.
  - cbn [user]. intros ->. unfold subscribe_control. exec.
    split; [done | split; [by read_trace | done]].
  - intros u Hu. cbn in Hu. subst u'. split; [reflexivity |].
    unfold subscribe_toggle, subscribe_request, PodcastDetail.handleSubscribe,
      PodcastDetail.setIsSubscribed.
    destruct sub, net as [|[uuid now|msg|msg] rest]; unfold_prims; cbn;
      try (read_trace; done).
    + case_bool_decide; cbn; read_trace; done.
    + repeat (case_bool_decide; cbn); read_trace; done.
Qed.

Lemma subscribe_toggle_protocol_witness :
  user Sample.anonymous = None
  /\ (let '(s', w') := run (subscribe_control "p1") Sample.detail Sample.anonymous in
      s' = Sample.detail /\ issued Sample.anonymous w' = [navigate "/login"]
      /\ backend w' = backend Sample.anonymous)
  /\ subscribe_toggle Sample.alice "p1" Sample.detail Sample.world.
Proof.
  split; [reflexivity | split].
  - exact (proj1 (subscribe_toggle_protocol "p1" Sample.detail Sample.anonymous) eq_refl).
  - exact (proj2 (proj2 (subscribe_toggle_protocol "p1" Sample.detail Sample.world)
                        Sample.alice eq_refl)).
Defined.

(* ===================================================================== *)
(** ** What the list pages load *)
(* ===================================================================== *)

Section OrderDesc.
Context {A : Type} (key : A -> Z).

Lemma insert_desc_perm (x : A) (l : list A) :
  Backend.insert_desc key x l ≡ₚ x :: l.
Proof.
  induction l as [|y l IH]; cbn; [done |].
  destruct (key y <? key x)%Z; [done |].
  rewrite IH. apply Permutation_swap.
Qed.

Lemma order_desc_perm (l : list A) : Backend.order_desc key l ≡ₚ l.
Proof.
  induction l as [|x l IH]; cbn; [done |].
  rewrite insert_desc_perm. by rewrite IH.
Qed.



End OrderDesc.





(* ===================================================================== *)
(** ** Deleting and creating, seen from the store *)
(* ===================================================================== *)

(** X18: when the store serves the author's confirmed deletion of a
    podcast, its episodes, the subscriptions to it and the favorites of its
    episodes go with it, everything that belongs to other podcasts stays,
    and no favorite, subscription or episode is left pointing at a row
    that is gone. *)
Theorem podcast_deletion_cascades (pid : string) (u : User.t) (p : Podcast.t)
        (s : Dashboard.State) (w : World) :
  user w = Some u -> dialog w = true -> served (head (network w)) = true ->
  podcasts_of w !! pid = Some p -> Podcast.author_id p = User.id u ->
  cascaded pid w (run (Dashboard.handleDeletePodcast pid) s w).2.
Proof.
  intros Hu Hd Hs Hp Ha.
  unfold cascaded, references_hold, podcasts_of, episodes_of, favorites_of,
    subscriptions_of in *.
  destruct w as [u' ld [[pods eps subs favs] [bks objs]] net dlg md rnd url tr].
  destruct s as [l lo er]. cbn in Hu, Hd, Hs, Hp. subst u' dlg.
  destruct net as [|[a1 n1|m1|m1] rest]; try discriminate.
  unfold Dashboard.handleDeletePodcast. exec.
  unfold Backend.authors. exec. rewrite Hp, Ha.
  rewrite bool_decide_eq_true_2 by done. exec.
  unfold Backend.drop_podcast. exec.
  split; [|split; [|split]].
  - intros id e. by rewrite map_lookup_filter_Some.
  - intros k jr. by rewrite map_lookup_filter_Some.
  - intros k jr e He. rewrite map_lookup_filter_Some. cbn. rewrite He. cbn.
    split; intros [? ?]; split; congruence.
  - intros (Hfav & Hsub & Hep). split; [|split].
    + intros k jr Hk. apply map_lookup_filter_Some in Hk as [Hk Hne]. cbn in Hne.
      destruct (Hfav k jr Hk) as [e He]. rewrite He in Hne. cbn in Hne.
      exists e. apply map_lookup_filter_Some. split; [done |]. cbn. congruence.
    + intros k jr Hk. apply map_lookup_filter_Some in Hk as [Hk Hne]. cbn in Hne.
      destruct (Hsub k jr Hk) as [q Hq]. exists q. by rewrite lookup_delete_ne.
    + intros id e Hk. apply map_lookup_filter_Some in Hk as [Hk Hne]. cbn in Hne.
      destruct (Hep id e Hk) as [q Hq]. exists q. by rewrite lookup_delete_ne.
Qed.

Lemma podcast_deletion_cascades_witness :
  cascaded "p1" Sample.world
    (run (Dashboard.handleDeletePodcast "p1") Sample.dashboard Sample.world).2.
Proof.
  apply (podcast_deletion_cascades "p1" Sample.alice Sample.show Sample.dashboard
           Sample.world); reflexivity.
Defined.

Lemma filter_no_match {A : Type} (P : A -> Prop) `{!∀ x, Decision (P x)} (l : list A) :
  Forall (λ x, ~ P x) l -> filter P l = [].
Proof.
  induction 1 as [|x l Hx Hl IH]; [done |].
  by rewrite filter_cons_False.
Qed.

(** X19: a user who has no podcast in the store creates one without a
    cover; when both calls are served, the dashboard mounted next lists
    exactly that podcast, with the title and description of the form. *)
Theorem new_podcast_shows_on_dashboard (data : CreatePodcast.PodcastFormValues)
        (u : User.t) (s : CreatePodcast.State) (w : World)
        (uuid : string) (now : Z) :
  user w = Some u -> CreatePodcast.coverImage s = None ->
  two_served w = true -> head (network w) = Some (Served uuid now) ->
  podcasts_of w !! uuid = None ->
  (∀ id p, podcasts_of w !! id = Some p -> Podcast.author_id p <> User.id u) ->
  let w1 := (run (CreatePodcast.onSubmit data) s w).2 in
  Dashboard.podcasts (run Dashboard.useEffect Dashboard.init w1).1
  = [created_podcast data u uuid now].
Proof.
  intros Hu Hc Hts Hn Hf Hnone. unfold podcasts_of, created_podcast in *.
  destruct w as [u' ld [[pods eps subs favs] [bks objs]] net dlg md rnd url tr].
  destruct s as [ci cp up er br]. destruct data as [ti de].
  cbn in Hu, Hc, Hts, Hn, Hf, Hnone. subst u' ci.
  destruct net as [|[a1 n1|?|?] [|[a2 n2|?|?] rest]]; try discriminate.
  cbn in Hn. simplify_eq.
  unfold CreatePodcast.onSubmit, Dashboard.useEffect, Dashboard.fetchUserPodcasts,
    Dashboard.init.
  exec. rewrite bool_decide_eq_true_2 by done.
  rewrite bool_decide_eq_false_2 by (rewrite Hf; by intros [? ?]). exec.
  set (p := {| Podcast.id := uuid; Podcast.title := ti; Podcast.description := de;
               Podcast.cover_image_url := None; Podcast.author_id := User.id u;
               Podcast.created_at := now; Podcast.updated_at := now |}).
  match goal with
  | |- Backend.order_desc _ ?L = _ => assert (L = [p]) as ->; [|reflexivity]
  end.
  change (filter (λ q, Podcast.author_id q = User.id u)
                 (map_to_list (<[uuid:=p]> pods)).*2 = [p]).
  apply Permutation_singleton_r.
  rewrite map_to_list_insert by done. rewrite fmap_cons. cbn [snd].
  rewrite filter_cons_True by done.
  assert (filter (λ q, Podcast.author_id q = User.id u) (map_to_list pods).*2 = [])
    as ->; [|done].
  apply filter_no_match, Forall_forall. intros q Hq.
  apply list_elem_of_fmap in Hq as ([id q'] & -> & Hin).
  apply elem_of_map_to_list in Hin. by apply (Hnone id).
Qed.

Lemma new_podcast_shows_on_dashboard_witness :
  Dashboard.podcasts
    (run Dashboard.useEffect Dashboard.init
         (run (CreatePodcast.onSubmit Sample.form) CreatePodcast.init
              Gallery.newcomer).2).1
  = [created_podcast Sample.form Gallery.bob "id-1" 100].
Proof.
  apply (new_podcast_shows_on_dashboard Sample.form Gallery.bob CreatePodcast.init
           Gallery.newcomer "id-1" 100); try reflexivity.
  intros id p Hp. unfold podcasts_of in Hp. cbn in Hp.
  apply lookup_insert_Some in Hp as [[_ <-]|[_ Hp]]; [discriminate |].
  apply lookup_singleton_Some in Hp as [_ <-]. discriminate.
Defined.

(** X20: a confirmed episode deletion that the store serves never alerts
    and always drops the row from the local list.  When the user is the
    author of the episode's podcast the store loses that episode and the
    favorites of it, and nothing else: the other episodes and favorites,
    the podcasts, the subscriptions and the storage are as before.  When
    the user is not the author, or the episode is already gone, the
    backend is left exactly as it was. *)
Theorem episode_deletion_frame (eid : string) (u : User.t)
        (s : PodcastEpisodes.State) (w : World) :
  user w = Some u -> dialog w = true -> served (head (network w)) = true ->
  let '(s', w') := run (PodcastEpisodes.handleDeleteEpisode eid) s w in
  episode_deleted eid u s s' w w'.
Proof.
  intros Hu Hd Hs.
  unfold episode_deleted, podcasts_of, episodes_of, favorites_of.
  destruct w as [u' ld [[pods eps subs favs] [bks objs]] net dlg md rnd url tr].
  destruct s as [pc l lo er]. cbn in Hu, Hd, Hs. subst u' dlg.
  destruct net as [|[a1 n1|m1|m1] rest]; try discriminate.
  unfold PodcastEpisodes.handleDeleteEpisode. exec.
  destruct (eps !! eid) as [e|] eqn:He; exec.
  - destruct (Backend.authors _ _ (Episode.podcast_id e)) eqn:Hau; exec.
    + unfold Backend.drop_episode. exec.
      split; [done | split; [by read_trace | split; [done |]]].
      split; [intros id Hne; by rewrite lookup_delete_ne |].
      split; [apply lookup_delete_eq |].
      split; [| by split].
      intros k. case_decide as Hk.
      * apply map_lookup_filter_None. right. intros jr _. cbn. tauto.
      * destruct (favs !! k) as [jr|] eqn:Hjr.
        -- by apply map_lookup_filter_Some.
        -- apply map_lookup_filter_None. by left.
    + split; [done | split; [by read_trace | done]].
  - split; [done | split; [by read_trace | done]].
Qed.

Lemma episode_deletion_frame_witness :
  user Sample.world = Some Sample.alice /\ dialog Sample.world = true
  /\ served (head (network Sample.world)) = true
  /\ episode_deleted "e1" Sample.alice Sample.episode_list
       (run (PodcastEpisodes.handleDeleteEpisode "e1") Sample.episode_list
            Sample.world).1
       Sample.world
       (run (PodcastEpisodes.handleDeleteEpisode "e1") Sample.episode_list
            Sample.world).2.
Proof.
  split; [reflexivity | split; [reflexivity | split; [reflexivity |]]].
  pose proof (episode_deletion_frame "e1" Sample.alice Sample.episode_list Sample.world
                eq_refl eq_refl eq_refl) as H.
  destruct (run (PodcastEpisodes.handleDeleteEpisode "e1") Sample.episode_list
                Sample.world) as [s' w'].
  exact H.
Defined.

(** X21: an upload that comes back with an error ends the submission: on
    both creation pages the upload is then the only request sent (no row is
    inserted), the page does not navigate, the spinner is off and the
    error shown is 'Image upload failed: ...' (cover) or 'Audio upload
    failed: ...' (audio) followed by the message of the store. *)
Theorem failed_upload_sends_no_row (toISOString : string -> option string)
        (cover_data : CreatePodcast.PodcastFormValues)
        (episode_data : CreateEpisode.EpisodeFormValues)
        (sp : CreatePodcast.State) (se : CreateEpisode.State) (w : World)
        (u : User.t) (p : Podcast.t) (cover audio : File.t) :
  user w = Some u ->
  CreatePodcast.coverImage sp = Some cover -> CreatePodcast.bucketReady sp = true ->
  CreateEpisode.podcast se = Some p -> CreateEpisode.audioFile se = Some audio ->
  media w <> no_event ->
  (∀ resp e,
     reply (Backend.upload "podcast-covers" (cover_path u w cover) cover true) w
     = Returned resp ->
     Backend.error resp = Some e ->
     let '(s', w') := run (CreatePodcast.onSubmit cover_data) sp w in
     filter (λ e, is_call e = true) (issued w w')
     = [call (Backend.upload "podcast-covers" (cover_path u w cover) cover true)]
     /\ existsb is_navigate (issued w w') = false
     /\ CreatePodcast.isUploading s' = false
     /\ CreatePodcast.error s'
        = Some ("Image upload failed: " +:+ Err.message e))
  /\ (∀ resp e,
        reply (Backend.upload "podcast-audio" (audio_path p w audio) audio false) w
        = Returned resp ->
        Backend.error resp = Some e ->
        let '(s', w') := run (CreateEpisode.onSubmit toISOString episode_data) se w in
        filter (λ e, is_call e = true) (issued w w')
        = [call (Backend.upload "podcast-audio" (audio_path p w audio) audio false)]
        /\ existsb is_navigate (issued w w') = false
        /\ CreateEpisode.isUploading s' = false
        /\ CreateEpisode.error s'
           = Some ("Audio upload failed: " +:+ Err.message e)).
Proof.
  intros Hu Hci Hbr Hp Haf Hm.
  unfold cover_path, audio_path in *.
  destruct w as [u' ld [[pods eps subs favs] [bks objs]] net dlg md rnd url tr].
  destruct sp as [ci cp up er br]. destruct se as [pc af up' pr er'].
  destruct cover_data as [ti de]. destruct episode_data as [ti' de' pa].
  cbn in Hu, Hci, Hbr, Hp, Haf, Hm. subst u' ci br pc af.
  split; intros resp e.
  - unfold CreatePodcast.onSubmit.
    destruct net as [|[a1 n1|m1|m1] rest]; exec; case_stuck.
    all: intros Hr He; simplify_eq.
    all: repeat split; read_trace; reflexivity.
  - unfold CreateEpisode.onSubmit.
    destruct md as [d| |]; [| |done].
    all: destruct net as [|[a1 n1|m1|m1] rest]; exec; case_stuck.
    all: intros Hr He; simplify_eq.
    all: repeat split; read_trace; reflexivity.
Qed.

Lemma failed_upload_sends_no_row_witness :
  (let '(s', w') :=
     run (CreatePodcast.onSubmit Sample.form) Gallery.with_picture Sample.world in
   filter (λ e, is_call e = true) (issued Sample.world w')
   = [call (Backend.upload "podcast-covers"
                           (cover_path Sample.alice Sample.world Gallery.picture)
                           Gallery.picture true)]
   /\ existsb is_navigate (issued Sample.world w') = false
   /\ CreatePodcast.isUploading s' = false
   /\ CreatePodcast.error s'
      = Some ("Image upload failed: " +:+ "Bucket not found"))
  /\ (let '(s', w') :=
        run (CreateEpisode.onSubmit Sample.midnight Sample.episode_form)
            (Sample.chosen Sample.talk) Sample.world in
      filter (λ e, is_call e = true) (issued Sample.world w')
      = [call (Backend.upload "podcast-audio"
                              (audio_path Sample.show Sample.world Sample.talk)
                              Sample.talk false)]
      /\ existsb is_navigate (issued Sample.world w') = false
      /\ CreateEpisode.isUploading s' = false
      /\ CreateEpisode.error s'
         = Some ("Audio upload failed: " +:+ "Bucket not found")).
Proof.
  destruct (failed_upload_sends_no_row Sample.midnight Sample.form Sample.episode_form
              Gallery.with_picture (Sample.chosen Sample.talk) Sample.world
              Sample.alice Sample.show Gallery.picture Sample.talk)
    as [Hc Ha]; try reflexivity; [discriminate |].
  split.
  - exact (Hc (Backend.failed "404" "Bucket not found")
              {| Err.code := "404"; Err.message := "Bucket not found" |}
              eq_refl eq_refl).
  - exact (Ha (Backend.failed "404" "Bucket not found")
              {| Err.code := "404"; Err.message := "Bucket not found" |}
              eq_refl eq_refl).
Defined.

Lemma favorites_page_lists (uid eid : string) (d : Backend.DB) :
  (∃ row, row ∈ Backend.favorites_page (Some uid) uid d
          /\ Favorite.episode_id row = eid)
  <-> is_Some (Backend.favorites d !! (uid, eid)).
Proof.
  unfold Backend.favorites_page. rewrite bool_decide_eq_true_2 by done.
  split.
  - intros (row & Hin & <-). revert Hin.
    rewrite order_desc_perm, list_elem_of_fmap.
    intros ([[uid' eid'] jr] & -> & Hin).
    apply list_elem_of_filter in Hin as [Hown Hin]. cbn in Hown. subst uid'.
    apply elem_of_map_to_list in Hin. cbn. by eexists.
  - intros [jr Hjr]. eexists. rewrite order_desc_perm, list_elem_of_fmap. split.
    + exists (uid, eid, jr). split; [reflexivity |].
      apply list_elem_of_filter. split; [done |].
      by apply elem_of_map_to_list.
    + done.
Qed.

(** X22: the heart button and the favorites page agree.  When the store
    serves the toggle and then the page's query, and the episode exists,
    the favorites page lists the episode exactly when the button shows it
    as a favorite after the toggle. *)
Theorem favorites_page_agrees_with_button (u : User.t) (e : Episode.t)
        (s : EpisodePlayer.State) (w : World) :
  user w = Some u -> EpisodePlayer.episode s = Some e ->
  is_Some (episodes_of w !! Episode.id e) -> two_served w = true ->
  let '(s1, w1) := run EpisodePlayer.handleFavorite s w in
  on_favorites_page (Episode.id e) w1 <-> EpisodePlayer.isFavorite s1 = true.
Proof.
  intros Hu He Hex Hs. unfold on_favorites_page, episodes_of in *.
  destruct w as [u' ld [[pods eps subs favs] [bks objs]] net dlg md rnd url tr].
  destruct s as [ep pc lo er fav]. cbn in Hu, He, Hex, Hs. subst u' ep.
  destruct net as [|[a1 n1|m1|m1] [|[a2 n2|m2|m2] rest]]; try discriminate.
  unfold EpisodePlayer.handleFavorite, Favorites.useEffect, Favorites.fetchFavorites.
  destruct fav; exec.
  all: rewrite (bool_decide_eq_true_2 (Some (User.id u) = Some (User.id u))) by done.
  all: exec.
  - rewrite favorites_page_lists. cbn. rewrite lookup_delete_eq.
    split; [intros [? ?]; discriminate | discriminate].
  - rewrite (bool_decide_eq_true_2 _ Hex). exec.
    destruct (bool_decide (is_Some (favs !! (User.id u, Episode.id e)))) eqn:Hd; exec.
    + rewrite favorites_page_lists. cbn.
      apply bool_decide_eq_true_1 in Hd. tauto.
    + rewrite favorites_page_lists. cbn. rewrite lookup_insert_eq.
      split; [done | by eexists].
Qed.

Lemma favorites_page_agrees_with_button_witness :
  user Sample.world = Some Sample.alice
  /\ EpisodePlayer.episode Sample.player = Some Sample.pilot
  /\ two_served Sample.world = true
  /\ (on_favorites_page (Episode.id Sample.pilot)
        (run EpisodePlayer.handleFavorite Sample.player Sample.world).2
      <-> EpisodePlayer.isFavorite
            (run EpisodePlayer.handleFavorite Sample.player Sample.world).1 = true).
Proof.
  split; [reflexivity | split; [reflexivity | split; [reflexivity |]]].
  assert (Hex : is_Some (episodes_of Sample.world !! Episode.id Sample.pilot))
    by (eexists; vm_compute; reflexivity).
  pose proof (favorites_page_agrees_with_button Sample.alice Sample.pilot Sample.player
                Sample.world eq_refl eq_refl Hex eq_refl) as H.
  destruct (run EpisodePlayer.handleFavorite Sample.player Sample.world) as [s1 w1].
  exact H.
Defined.

(** X23: once the store has served the author's confirmed deletion of an
    episode, the favorites page lists it for nobody: whoever is signed in,
    and whatever the store answers, a favorites page mounted on the store
    as the deletion left it has no row for that episode. *)
Theorem deleted_episode_off_every_favorites_page (eid : string) (u : User.t)
        (e : Episode.t) (s : PodcastEpisodes.State) (w w2 : World) :
  user w = Some u -> dialog w = true -> served (head (network w)) = true ->
  episodes_of w !! eid = Some e ->
  Backend.authors (Some (User.id u)) (Backend.db (backend w)) (Episode.podcast_id e)
  = true ->
  backend w2 = backend (run (PodcastEpisodes.handleDeleteEpisode eid) s w).2 ->
  ~ on_favorites_page eid w2.
Proof.
  intros Hu Hd Hs He Hau Hb. unfold on_favorites_page, episodes_of in *.
  destruct w as [u' ld [[pods eps subs favs] [bks objs]] net dlg md rnd url tr].
  destruct s as [pc l lo er]. cbn in Hu, Hd, Hs, He, Hau. subst u' dlg.
  destruct net as [|[a1 n1|m1|m1] rest]; try discriminate.
  revert Hb. unfold PodcastEpisodes.handleDeleteEpisode. exec.
  rewrite He. exec. rewrite Hau. exec. intros Hb.
  destruct w2 as [[v|] ld2 b2 net2 dlg2 md2 rnd2 url2 tr2]; cbn in Hb; subst b2.
  - unfold Favorites.useEffect, Favorites.fetchFavorites.
    destruct net2 as [|[a2 n2|m2|m2] rest2]; exec.
    2: { intros Hrow. apply favorites_page_lists in Hrow as [jr Hjr].
         unfold Backend.drop_episode in Hjr. cbn in Hjr.
         apply map_lookup_filter_Some in Hjr as [_ Hne]. by apply Hne. }
    all: intros (row & Hin & _); by apply elem_of_nil in Hin.
  - unfold Favorites.useEffect. exec.
    intros (row & Hin & _). by apply elem_of_nil in Hin.
Qed.

Lemma deleted_episode_off_every_favorites_page_witness :
  user Sample.favorited_elsewhere = Some Sample.alice
  /\ on_favorites_page "e1" Sample.favorited_elsewhere
  /\ ~ on_favorites_page "e1"
       (run (PodcastEpisodes.handleDeleteEpisode "e1") Sample.episode_list
            Sample.favorited_elsewhere).2.
Proof.
  split; [reflexivity | split].
  - unfold on_favorites_page.
    set (page := Favorites.favorites _). vm_compute in page. subst page.
    eexists. split; [apply list_elem_of_here | reflexivity].
  - apply (deleted_episode_off_every_favorites_page "e1" Sample.alice Sample.pilot
             Sample.episode_list Sample.favorited_elsewhere).
    + reflexivity.
    + reflexivity.
    + reflexivity.
    + vm_compute. reflexivity.
    + vm_compute. reflexivity.
    + reflexivity.
Defined.
